(** * goadb: device session and transport-selection layer

    A shallow embedding of the Go package [adb] (device descriptors, device
    state classification, command-line preparation, the transport session,
    the response-mode client and the file push engine), with the properties
    of its specification stated and settled against the code.

    Go values are modelled as the code has them: a [string] or [[]byte] is a
    byte string, an [int] enum is a [Z] with named constants, a nilable
    [error] is an [option error], a [map[string]T] is a [gmap string T].
    Calls into the connection library, the operating system and the progress
    bar library are operations of an abstract world, recorded in a call
    trace. *)

From stdpp Require Import base strings gmap list pretty.
From Stdlib Require Import ZArith Lia Ascii String.

Local Open Scope string_scope.
Local Open Scope Z_scope.

(** ** Byte strings: the functions of Go's [strings] package that the code uses *)

Module Strings.

(** [len(s)]: the number of bytes. *)
Definition len (s : string) : Z := Z.of_nat (String.length s).

(** [strings.HasPrefix(s, prefix)]. *)
Fixpoint HasPrefix (s prefix : string) : bool :=
  match prefix, s with
  | EmptyString, _ => true
  | String _ _, EmptyString => false
  | String p prefix', String c s' => if Ascii.eqb c p then HasPrefix s' prefix' else false
  end.

(** [strings.Contains(s, substr)]: some suffix of [s] starts with [substr]. *)
Fixpoint Contains (s substr : string) : bool :=
  HasPrefix s substr ||
  match s with
  | EmptyString => false
  | String _ s' => Contains s' substr
  end.

(** [strings.ContainsRune(s, r)] for a rune below 0x80: such a rune is one
    byte in UTF-8 and that byte occurs in no multi-byte sequence. *)
Fixpoint ContainsRune (s : string) (r : ascii) : bool :=
  match s with
  | EmptyString => false
  | String c s' => Ascii.eqb c r || ContainsRune s' r
  end.

(** [strings.ContainsAny(s, chars)] for ASCII [chars]. *)
Fixpoint ContainsAny (s chars : string) : bool :=
  match s with
  | EmptyString => false
  | String c s' => ContainsRune chars c || ContainsAny s' chars
  end.

(** [strings.Join(elems, sep)]. *)
Fixpoint Join (elems : list string) (sep : string) : string :=
  match elems with
  | [] => ""
  | [e] => e
  | e :: rest => e +:+ sep +:+ Join rest sep
  end.

(** The table [asciiSpace] of the package: tab, line feed, vertical tab,
    form feed, carriage return and space. *)
Definition isSpace (c : ascii) : bool :=
  let n := nat_of_ascii c in
  ((9 <=? n) && (n <=? 13) || (n =? 32))%nat.

(** The number of bytes of the rune at the head of [s] when that rune is
    white space for [unicode.IsSpace], and 0 otherwise. Beyond the six
    ASCII bytes these are U+0085 and U+00A0 (C2 85, C2 A0), U+1680
    (E1 9A 80), U+2000 to U+200A, U+2028, U+2029 and U+202F (E2 80 80 to
    8A, A8, A9, AF), U+205F (E2 81 9F) and U+3000 (E3 80 80). A byte that
    starts one of these sequences is no continuation byte, so the decoder
    of Go always reaches it at the start of a rune. *)
Definition space_width (s : string) : nat :=
  match s with
  | EmptyString => 0
  | String c rest =>
      let n := nat_of_ascii c in
      if isSpace c then 1
      else if (n =? 194)%nat then
        match rest with
        | String d _ =>
            let m := nat_of_ascii d in
            if ((m =? 133) || (m =? 160))%nat then 2 else 0
        | _ => 0
        end
      else if (n =? 225)%nat then
        match rest with
        | String d (String e _) =>
            if ((nat_of_ascii d =? 154) && (nat_of_ascii e =? 128))%nat then 3 else 0
        | _ => 0
        end
      else if (n =? 226)%nat then
        match rest with
        | String d (String e _) =>
            let m := nat_of_ascii d in
            let k := nat_of_ascii e in
            if ((m =? 128) &&
                ((128 <=? k) && (k <=? 138) || (k =? 168) || (k =? 169) || (k =? 175))
                || (m =? 129) && (k =? 159))%nat
            then 3 else 0
        | _ => 0
        end
      else if (n =? 227)%nat then
        match rest with
        | String d (String e _) =>
            if ((nat_of_ascii d =? 128) && (nat_of_ascii e =? 128))%nat then 3 else 0
        | _ => 0
        end
      else 0
  end%nat.

Fixpoint take (k : nat) (s : string) : string :=
  match k, s with
  | S k', String c rest => String c (take k' rest)
  | _, _ => EmptyString
  end.

(** A string cut into its white-space runes, marked [true] and holding
    the bytes of the rune, and its other bytes, one by one; [skip] counts
    the bytes of a white-space rune still to pass over. *)
Fixpoint runes (skip : nat) (s : string) : list (bool * string) :=
  match s with
  | EmptyString => []
  | String c rest =>
      match skip with
      | S k => runes k rest
      | O =>
          match space_width s with
          | O => (false, String c EmptyString) :: runes 0 rest
          | S k => (true, String c (take k rest)) :: runes k rest
          end
      end
  end.

Fixpoint drop_spaces (l : list (bool * string)) : list (bool * string) :=
  match l with
  | (true, _) :: rest => drop_spaces rest
  | _ => l
  end.

Definition bytes_of (l : list (bool * string)) : string :=
  fold_right (fun t acc => snd t +:+ acc) EmptyString l.

(** [strings.TrimSpace(s)]: [s] without the white-space runes, as
    [unicode.IsSpace] has them, at its two ends. *)
Definition TrimSpace (s : string) : string :=
  bytes_of (rev (drop_spaces (rev (drop_spaces (runes 0 s))))).

End Strings.

(** ** [fmt.Sprintf], for the verbs the package uses *)

Module Fmt.

(** An operand of a formatting call: a string (or a value whose [String()]
    has been taken) or an integer. *)
Inductive Arg :=
| Str (s : string)
| Int (n : Z).

Definition render (a : Arg) : string :=
  match a with
  | Str s => s
  | Int n => pretty n
  end.

Definition typed (a : Arg) : string :=
  match a with
  | Str s => "string=" +:+ s
  | Int n => "int=" +:+ pretty n
  end.

Definition verb_fits (v : ascii) (a : Arg) : bool :=
  match a with
  | Str _ => Ascii.eqb v "s" || Ascii.eqb v "v"
  | Int _ => Ascii.eqb v "d" || Ascii.eqb v "v"
  end.

Definition extra (args : list Arg) : string :=
  match args with
  | [] => ""
  | _ => "%!(EXTRA " +:+ Strings.Join (map typed args) ", " +:+ ")"
  end.

(** The verbs [%s], [%d], [%v] take the next operand, [%%] is a percent
    sign; a verb without an operand prints [%!v(MISSING)], an operand of
    the wrong kind [%!v(type=value)], operands left over [%!(EXTRA ...)]
    and a trailing percent sign [%!(NOVERB)], as [fmt] does. *)
Fixpoint Sprintf (format : string) (args : list Arg) : string :=
  match format with
  | EmptyString => extra args
  | String "%" EmptyString => "%!(NOVERB)" +:+ extra args
  | String "%" (String "%" rest) => "%" +:+ Sprintf rest args
  | String "%" (String v rest) =>
      match args with
      | [] => "%!" +:+ String v "(MISSING)" +:+ Sprintf rest []
      | a :: args' =>
          (if verb_fits v a then render a
           else "%!" +:+ String v ("(" +:+ typed a +:+ ")"))
          +:+ Sprintf rest args'
      end
  | String c rest => String c (Sprintf rest args)
  end.

End Fmt.

(** ** Outcomes: a Go call returns or panics *)

Inductive Outcome (A : Type) : Type :=
| Ret (a : A)
| Panic (msg : string).
Arguments Ret {A} a.
Arguments Panic {A} msg.

(** ** Device descriptors (src/device_descriptor.go) *)

(** [type deviceDescriptorType int], with the constants in [iota] order. *)
Definition deviceDescriptorType := Z.
Definition DeviceAny : deviceDescriptorType := 0.
Definition DeviceSerial : deviceDescriptorType := 1.
Definition DeviceUsb : deviceDescriptorType := 2.
Definition DeviceLocal : deviceDescriptorType := 3.
Definition DeviceTransportId : deviceDescriptorType := 4.

Record DeviceDescriptor := {
  descriptorType : deviceDescriptorType;
  serial : string;
  transportId : string
}.

Definition AnyDevice : DeviceDescriptor :=
  {| descriptorType := DeviceAny; serial := ""; transportId := "" |}.
Definition AnyUsbDevice : DeviceDescriptor :=
  {| descriptorType := DeviceUsb; serial := ""; transportId := "" |}.
Definition AnyLocalDevice : DeviceDescriptor :=
  {| descriptorType := DeviceLocal; serial := ""; transportId := "" |}.
Definition DeviceWithSerial (s : string) : DeviceDescriptor :=
  {| descriptorType := DeviceSerial; serial := s; transportId := "" |}.
Definition DeviceWithTransportId (tid : string) : DeviceDescriptor :=
  {| descriptorType := DeviceTransportId; serial := ""; transportId := tid |}.

(** Modelled from the spec: the [String()] method of [deviceDescriptorType],
    which [go:generate stringer] writes to a file that is not among the
    sources; it renders the variant name, and a value outside the constants
    as the type name with the number. *)
Definition deviceDescriptorType_String (t : deviceDescriptorType) : string :=
  if t =? DeviceAny then "DeviceAny"
  else if t =? DeviceSerial then "DeviceSerial"
  else if t =? DeviceUsb then "DeviceUsb"
  else if t =? DeviceLocal then "DeviceLocal"
  else if t =? DeviceTransportId then "DeviceTransportId"
  else "deviceDescriptorType(" +:+ pretty t +:+ ")".

Definition DeviceDescriptor_String (d : DeviceDescriptor) : string :=
  if descriptorType d =? DeviceSerial then
    Fmt.Sprintf "%s[%s]"
      [Fmt.Str (deviceDescriptorType_String (descriptorType d)); Fmt.Str (serial d)]
  else deviceDescriptorType_String (descriptorType d).

Definition getHostPrefix (d : DeviceDescriptor) : Outcome string :=
  let t := descriptorType d in
  if t =? DeviceAny then Ret "host"
  else if t =? DeviceUsb then Ret "host-usb"
  else if t =? DeviceLocal then Ret "host-local"
  else if t =? DeviceSerial then Ret (Fmt.Sprintf "host-serial:%s" [Fmt.Str (serial d)])
  else if t =? DeviceTransportId then
    Ret (Fmt.Sprintf "host-transport-id:%s" [Fmt.Str (transportId d)])
  else Panic (Fmt.Sprintf "invalid DeviceDescriptorType: %v"
                [Fmt.Str (deviceDescriptorType_String t)]).

Definition getTransportDescriptor (d : DeviceDescriptor) : Outcome string :=
  let t := descriptorType d in
  if t =? DeviceAny then Ret "transport-any"
  else if t =? DeviceUsb then Ret "transport-usb"
  else if t =? DeviceLocal then Ret "transport-local"
  else if t =? DeviceSerial then Ret (Fmt.Sprintf "transport:%s" [Fmt.Str (serial d)])
  else if t =? DeviceTransportId then
    Ret (Fmt.Sprintf "transport-id:%s" [Fmt.Str (transportId d)])
  else Panic (Fmt.Sprintf "invalid DeviceDescriptorType: %v"
                [Fmt.Str (deviceDescriptorType_String t)]).

(** ** Device states (src/device_state.go) *)

(** [type DeviceState int8]: the four constants of the file in [iota] order,
    and [StateUnauthorized], which [Device.State] returns and whose
    declaration is not among the sources. *)
Inductive DeviceState :=
| StateInvalid
| StateDisconnected
| StateOffline
| StateOnline
| StateUnauthorized.

#[global] Instance DeviceState_eq_dec : EqDecision DeviceState.
Proof. solve_decision. Defined.

(** The zero value of the type, which a failed map lookup yields. *)
#[global] Instance DeviceState_inhabited : Inhabited DeviceState :=
  populate StateInvalid.

Definition deviceStateStrings : gmap string DeviceState :=
  <[ "" := StateDisconnected ]>
    (<[ "offline" := StateOffline ]>
       (<[ "device" := StateOnline ]> ∅)).

(** ** Errors *)

(** [type Device struct]: the descriptor identifies the device; the server
    the handle dials is the world of the session operations below. *)
Record Device := { descriptor : DeviceDescriptor }.

Definition Device_String (c : Device) : string :=
  DeviceDescriptor_String (descriptor c).

(** The error codes of the package [internal/errors], which is not among
    the sources; the code names [ParseError] and [DeviceNotFound] and calls
    [AssertionErrorf]. *)
Inductive ErrCode :=
| AssertionError
| ParseError
| ServerNotAvailable
| NetworkError
| ConnectionResetError
| AdbError
| DeviceNotFound
| FileNoExistError.

(** A Go [error] value, by dynamic type: [*errors.Err] with its four fields,
    [*os.PathError], [syscall.Errno], the sentinels of package [io], and any
    other error with its text. A nil [error] is [None : option error]. *)
#[warnings="-register-all"]
Inductive error :=
| Err (Code : ErrCode) (Message : string) (Details : option Device) (Cause : option error)
| PathError (Op Path : string) (Err : error)
| Errno (n : Z)
| io_EOF
| io_ErrShortWrite
| io_errInvalidWrite
| errorString (s : string).

Definition EPIPE : Z := 32.
Definition ENOENT : Z := 2.

(** The dynamic type test of an error against [*errors.Err]. *)
Definition is_Err (e : error) : bool :=
  match e with
  | Err _ _ _ _ => true
  | _ => false
  end.

(** The package [internal/errors] is not among the sources. The [Error()]
    method of every error value (that of [*errors.Err], and the texts of the
    operating system's errors) and [errors.WrapErrf] are parameters of the
    development. *)
Class ErrorsPkg := {
  Error : error -> string;
  errors_WrapErrf : option error -> string -> list Fmt.Arg -> Outcome (option error)
}.

(** [errors.Errorf(code, format, args...)] and [errors.AssertionErrorf]
    build an [*errors.Err] with the formatted message. *)
Definition errors_Errorf (code : ErrCode) (format : string) (args : list Fmt.Arg) : error :=
  Err code (Fmt.Sprintf format args) None None.

Definition errors_AssertionErrorf (format : string) (args : list Fmt.Arg) : error :=
  Err AssertionError (Fmt.Sprintf format args) None None.

(** ** Two copies of the state classifier

    The source holds the file twice. The first copy (lines 24-27) discards
    the flag of the map lookup; the second (lines 53-60) tests it and, for a
    token that is not a key, logs a diagnostic and answers
    [StateDisconnected]. The diagnostic goes to the process log and is not
    part of the result. *)

Module DeviceStateFirst.

Definition parseDeviceState (str : string) : DeviceState * option error :=
  let state := default inhabitant (deviceStateStrings !! str) in
  (state, None).

End DeviceStateFirst.

Module DeviceStateSecond.

Definition parseDeviceState (str : string) : DeviceState * option error :=
  match deviceStateStrings !! str with
  | None => (StateDisconnected, None)
  | Some state => (state, None)
  end.

End DeviceStateSecond.

(** ** Helpers (src/unnamed/part_000) *)

(** [reflect.TypeOf(client)] printed with [%s]: every caller passes the
    [*Device] it is a method of, whose type prints as below. *)
Definition reflect_TypeOf (client : Device) : string := "*adb.Device".

(** [strings.ContainsAny(str, " \t\v")]. *)
Definition containsWhitespace (str : string) : bool :=
  Strings.ContainsAny str (String " " (String "009" (String "011" EmptyString))).

(** The class [\s] of Go's regular expressions: tab, line feed, form feed,
    carriage return and space. *)
Definition regexp_space (c : ascii) : bool :=
  let n := nat_of_ascii c in
  ((n =? 9) || (n =? 10) || (n =? 12) || (n =? 13) || (n =? 32))%nat.

(** [whitespaceRegex.MatchString(str)] for the expression [^\s*$]: without
    the multi-line flag the anchors are the ends of the text, so the match
    succeeds when every byte is in [\s]. *)
Fixpoint isBlank (str : string) : bool :=
  match str with
  | EmptyString => true
  | String c rest => regexp_space c && isBlank rest
  end.

Definition wrapClientError `{ErrorsPkg} (err : option error) (client : Device)
    (operation : string) (args : list Fmt.Arg) : Outcome (option error) :=
  match err with
  | None => Ret None
  | Some e =>
      match e with
      | Err code _ _ _ =>
          let clientType := reflect_TypeOf client in
          Ret (Some (Err code
                       (Fmt.Sprintf "error performing %s on %s"
                          [Fmt.Str (Fmt.Sprintf operation args); Fmt.Str clientType])
                       (Some client)
                       (Some e)))
      | _ => Panic ("err is not a *Err: " +:+ Error e)
      end
  end.

(** ** The command-line preparer (src/adb_test.go, lines 303-325) *)

Definition dquote : ascii := ascii_of_nat 34.

(** The loop over [args] with its index: the first argument that holds a
    double quote ends it with a parse error; the test for white space has an
    empty body. *)
Fixpoint check_args (i : Z) (args : list string) : option error :=
  match args with
  | [] => None
  | arg :: rest =>
      if Strings.ContainsRune arg dquote then
        Some (errors_Errorf ParseError
                "arg at index %d contains an invalid double quote: %s"
                [Fmt.Int i; Fmt.Str arg])
      else
        if containsWhitespace arg then check_args (i + 1) rest
        else check_args (i + 1) rest
  end.

Definition prepareCommandLine (cmd : string) (args : list string) : string * option error :=
  if isBlank cmd then
    (EmptyString, Some (errors_AssertionErrorf "command cannot be empty" []))
  else
    match check_args 0 args with
    | Some e => (EmptyString, Some e)
    | None =>
        if 0 <? Z.of_nat (List.length args) then
          (Fmt.Sprintf "%s %s" [Fmt.Str cmd; Fmt.Str (Strings.Join args " ")], None)
        else (cmd, None)
    end.

(** ** The world of a device session

    The connection library [wire], the package [internal/errors], the local
    file system and the progress bar library are not among the sources. Their
    operations are the fields of the classes below: each takes the state of
    the world and gives its result and the next state. *)

(** A [*wire.Conn] (and the [*wire.SyncConn] over it) and the writer that
    [sendFile] returns, by identity. *)
Definition Conn := nat.
Definition FileWriter := nat.

(** [time.Time]: the zero value, which is [MtimeOfClose], or an instant. *)
Inductive Time :=
| ZeroTime
| Instant (ns : Z).

Definition MtimeOfClose : Time := ZeroTime.

(** One result of a [Read] on a byte source: the bytes delivered and the
    error returned with them. *)
Record ReadResult := { rbytes : string; rerr : option error }.

(** A byte source, as the results of its successive [Read] calls; once they
    are used up the source is at a clean end of stream. *)
Definition Reader := list ReadResult.

(** An open [*os.File]. *)
Record File := { fname : string; fdata : Reader }.

(** The fields of [os.FileInfo] that the code reads. *)
Record FileInfo := { Size : Z; Mode : Z; ModTime : Time }.

Record PushEvent := {
  Current : Z;
  Total : Z;
  Speed : string;
  Raw : string
}.

(** A caller-supplied callback, by identity; its calls are recorded in the
    trace. A nil callback is [None]. *)
Definition Observer := nat.

(** The calls that leave the package, in the order they are made. *)
Inductive Call :=
| CallDial
| CallSendMessage (c : Conn) (msg : string)
| CallReadStatus (c : Conn) (req : string)
| CallReadUntilEof (c : Conn)
| CallClose (c : Conn)
| CallRoundTrip (req : string)
| CallSendFile (c : Conn) (path : string) (perms : Z) (mtime : Time)
| CallWrite (w : FileWriter) (p : string)
| CallWriterClose (w : FileWriter)
| CallOpen (path : string)
| CallStat (path : string)
| CallFileClose (name : string)
| CallObserve (cb : Observer) (ev : PushEvent)
| CallHandler (handler : Observer) (size total : Z).

Class Wire (W : Type) := {
  (** [server.Dial()] *)
  server_Dial : W -> (Conn + error) * W;
  (** [conn.SendMessage(msg)], which [wire.SendMessageString] also calls *)
  Conn_SendMessage : Conn -> string -> W -> option error * W;
  (** [conn.ReadStatus(req)] *)
  Conn_ReadStatus : Conn -> string -> W -> (string * option error) * W;
  (** [conn.ReadUntilEof()] *)
  Conn_ReadUntilEof : Conn -> W -> (string * option error) * W;
  (** [conn.Close()] *)
  Conn_Close : Conn -> W -> option error * W;
  (** [roundTripSingleResponse(server, req)] *)
  roundTripSingleResponse : string -> W -> (string * option error) * W;
  (** [sendFile(conn, path, perms, mtime)] *)
  sendFile : Conn -> string -> Z -> Time -> W -> (FileWriter + error) * W;
  (** [Write] and [Close] of the writer of [sendFile] *)
  Writer_Write : FileWriter -> string -> W -> (Z * option error) * W;
  Writer_Close : FileWriter -> W -> option error * W;
  (** [os.Open], [os.Stat], [os.Stdin] and [Close] of a file *)
  os_Open : string -> W -> (File + error) * W;
  os_Stat : string -> W -> (FileInfo + error) * W;
  os_Stdin : W -> File;
  File_Close : File -> W -> option error * W
}.

(** The state a call runs in: the world and the trace of calls so far. *)
Record St (W : Type) := mkSt { world : W; calls : list Call }.
Arguments mkSt {W} world calls.
Arguments world {W} s.
Arguments calls {W} s.

(** A Go function body: from a state to an outcome and the next state. A
    panic ends the body; the deferred calls still run (see [defer]). *)
Definition M (W A : Type) : Type := St W -> Outcome A * St W.

Definition ret {W A} (a : A) : M W A := fun s => (Ret a, s).

Definition bind {W A B} (m : M W A) (k : A -> M W B) : M W B :=
  fun s =>
    match m s with
    | (Ret a, s1) => k a s1
    | (Panic msg, s1) => (Panic msg, s1)
    end.

Notation "'let*' x ':=' m 'in' k" := (bind m (fun x => k))
  (at level 10, x pattern, m at level 100, k at level 200).

(** A pure computation that may panic. *)
Definition lift {W A} (o : Outcome A) : M W A := fun s => (o, s).

(** [defer f()] before [body]: [f] runs when the body returns or panics,
    and the body's outcome stands. *)
Definition defer {W A B} (f : M W B) (body : M W A) : M W A :=
  fun s =>
    let '(o, s1) := body s in
    let '(_, s2) := f s1 in
    (o, s2).

(** The use of a pointer: a nil pointer panics. *)
Definition deref {W A} (p : option A) : M W A :=
  match p with
  | Some a => ret a
  | None => lift (Panic "runtime error: invalid memory address or nil pointer dereference")
  end.

(** A call into the world, recorded in the trace. *)
Definition call {W A} (c : Call) (op : W -> A * W) : M W A :=
  fun s =>
    let '(a, w) := op (world s) in
    (Ret a, mkSt w (calls s ++ [c])).

Section Session.

Context {W : Type} `{ErrorsPkg} `{Wire W}.

Definition Dial : M W (Conn + error) := call CallDial server_Dial.
Definition SendMessage (conn : Conn) (msg : string) : M W (option error) :=
  call (CallSendMessage conn msg) (Conn_SendMessage conn msg).
Definition ReadStatus (conn : Conn) (req : string) : M W (string * option error) :=
  call (CallReadStatus conn req) (Conn_ReadStatus conn req).
Definition ReadUntilEof (conn : Conn) : M W (string * option error) :=
  call (CallReadUntilEof conn) (Conn_ReadUntilEof conn).
Definition Close (conn : Conn) : M W (option error) :=
  call (CallClose conn) (Conn_Close conn).

(** ** The transport session (src/adb_test.go, lines 264-301) *)

Definition dialDevice (c : Device) : M W (option Conn * option error) :=
  let* r := Dial in
  match r with
  | inr err => ret (None, Some err)
  | inl conn =>
      let* td := lift (getTransportDescriptor (descriptor c)) in
      let req := Fmt.Sprintf "host:%s" [Fmt.Str td] in
      let* err := SendMessage conn req in
      match err with
      | Some e =>
          let* _ := Close conn in
          let* wrapped :=
            lift (errors_WrapErrf (Some e) "error connecting to device '%s'"
                    [Fmt.Str (DeviceDescriptor_String (descriptor c))]) in
          ret (None, wrapped)
      | None =>
          let* st := ReadStatus conn req in
          match snd st with
          | Some e =>
              let* _ := Close conn in
              ret (None, Some e)
          | None => ret (Some conn, None)
          end
      end
  end.

Definition getSyncConn (c : Device) : M W (option Conn * option error) :=
  let* r := dialDevice c in
  match snd r with
  | Some e => ret (None, Some e)
  | None =>
      let* conn := deref (fst r) in
      let* err := SendMessage conn "sync:" in
      match err with
      | Some e => ret (None, Some e)
      | None =>
          let* st := ReadStatus conn "sync" in
          match snd st with
          | Some e => ret (None, Some e)
          | None => ret (Some conn, None)
          end
      end
  end.

(** ** The response-mode client (src/adb_test.go, lines 98-186 and 255-262) *)

Definition getAttribute (c : Device) (attr : string) : M W (string * option error) :=
  let* prefix := lift (getHostPrefix (descriptor c)) in
  let* r := call (CallRoundTrip (Fmt.Sprintf "%s:%s" [Fmt.Str prefix; Fmt.Str attr]))
              (roundTripSingleResponse (Fmt.Sprintf "%s:%s" [Fmt.Str prefix; Fmt.Str attr])) in
  match snd r with
  | Some e => ret (EmptyString, Some e)
  | None => ret (fst r, None)
  end.

Definition Serial (c : Device) : M W (string * option error) :=
  let* r := getAttribute c "get-serialno" in
  let* err := lift (wrapClientError (snd r) c "Serial" []) in
  ret (fst r, err).

(** [State] calls the classifier of the package; the branches taken when
    the fetch fails do not reach it. *)
Definition State (c : Device) : M W (DeviceState * option error) :=
  let* r := getAttribute c "get-state" in
  match snd r with
  | Some e =>
      if Strings.Contains (Error e) "unauthorized" then ret (StateUnauthorized, None)
      else
        let* err := lift (wrapClientError (Some e) c "State" []) in
        ret (StateInvalid, err)
  | None =>
      let '(state, perr) := DeviceStateSecond.parseDeviceState (fst r) in
      let* err := lift (wrapClientError perr c "State" []) in
      ret (state, err)
  end.

Definition RunCommand (c : Device) (cmd : string) (args : list string)
    : M W (string * option error) :=
  match prepareCommandLine cmd args with
  | (_, Some e) =>
      let* err := lift (wrapClientError (Some e) c "RunCommand" []) in
      ret (EmptyString, err)
  | (cmd, None) =>
      let* r := dialDevice c in
      match snd r with
      | Some e =>
          let* err := lift (wrapClientError (Some e) c "RunCommand" []) in
          ret (EmptyString, err)
      | None =>
          let* conn := deref (fst r) in
          defer (Close conn)
            (let req := Fmt.Sprintf "shell:%s" [Fmt.Str cmd] in
             let* err := SendMessage conn req in
             match err with
             | Some e =>
                 let* err := lift (wrapClientError (Some e) c "RunCommand" []) in
                 ret (EmptyString, err)
             | None =>
                 let* st := ReadStatus conn req in
                 match snd st with
                 | Some e =>
                     let* err := lift (wrapClientError (Some e) c "RunCommand" []) in
                     ret (EmptyString, err)
                 | None =>
                     let* resp := ReadUntilEof conn in
                     let* err := lift (wrapClientError (snd resp) c "RunCommand" []) in
                     ret (fst resp, err)
                 end
             end)
      end
  end.

End Session.

(** ** Copying: [io.Copy] and [io.MultiWriter] *)

(** [int64] arithmetic wraps around. *)
Definition wrap64 (z : Z) : Z := (z + 2 ^ 63) mod 2 ^ 64 - 2 ^ 63.

(** An [io.Writer] over a state [S]: [Write(p)] gives the count and the
    error, or panics. *)
Definition Writer (S : Type) : Type := string -> S -> Outcome (Z * option error) * S.

(** [io.MultiWriter(writers...)]: each writer in turn gets the whole of
    [p]; the first error or short count ends the call. *)
Fixpoint MultiWriter {S} (writers : list (Writer S)) : Writer S :=
  fun p s =>
    match writers with
    | [] => (Ret (Strings.len p, None), s)
    | w :: rest =>
        match w p s with
        | (Panic msg, s1) => (Panic msg, s1)
        | (Ret (n, Some e), s1) => (Ret (n, Some e), s1)
        | (Ret (n, None), s1) =>
            if negb (n =? Strings.len p) then (Ret (n, Some io_ErrShortWrite), s1)
            else MultiWriter rest p s1
        end
    end.

(** [io.Copy(dst, src)], the loop of [io.copyBuffer]: every read that
    delivers bytes is written to [dst]; a write error, a short write or a
    read error ends the loop, and [io.EOF] from the source is not an error. *)
Fixpoint io_Copy {S} (dst : Writer S) (src : Reader) (written : Z) (s : S)
    : Outcome (Z * option error) * S :=
  match src with
  | [] => (Ret (written, None), s)
  | r :: rest =>
      let nr := Strings.len (rbytes r) in
      let after_read (written : Z) (s : S) :=
        match rerr r with
        | Some io_EOF => (Ret (written, None), s)
        | Some er => (Ret (written, Some er), s)
        | None => io_Copy dst rest written s
        end in
      if 0 <? nr then
        match dst (rbytes r) s with
        | (Panic msg, s1) => (Panic msg, s1)
        | (Ret (nw, ew), s1) =>
            let '(nw, ew) :=
              if (nw <? 0) || (nr <? nw) then
                (0, Some (match ew with Some e => e | None => io_errInvalidWrite end))
              else (nw, ew) in
            let written := wrap64 (written + nw) in
            match ew with
            | Some e => (Ret (written, Some e), s1)
            | None =>
                if negb (nr =? nw) then (Ret (written, Some io_ErrShortWrite), s1)
                else after_read written s1
            end
        end
      else after_read written s
  end.

(** The test both copy helpers apply to the error of [io.Copy] (lines
    629-634 and 717-722): an [*os.PathError] whose inner error is the
    [syscall.Errno] [EPIPE] becomes nil. *)
Definition pipeClosedAsEOF (err : option error) : option error :=
  match err with
  | Some (PathError _ _ (Errno errno)) => if errno =? EPIPE then None else err
  | _ => err
  end.

(** ** The progress bar

    [github.com/cheggaaa/pb] is a library outside the package. The bar
    counts the bytes written to it; what it prints, and when, is its own
    business and depends on a timer, so the texts it prints are parameters:
    on [Start], after each write (the refresher running in the background)
    and on [Finish]. Each printed text is handed to [Callback]. *)

Record ProgressBar := {
  pbTotal : Z;
  pbCurrent : Z;
  pbWrites : nat
}.

Class ProgressLib := {
  pb_Start_prints : ProgressBar -> list string;
  pb_refresh_prints : ProgressBar -> list string;
  pb_Finish_prints : ProgressBar -> list string
}.

Section Push.

Context {W : Type} `{ErrorsPkg} `{Wire W} `{ProgressLib}.

Definition observe (cb : Observer) (ev : PushEvent) (s : St W) : St W :=
  mkSt (world s) (calls s ++ [CallObserve cb ev]).

(** [progress.Callback], the closure of lines 598-606: the event carries
    the bar's counter at the moment of the call ([Add64(0)]), its total
    and the trimmed text. *)
Definition Callback (cb : Observer) (out : string) (st : St W * ProgressBar)
    : St W * ProgressBar :=
  let '(s, progress) := st in
  (observe cb {| Current := pbCurrent progress;
                 Total := pbTotal progress;
                 Speed := Strings.TrimSpace out;
                 Raw := EmptyString |} s,
   progress).

Definition prints (cb : Observer) (outs : list string) (st : St W * ProgressBar)
    : St W * ProgressBar :=
  fold_left (fun st out => Callback cb out st) outs st.

(** [pb.New(size)]. *)
Definition pb_New (size : Z) : ProgressBar :=
  {| pbTotal := size; pbCurrent := 0; pbWrites := 0 |}.

Definition pb_Start (cb : Observer) (st : St W * ProgressBar) : St W * ProgressBar :=
  prints cb (pb_Start_prints (snd st)) st.

Definition pb_Finish (cb : Observer) (st : St W * ProgressBar) : St W * ProgressBar :=
  prints cb (pb_Finish_prints (snd st)) st.

(** [progress.Write(p)]: adds [len(p)] to the counter and reports all of
    [p] written. *)
Definition pb_Write (cb : Observer) : Writer (St W * ProgressBar) :=
  fun p st =>
    let '(s, progress) := st in
    let progress :=
      {| pbTotal := pbTotal progress;
         pbCurrent := wrap64 (pbCurrent progress + Strings.len p);
         pbWrites := S (pbWrites progress) |} in
    (Ret (Strings.len p, None), prints cb (pb_refresh_prints progress) (s, progress)).

(** A writer on the session state, seen from the state with the bar. *)
Definition with_bar (dst : Writer (St W)) : Writer (St W * ProgressBar) :=
  fun p st =>
    let '(o, s1) := dst p (fst st) in
    (o, (s1, snd st)).

(** ** The file push engine (src/adb_test.go, lines 535-644 and 692-732)

    The line the callback prints to the standard output and the summary
    line written to the standard error stream, with the rate computed from
    the wall clock, are not part of the result and are left out. *)
Definition copyWithProgressAndStats (dst : Writer (St W)) (src : Reader) (size : Z)
    (showProgress : bool) (cb : option Observer) : M W (option error) :=
  fun s =>
    match (if showProgress && (0 <? size) then cb else None) with
    | Some f =>
        let st := pb_Start f (s, pb_New size) in
        match io_Copy (MultiWriter [with_bar dst; pb_Write f]) src 0 st with
        | (Panic msg, st) => (Panic msg, fst st)
        | (Ret (copied, err), st) =>
            let st := pb_Finish f st in
            (Ret (pipeClosedAsEOF err), fst st)
        end
    | None =>
        match io_Copy dst src 0 s with
        | (Panic msg, s) => (Panic msg, s)
        | (Ret (copied, err), s) => (Ret (pipeClosedAsEOF err), s)
        end
    end.

(** [type bufStats struct] and its [Write] (lines 692-703). *)
Record bufStats := {
  total : Z;
  n : Z;
  handler : option Observer
}.

Definition bufStats_Write : Writer (St W * bufStats) :=
  fun p st =>
    let '(s, b) := st in
    let b := {| total := total b;
                n := wrap64 (n b + Strings.len p);
                handler := handler b |} in
    match handler b with
    | None =>
        (Panic "runtime error: invalid memory address or nil pointer dereference", (s, b))
    | Some h =>
        (Ret (Strings.len p, None),
         (mkSt (world s) (calls s ++ [CallHandler h (n b) (total b)]), b))
    end.

Definition with_stats (dst : Writer (St W)) : Writer (St W * bufStats) :=
  fun p st =>
    let '(o, s1) := dst p (fst st) in
    (o, (s1, snd st)).

Definition copyFile (dst : Writer (St W)) (src : Reader) (total : Z)
    (handler : option Observer) : M W (option error) :=
  fun s =>
    let stats := {| total := total; n := 0; handler := handler |} in
    match io_Copy (MultiWriter [with_stats dst; bufStats_Write]) src 0 (s, stats) with
    | (Panic msg, st) => (Panic msg, fst st)
    | (Ret (copied, err), st) => (Ret (pipeClosedAsEOF err), fst st)
    end.

(** The writer that [sendFile] returns. *)
Definition remote_Write (w : FileWriter) : Writer (St W) :=
  fun p => call (CallWrite w p) (Writer_Write w p).

Definition OpenWrite (c : Device) (path : string) (perms : Z) (mtime : Time)
    : M W (option FileWriter * option error) :=
  let* r := getSyncConn c in
  match snd r with
  | Some e =>
      let* err := lift (wrapClientError (Some e) c "OpenWrite(%s)" [Fmt.Str path]) in
      ret (None, err)
  | None =>
      let* conn := deref (fst r) in
      let* w := call (CallSendFile conn path perms mtime) (sendFile conn path perms mtime) in
      match w with
      | inl writer =>
          let* err := lift (wrapClientError None c "OpenWrite(%s)" [Fmt.Str path]) in
          ret (Some writer, err)
      | inr e =>
          let* err := lift (wrapClientError (Some e) c "OpenWrite(%s)" [Fmt.Str path]) in
          ret (None, err)
      end
  end.

Definition StdIoFilename : string := "-".

(** The local source of a push (lines 547-565): the standard input with
    size 0, or the opened file with the size, permission bits and
    modification time of [os.Stat]; an error of [os.Open] or [os.Stat]
    goes through [wrapClientError] and ends the push. *)
Definition openLocal (c : Device) (localPath : string)
    : M W ((File * Z * Z * Time) + option error) :=
  if String.eqb localPath EmptyString || String.eqb localPath StdIoFilename then
    fun s => (Ret (inl (os_Stdin (world s), 0, 432, MtimeOfClose)), s)
  else
    let* r := call (CallOpen localPath) (os_Open localPath) in
    match r with
    | inr err =>
        let* e := lift (wrapClientError (Some err) c "PushWithProgress" []) in
        ret (inr e)
    | inl localFile =>
        let* i := call (CallStat localPath) (os_Stat localPath) in
        match i with
        | inr err =>
            let* e := lift (wrapClientError (Some err) c "PushWithProgress" []) in
            ret (inr e)
        | inl info =>
            ret (inl (localFile, Size info, Z.land (Mode info) 511, ModTime info))
        end
    end.

(** [PushWithProgress] without a cancellation: the watcher of lines
    574-581 runs beside the copy and only acts when the context is
    cancelled. *)
Definition PushWithProgress (c : Device) (showProgress : bool)
    (localPath remotePath : string) (cb : option Observer) : M W (option error) :=
  if String.eqb remotePath EmptyString then
    let* e := lift (errors_WrapErrf None "error: must specify remote file" []) in
    lift (wrapClientError e c "PushWithProgress" [])
  else
    let* opened := openLocal c localPath in
    match opened with
    | inr e => ret e
    | inl (localFile, size, perms, mtime) =>
        defer (call (CallFileClose (fname localFile)) (File_Close localFile))
          (let* w := OpenWrite c remotePath perms mtime in
           match snd w with
           | Some e => lift (wrapClientError (Some e) c "PushWithProgress" [])
           | None =>
               let* writer := deref (fst w) in
               defer (call (CallWriterClose writer) (Writer_Close writer))
                 (let* err :=
                    copyWithProgressAndStats (remote_Write writer) (fdata localFile)
                      size showProgress cb in
                  match err with
                  | Some e => lift (wrapClientError (Some e) c "PushWithProgress" [])
                  | None => ret None
                  end)
           end)
    end.

End Push.

(** ** A scripted world

    A mock of the server, the connection, the local files and the progress
    bar, in the manner of the package's tests: the results of the successive
    calls are scripted, and the connection counts its [Close] calls. *)

Module Mock.

Record World := {
  dial_error : option error;
  (** the errors of the successive [SendMessage] and [ReadStatus] calls;
      past the end of a script a call succeeds *)
  send_errors : list (option error);
  status_errors : list (option error);
  (** what [ReadUntilEof] delivers *)
  stream : string * option error;
  (** what the round trip of an attribute fetch answers *)
  attribute : string * option error;
  (** the results of the successive [Write] calls on the remote file *)
  write_results : list (Z * option error);
  (** the local files: what [os.Stat] reports and what reading delivers *)
  files : gmap string (FileInfo * Reader);
  stdin : Reader;
  (** the calls of [Close] on the connection *)
  closes : nat
}.

Definition the_conn : Conn := 1%nat.
Definition the_writer : FileWriter := 7%nat.

Definition set_send (l : list (option error)) (w : World) : World :=
  {| dial_error := dial_error w; send_errors := l; status_errors := status_errors w;
     stream := stream w; attribute := attribute w; write_results := write_results w;
     files := files w; stdin := stdin w; closes := closes w |}.

Definition set_status (l : list (option error)) (w : World) : World :=
  {| dial_error := dial_error w; send_errors := send_errors w; status_errors := l;
     stream := stream w; attribute := attribute w; write_results := write_results w;
     files := files w; stdin := stdin w; closes := closes w |}.

Definition set_writes (l : list (Z * option error)) (w : World) : World :=
  {| dial_error := dial_error w; send_errors := send_errors w;
     status_errors := status_errors w;
     stream := stream w; attribute := attribute w; write_results := l;
     files := files w; stdin := stdin w; closes := closes w |}.

Definition set_stream (r : string * option error) (w : World) : World :=
  {| dial_error := dial_error w; send_errors := send_errors w;
     status_errors := status_errors w;
     stream := r; attribute := attribute w; write_results := write_results w;
     files := files w; stdin := stdin w; closes := closes w |}.

Definition set_attribute (r : string * option error) (w : World) : World :=
  {| dial_error := dial_error w; send_errors := send_errors w;
     status_errors := status_errors w;
     stream := stream w; attribute := r; write_results := write_results w;
     files := files w; stdin := stdin w; closes := closes w |}.

Definition count_close (w : World) : World :=
  {| dial_error := dial_error w; send_errors := send_errors w;
     status_errors := status_errors w;
     stream := stream w; attribute := attribute w; write_results := write_results w;
     files := files w; stdin := stdin w; closes := S (closes w) |}.

#[export] Instance wire : Wire World := {|
  server_Dial w :=
    match dial_error w with
    | Some e => (inr e, w)
    | None => (inl the_conn, w)
    end;
  Conn_SendMessage _ _ w :=
    match send_errors w with
    | [] => (None, w)
    | r :: rest => (r, set_send rest w)
    end;
  Conn_ReadStatus _ _ w :=
    match status_errors w with
    | [] => (("OKAY", None), w)
    | Some e :: rest => ((EmptyString, Some e), set_status rest w)
    | None :: rest => (("OKAY", None), set_status rest w)
    end;
  Conn_ReadUntilEof _ w := (stream w, w);
  Conn_Close _ w := (None, count_close w);
  roundTripSingleResponse _ w := (attribute w, w);
  sendFile _ _ _ _ w := (inl the_writer, w);
  Writer_Write _ p w :=
    match write_results w with
    | [] => ((Strings.len p, None), w)
    | r :: rest => (r, set_writes rest w)
    end;
  Writer_Close _ w := (None, w);
  os_Open path w :=
    match files w !! path with
    | Some (_, data) => (inl {| fname := path; fdata := data |}, w)
    | None => (inr (PathError "open" path (Errno ENOENT)), w)
    end;
  os_Stat path w :=
    match files w !! path with
    | Some (info, _) => (inl info, w)
    | None => (inr (PathError "stat" path (Errno ENOENT)), w)
    end;
  os_Stdin w := {| fname := "/dev/stdin"; fdata := stdin w |};
  File_Close _ w := (None, w)
|}.

(** The names of the error codes, as the generated [String()] of the
    library's [ErrCode] prints them. *)
Definition ErrCode_String (code : ErrCode) : string :=
  match code with
  | AssertionError => "AssertionError"
  | ParseError => "ParseError"
  | ServerNotAvailable => "ServerNotAvailable"
  | NetworkError => "NetworkError"
  | ConnectionResetError => "ConnectionResetError"
  | AdbError => "AdbError"
  | DeviceNotFound => "DeviceNotFound"
  | FileNoExistError => "FileNoExistError"
  end.

(** The text of a [syscall.Errno]. *)
Definition errno_text (n : Z) : string :=
  if n =? ENOENT then "no such file or directory"
  else if n =? EPIPE then "broken pipe"
  else "errno " +:+ pretty n.

(** The text of an error: the code, the message and the details of an
    [*errors.Err], the operation, path and cause of an [*os.PathError]. *)
Fixpoint error_text (e : error) : string :=
  match e with
  | Err code msg details _ =>
      ErrCode_String code +:+ ": " +:+ msg +:+
      match details with
      | Some c => " (" +:+ Device_String c +:+ ")"
      | None => EmptyString
      end
  | PathError op path cause => op +:+ " " +:+ path +:+ ": " +:+ error_text cause
  | Errno n => errno_text n
  | io_EOF => "EOF"
  | io_ErrShortWrite => "short write"
  | io_errInvalidWrite => "invalid write result"
  | errorString s => s
  end.

#[export] Instance errors : ErrorsPkg := {|
  Error := error_text;
  errors_WrapErrf cause format args :=
    match cause with
    | None => Ret None
    | Some (Err code _ _ _ as e) =>
        Ret (Some (Err code (Fmt.Sprintf format args) None (Some e)))
    | Some _ => Panic "interface conversion: error is not *errors.Err"
    end
|}.

(** A bar that prints once when started and once when finished. *)
#[export] Instance bar : ProgressLib := {|
  pb_Start_prints _ := [" 0 B/s "];
  pb_refresh_prints _ := [];
  pb_Finish_prints _ := [" 5 B/s "]
|}.

(** A world in which every call succeeds. *)
Definition quiet : World :=
  {| dial_error := None; send_errors := []; status_errors := [];
     stream := (EmptyString, None); attribute := (EmptyString, None);
     write_results := []; files := ∅; stdin := []; closes := 0 |}.

Definition start (w : World) : St World := mkSt w [].

(** Errors, devices and sources for the runs. *)
Definition write_failed : error := Err NetworkError "error writing message" None None.
Definition sync_refused : error := Err AdbError "server error for sync request" None None.
Definition unauthorized : error :=
  Err AdbError "device unauthorized. Please check the confirmation dialog on your device."
    None None.
Definition any_device : Device := {| descriptor := AnyDevice |}.
Definition abc123 : Device := {| descriptor := DeviceWithSerial "ABC123" |}.
Definition hello_line : string := "hello" +:+ String (ascii_of_nat 10) EmptyString.
Definition one_read (p : string) : Reader := [{| rbytes := p; rerr := None |}].

End Mock.

(** * More of the package

    The operations of the device handle that the sections above leave out,
    the helper [deleteExtraSpace], and the vocabulary of their properties. *)

(** ** More of Go's [strings] package *)

Module MoreStrings.

(** [strings.Split(s, sep)] for a separator of one byte: the pieces between
    the separators, one more than there are separators. *)
Fixpoint Split (s : string) (sep : ascii) : list string :=
  match s with
  | EmptyString => [EmptyString]
  | String c rest =>
      if Ascii.eqb c sep then EmptyString :: Split rest sep
      else
        match Split rest sep with
        | piece :: pieces => String c piece :: pieces
        | [] => [String c EmptyString]
        end
  end.

(** The pieces of a string between its white-space runes. *)
Fixpoint pieces (l : list (bool * string)) : list string :=
  match l with
  | [] => [EmptyString]
  | (true, _) :: rest => EmptyString :: pieces rest
  | (false, b) :: rest =>
      match pieces rest with
      | piece :: more => (b +:+ piece) :: more
      | [] => [b]
      end
  end.

(** [strings.Fields(s)]: the maximal pieces of [s] without a white-space
    rune, as [unicode.IsSpace] has them, none of them empty. *)
Definition Fields (s : string) : list string :=
  List.filter (fun piece => negb (String.eqb piece EmptyString))
    (pieces (Strings.runes 0 s)).

End MoreStrings.

(** ** More of the world

    The remaining calls of the connection library, the sync operations of
    the package, the device list and the start of the [adb] program. They
    act on the world and are not recorded in the trace. *)

(** A [*DirEntry], a [*DirEntries] or an [io.ReadCloser], by identity. *)
Definition Handle := nat.

(** A [*DeviceInfo]: the field the code reads, and the rest of the record. *)
Record DeviceInfo := { DeviceInfo_Serial : string; DeviceInfo_rest : string }.

Class Sync (W : Type) := {
  (** [conn.RoundTripSingleResponse(req)] *)
  Conn_RoundTripSingleResponse : Conn -> string -> W -> (string * option error) * W;
  (** [stat(conn, path)], [listDirEntries(conn, path)], [receiveFile(conn, path)] *)
  stat : Conn -> string -> W -> (option Handle * option error) * W;
  listDirEntries : Conn -> string -> W -> (option Handle * option error) * W;
  receiveFile : Conn -> string -> W -> (option Handle * option error) * W;
  (** [c.deviceListFunc()]: the entries are pointers, nil is [None] *)
  deviceListFunc : Device -> W -> (list (option DeviceInfo) * option error) * W;
  (** [c.RunAdbCmd(cmd)], which starts the [adb] program *)
  RunAdbCmd : Device -> string -> W -> (string * option error) * W
}.

(** A call into the world that the trace does not record. *)
Definition quiet_call {W A} (op : W -> A * W) : M W A :=
  fun s =>
    let '(a, w) := op (world s) in
    (Ret a, mkSt w (calls s)).

Section MoreOperations.

Context {W : Type} `{ErrorsPkg} `{Wire W} `{Sync W}.

(** ** Attribute queries (src/adb_test.go, lines 93-106) *)

Definition product (c : Device) : M W (string * option error) :=
  let* r := getAttribute c "get-product" in
  let* err := lift (wrapClientError (snd r) c "Product" []) in
  ret (fst r, err).

Definition DevicePath (c : Device) : M W (string * option error) :=
  let* r := getAttribute c "get-devpath" in
  let* err := lift (wrapClientError (snd r) c "DevicePath" []) in
  ret (fst r, err).

(** ** [DeviceInfo] (src/adb_test.go, lines 120-142) *)

(** The loop over the device list: the first entry with the serial is
    returned; reading the serial of a nil entry panics. *)
Fixpoint find_serial (devices : list (option DeviceInfo)) (serial : string)
    : Outcome (option DeviceInfo) :=
  match devices with
  | [] => Ret None
  | None :: _ =>
      Panic "runtime error: invalid memory address or nil pointer dereference"
  | Some deviceInfo :: rest =>
      if String.eqb (DeviceInfo_Serial deviceInfo) serial then Ret (Some deviceInfo)
      else find_serial rest serial
  end.

Definition Device_DeviceInfo (c : Device) : M W (option DeviceInfo * option error) :=
  let* r := Serial c in
  match snd r with
  | Some e =>
      let* err := lift (wrapClientError (Some e) c "GetDeviceInfo(GetSerial)" []) in
      ret (None, err)
  | None =>
      let serial := fst r in
      let* l := quiet_call (deviceListFunc c) in
      match snd l with
      | Some e =>
          let* err := lift (wrapClientError (Some e) c "DeviceInfo(ListDevices)" []) in
          ret (None, err)
      | None =>
          let* found := lift (find_serial (fst l) serial) in
          match found with
          | Some deviceInfo => ret (Some deviceInfo, None)
          | None =>
              let err := errors_Errorf DeviceNotFound
                           "device list doesn't contain serial %s" [Fmt.Str serial] in
              let* err := lift (wrapClientError (Some err) c "DeviceInfo" []) in
              ret (None, err)
          end
      end
  end.

(** ** [Remount] and the sync operations (src/adb_test.go, lines 197-237) *)

Definition Remount (c : Device) : M W (string * option error) :=
  let* r := dialDevice c in
  match snd r with
  | Some e =>
      let* err := lift (wrapClientError (Some e) c "Remount" []) in
      ret (EmptyString, err)
  | None =>
      let* conn := deref (fst r) in
      defer (Close conn)
        (let* resp := quiet_call (Conn_RoundTripSingleResponse conn "remount") in
         let* err := lift (wrapClientError (snd resp) c "Remount" []) in
         ret (fst resp, err))
  end.

Definition ListDirEntries (c : Device) (path : string) : M W (option Handle * option error) :=
  let* r := getSyncConn c in
  match snd r with
  | Some e =>
      let* err := lift (wrapClientError (Some e) c "ListDirEntries(%s)" [Fmt.Str path]) in
      ret (None, err)
  | None =>
      let* conn := deref (fst r) in
      let* entries := quiet_call (listDirEntries conn path) in
      let* err := lift (wrapClientError (snd entries) c "ListDirEntries(%s)" [Fmt.Str path]) in
      ret (fst entries, err)
  end.

Definition Stat (c : Device) (path : string) : M W (option Handle * option error) :=
  let* r := getSyncConn c in
  match snd r with
  | Some e =>
      let* err := lift (wrapClientError (Some e) c "Stat(%s)" [Fmt.Str path]) in
      ret (None, err)
  | None =>
      let* conn := deref (fst r) in
      defer (Close conn)
        (let* entry := quiet_call (stat conn path) in
         let* err := lift (wrapClientError (snd entry) c "Stat(%s)" [Fmt.Str path]) in
         ret (fst entry, err))
  end.

Definition OpenRead (c : Device) (path : string) : M W (option Handle * option error) :=
  let* r := getSyncConn c in
  match snd r with
  | Some e =>
      let* err := lift (wrapClientError (Some e) c "OpenRead(%s)" [Fmt.Str path]) in
      ret (None, err)
  | None =>
      let* conn := deref (fst r) in
      let* reader := quiet_call (receiveFile conn path) in
      let* err := lift (wrapClientError (snd reader) c "OpenRead(%s)" [Fmt.Str path]) in
      ret (fst reader, err)
  end.

(** ** Shell helpers (src/adb_test.go, lines 461-524) *)

Definition LaunchApk (c : Device) (pkg : string) : M W (string * option error) :=
  RunCommand c "am" [Fmt.Sprintf "start -n %s" [Fmt.Str pkg]].

Definition Click (c : Device) (x y : Z) : M W (string * option error) :=
  RunCommand c "input" [Fmt.Sprintf "tap %d %d" [Fmt.Int x; Fmt.Int y]].

Definition Drag (c : Device) (x y x1 y1 : Z) : M W (string * option error) :=
  RunCommand c "input"
    [Fmt.Sprintf "swipe %d %d %d %d" [Fmt.Int x; Fmt.Int y; Fmt.Int x1; Fmt.Int y1]].

Definition Home (c : Device) : M W (string * option error) :=
  RunCommand c "input" ["keyevent 3"].

Definition InputText (c : Device) (text : string) : M W (string * option error) :=
  RunCommand c "input" [Fmt.Sprintf "text %s" [Fmt.Str text]].

(** [ScreenShot] repeats the body of [RunCommand], operation name
    included, for the command [screencap] with the argument [-p]; the bytes
    read are returned as they are. *)
Definition ScreenShot (c : Device) : M W (string * option error) :=
  let temps := Fmt.Sprintf "-p" [] in
  match prepareCommandLine "screencap" [temps] with
  | (_, Some e) =>
      let* err := lift (wrapClientError (Some e) c "RunCommand" []) in
      ret (EmptyString, err)
  | (cmd, None) =>
      let* r := dialDevice c in
      match snd r with
      | Some e =>
          let* err := lift (wrapClientError (Some e) c "RunCommand" []) in
          ret (EmptyString, err)
      | None =>
          let* conn := deref (fst r) in
          defer (Close conn)
            (let req := Fmt.Sprintf "shell:%s" [Fmt.Str cmd] in
             let* err := SendMessage conn req in
             match err with
             | Some e =>
                 let* err := lift (wrapClientError (Some e) c "RunCommand" []) in
                 ret (EmptyString, err)
             | None =>
                 let* st := ReadStatus conn req in
                 match snd st with
                 | Some e =>
                     let* err := lift (wrapClientError (Some e) c "RunCommand" []) in
                     ret (EmptyString, err)
                 | None =>
                     let* resp := ReadUntilEof conn in
                     let* err := lift (wrapClientError (snd resp) c "RunCommand" []) in
                     ret (fst resp, err)
                 end
             end)
      end
  end.

(** ** Port forwards (src/adb_test.go, lines 375-418) *)


Definition GetForwardList (c : Device) (localPort remotePort : string)
    : M W (string * option error) :=
  let args := EmptyString +:+ " " +:+ " --list " in
  quiet_call (RunAdbCmd c ("-s " +:+ serial (descriptor c) +:+ " forward" +:+ args)).

(** The loop of [ClearForwardBySerial] over the lines of the forward list
    (lines 399-415): a line is skipped when it is blank, does not start
    with the device id, has fewer than two fields, or fails the tests on
    the port and the remote; reading the third field of a line with two
    fields panics. *)
Fixpoint remove_args (lines : list string) (deviceId : string) (port : Z) (remote : string)
    (args : string) : Outcome string :=
  match lines with
  | [] => Ret args
  | forwardLine :: rest =>
      if String.eqb (Strings.TrimSpace forwardLine) EmptyString
         || negb (Strings.HasPrefix forwardLine deviceId)
      then remove_args rest deviceId port remote args
      else
        match MoreStrings.Fields forwardLine with
        | p0 :: p1 :: more =>
            if (0 <? port) && (port <? 65535)
               && negb (Strings.Contains p1 (Fmt.Sprintf "tcp:%d" [Fmt.Int port]))
            then remove_args rest deviceId port remote args
            else
              if String.eqb remote EmptyString then
                remove_args rest deviceId port remote
                  (args +:+ " " +:+ " --remove " +:+ p1)
              else
                match more with
                | [] => Panic "runtime error: index out of range [2] with length 2"
                | p2 :: _ =>
                    if negb (Strings.Contains p2 ("localabstract:" +:+ remote))
                       && negb (Strings.Contains p2 ("tcp:" +:+ remote))
                    then remove_args rest deviceId port remote args
                    else
                      remove_args rest deviceId port remote
                        (args +:+ " " +:+ " --remove " +:+ p1)
                end
        | _ => remove_args rest deviceId port remote args
        end
  end.

Definition ClearForwardBySerial (c : Device) (deviceId : string) (port : Z) (remote : string)
    : M W (string * option error) :=
  let* r := GetForwardList c deviceId remote in
  match snd r with
  | Some e => ret (EmptyString, Some e)
  | None =>
      let forwardStrList := MoreStrings.Split (fst r) (ascii_of_nat 10) in
      let* args := lift (remove_args forwardStrList deviceId port remote EmptyString) in
      quiet_call (RunAdbCmd c ("-s " +:+ serial (descriptor c) +:+ " forward" +:+ args))
  end.

End MoreOperations.

(** ** [deleteExtraSpace] (src/unnamed/part_000, lines 42-54) *)

(** [strings.Replace(s, "  ", " ", -1)]: every pair of spaces, found from
    the left without overlap, becomes one space. *)
Fixpoint replace_space_pairs (s : string) : string :=
  match s with
  | String a (String b rest as tl) =>
      if Ascii.eqb a " " && Ascii.eqb b " " then String " " (replace_space_pairs rest)
      else String a (replace_space_pairs tl)
  | _ => s
  end.

(** The rest of a string after its leading bytes of the class [\s]. *)
Fixpoint skip_spaces (s : string) : string :=
  match s with
  | String a rest => if regexp_space a then skip_spaces rest else s
  | EmptyString => EmptyString
  end.

(** One turn of the loop: [FindStringIndex] for the expression [\s{2,}]
    finds the leftmost run of two or more bytes of [\s], as long as it
    goes, and the run is cut down to its first byte; [None] when there is
    no such run. *)
Fixpoint collapse_first (s : string) : option string :=
  match s with
  | String a (String b rest as tl) =>
      if regexp_space a && regexp_space b then Some (String a (skip_spaces rest))
      else option_map (String a) (collapse_first tl)
  | _ => None
  end.

(** The loop, for a number of turns: [None] when the turns run out. *)
Fixpoint collapse_loop (turns : nat) (s : string) : option string :=
  match turns with
  | O => None
  | S turns' =>
      match collapse_first s with
      | None => Some s
      | Some s' => collapse_loop turns' s'
      end
  end.

Definition deleteExtraSpace (turns : nat) (s : string) : option string :=
  collapse_loop turns (replace_space_pairs s).

(** ** More of the scripted world

    The answers of the remaining calls, for the runs: every sync operation
    succeeds, the device list holds two devices and a nil entry, and the
    [adb] program answers the forward list to [--list] and echoes every
    other command line; where the server cannot be dialed the program
    fails. *)

Module MockMore.

Definition newline : string := String (ascii_of_nat 10) EmptyString.

Definition device_list : list (option DeviceInfo) :=
  [Some {| DeviceInfo_Serial := "ABC123"; DeviceInfo_rest := "usb:1-1 product:sailfish" |};
   Some {| DeviceInfo_Serial := "XYZ789"; DeviceInfo_rest := "usb:1-2 product:walleye" |};
   None].

Definition forward_list : string :=
  "XYZ789 tcp:6200 localabstract:minicap" +:+ newline +:+
  "ABC123 tcp:6300" +:+ newline +:+
  "ABC123 tcp:6100 tcp:7100" +:+ newline.

(** A world with one local file of five bytes. *)
Definition hello_info : FileInfo := {| Size := 5; Mode := 420; ModTime := Instant 0 |}.

Definition hello_file : File :=
  {| fname := "/tmp/hello.txt"; fdata := Mock.one_read "hello" |}.

Definition with_hello : Mock.World :=
  {| Mock.dial_error := None; Mock.send_errors := []; Mock.status_errors := [];
     Mock.stream := (EmptyString, None); Mock.attribute := (EmptyString, None);
     Mock.write_results := [];
     Mock.files := {[ "/tmp/hello.txt" := (hello_info, Mock.one_read "hello") ]};
     Mock.stdin := Mock.one_read "hello"; Mock.closes := 0 |}.

(** A world in which the server cannot be dialed. *)
Definition unreachable : Mock.World :=
  {| Mock.dial_error := Some Mock.write_failed; Mock.send_errors := [];
     Mock.status_errors := [];
     Mock.stream := (EmptyString, None); Mock.attribute := (EmptyString, None);
     Mock.write_results := []; Mock.files := ∅; Mock.stdin := []; Mock.closes := 0 |}.

#[export] Instance sync : Sync Mock.World := {|
  Conn_RoundTripSingleResponse _ _ w := (("remount succeeded", None), w);
  stat _ _ w := ((Some 1%nat, None), w);
  listDirEntries _ _ w := ((Some 2%nat, None), w);
  receiveFile _ _ w := ((Some 3%nat, None), w);
  deviceListFunc _ w := ((device_list, None), w);
  RunAdbCmd _ cmd w :=
    match Mock.dial_error w with
    | Some _ => ((EmptyString, Some (errorString "exit status 1")), w)
    | None =>
        if Strings.Contains cmd "--list" then ((forward_list, None), w)
        else ((cmd, None), w)
    end
|}.

End MockMore.

(** ** The vocabulary of the further properties *)

(** A descriptor built by one of the five constructors. *)
Definition constructed (d : DeviceDescriptor) : Prop :=
  d = AnyDevice \/ d = AnyUsbDevice \/ d = AnyLocalDevice \/
  (exists s, d = DeviceWithSerial s) \/ (exists t, d = DeviceWithTransportId t).

(** A call that is not a [Close] of the connection. *)
Definition not_close (conn : Conn) (x : Call) : Prop :=
  x <> CallClose conn.

(** From [s0] to [s'] the trace grows by calls that all satisfy [P]. *)
Definition grows_by {W : Type} (P : Call -> Prop) (s0 s' : St W) : Prop :=
  exists mid, calls s' = (calls s0 ++ mid)%list /\ Forall P mid.

(** One pass over a string that cuts every run of bytes of the class [\s]
    down to its first byte; [after_space] tells that the byte before was
    of the class. *)
Fixpoint squeeze_from (after_space : bool) (s : string) : string :=
  match s with
  | EmptyString => EmptyString
  | String a rest =>
      if regexp_space a then
        if after_space then squeeze_from true rest
        else String a (squeeze_from true rest)
      else String a (squeeze_from false rest)
  end.

Definition squeeze (s : string) : string := squeeze_from false s.

(** A line of the forward list that the loop of [ClearForwardBySerial]
    passes over at its first test: blank, or not starting with the device
    id. *)
Definition skipped_line (deviceId line : string) : Prop :=
  Strings.TrimSpace line = EmptyString \/ Strings.HasPrefix line deviceId = false.

(** The arguments of the calls of the handler of [copyFile], in order. *)
Fixpoint handled (trace : list Call) : list (Z * Z) :=
  match trace with
  | [] => []
  | CallHandler _ size total :: rest => (size, total) :: handled rest
  | _ :: rest => handled rest
  end.

(** The running sums, in [int64], of the lengths of the chunks of a source
    that hold bytes, from the count [n]. *)
Fixpoint running_totals (n : Z) (src : Reader) : list Z :=
  match src with
  | [] => []
  | r :: rest =>
      if 0 <? Strings.len (rbytes r) then
        wrap64 (n + Strings.len (rbytes r))
          :: running_totals (wrap64 (n + Strings.len (rbytes r))) rest
      else running_totals n rest
  end.

(** The calls of a session: the dial, and what is sent, read and closed on
    the connection. *)
Definition session_call (x : Call) : Prop :=
  match x with
  | CallDial | CallSendMessage _ _ | CallReadStatus _ _ | CallClose _ => True
  | _ => False
  end.

Definition write_call (x : Call) : Prop :=
  match x with
  | CallWrite _ _ => True
  | _ => False
  end.

Definition observe_call (x : Call) : Prop :=
  match x with
  | CallObserve _ _ => True
  | _ => False
  end.

(** The calls of a push between the opening of its source and the
    releases: those of the session, the one [sendFile] for the remote path
    with the permission bits and the modification time, the writes, and
    the events for the observer. *)
Definition push_call (remotePath : string) (perms : Z) (mtime : Time) (x : Call) : Prop :=
  session_call x \/ write_call x \/ observe_call x \/
  exists conn, x = CallSendFile conn remotePath perms mtime.

(** Whatever the world answers, the body [m] only makes calls that satisfy
    [P]. *)
Definition emits {W A : Type} (P : Call -> Prop) (m : M W A) : Prop :=
  forall s o s', m s = (o, s') -> grows_by P s s'.

(** ** The vocabulary of the properties *)

(** The words of the specification: a command that is empty or all white
    space, an argument that contains a double quote, a call that fails with
    an error of a given kind. *)
Definition all_whitespace (cmd : string) : Prop :=
  Forall (fun c => regexp_space c = true) (list_ascii_of_string cmd).

Definition has_dquote (arg : string) : Prop :=
  In dquote (list_ascii_of_string arg).

Definition fails_with (code : ErrCode) (r : string * option error) : Prop :=
  exists msg details cause, snd r = Some (Err code msg details cause).

(** An argument with a double quote between two letters. *)
Definition quoted_arg : string := String "a" (String dquote "b").

(** The number of [Close] calls on a connection in a trace. *)
Fixpoint close_count (conn : Conn) (trace : list Call) : nat :=
  match trace with
  | [] => 0%nat
  | CallClose c :: rest =>
      if Nat.eqb c conn then S (close_count conn rest) else close_count conn rest
  | _ :: rest => close_count conn rest
  end.

(** A broken pipe in the shape the copy helpers test for. *)
Definition pipe_closed (e : error) : Prop :=
  exists op path, e = PathError op path (Errno EPIPE).

(** The result [r] of a copy helper for the error [err] of [io.Copy]: nil
    for no error and for a closed pipe, the error itself otherwise. *)
Definition normalized (err r : option error) : Prop :=
  match err with
  | None => r = None
  | Some e => (pipe_closed e -> r = None) /\ (~ pipe_closed e -> r = Some e)
  end.

(** The events a trace holds for the callbacks, in order. *)
Fixpoint observed (trace : list Call) : list PushEvent :=
  match trace with
  | [] => []
  | CallObserve _ ev :: rest => ev :: observed rest
  | _ :: rest => observed rest
  end.


(** The event the callback builds from the bar and a printed text. *)
Definition event_of (progress : ProgressBar) (out : string) : PushEvent :=
  {| Current := pbCurrent progress; Total := pbTotal progress;
     Speed := Strings.TrimSpace out; Raw := EmptyString |}.

(** The bar after a write of [p]. *)
Definition bumped (progress : ProgressBar) (p : string) : ProgressBar :=
  {| pbTotal := pbTotal progress;
     pbCurrent := wrap64 (pbCurrent progress + Strings.len p);
     pbWrites := S (pbWrites progress) |}.



(** The shape the wrapper gives an error of the library: the message
    "error performing", the operation, "on" and the Go type of the client;
    the code of the original error; the device handle as details; the
    original error as cause. *)
Definition wrapped (c : Device) (operation : string) (cause e : error) : Prop :=
  exists code msg details inner,
    cause = Err code msg details inner /\
    e = Err code ("error performing " +:+ operation +:+ " on *adb.Device") (Some c)
          (Some cause).

(** Whatever the world answers, a body returns [a] only if [P a]. *)
Definition returns {W A : Type} (m : M W A) (P : A -> Prop) : Prop :=
  forall s a s', m s = (Ret a, s') -> P a.

(** Every error the operation [m] returns is wrapped for one of the
    [operations]. *)
Definition returns_wrapped {W A : Type} (c : Device) (operations : list string)
    (m : M W (A * option error)) : Prop :=
  returns m (fun r => forall e, snd r = Some e ->
                      exists operation cause,
                        In operation operations /\ wrapped c operation cause e).


(** * Properties *)

(** ** Strings and formatting *)

Lemma append_empty_r (s : string) : s +:+ EmptyString = s.
Proof.
  induction s as [|c s IH]; [reflexivity |].
  change (String c (s +:+ EmptyString) = String c s). now rewrite IH.
Qed.

Lemma append_assoc (a b c : string) : (a +:+ b) +:+ c = a +:+ (b +:+ c).
Proof.
  induction a as [|x a IH]; [reflexivity |].
  change (String x ((a +:+ b) +:+ c) = String x (a +:+ (b +:+ c))). now rewrite IH.
Qed.

(** A format without verbs and without operands is printed as it is. *)
Lemma Sprintf_plain (format : string) :
  Strings.ContainsRune format "%" = false -> Fmt.Sprintf format [] = format.
Proof.
  induction format as [|c rest IH]; [reflexivity |].
  intros Hc. cbn [Strings.ContainsRune] in Hc.
  apply orb_false_iff in Hc as [Hc Hrest].
  assert (Hstep : Fmt.Sprintf (String c rest) [] = String c (Fmt.Sprintf rest [])).
  { destruct c as [[] [] [] [] [] [] [] []]; try reflexivity. discriminate Hc. }
  rewrite Hstep, IH; auto.
Qed.

Lemma ContainsRune_In (s : string) (r : ascii) :
  Strings.ContainsRune s r = true <-> In r (list_ascii_of_string s).
Proof.
  induction s as [|c s IH]; simpl.
  - split; [discriminate | tauto].
  - rewrite orb_true_iff, IH. split.
    + intros [Hc | Hin]; [left; now apply Ascii.eqb_eq | now right].
    + intros [Hc | Hin]; [left; now apply Ascii.eqb_eq | now right].
Qed.

(** [strings.Join] of a non-empty list, by its head. *)
Lemma Join_cons (e : string) (rest : list string) (sep : string) :
  rest <> [] -> Strings.Join (e :: rest) sep = e +:+ sep +:+ Strings.Join rest sep.
Proof. destruct rest; [congruence | reflexivity]. Qed.

(** ** Device descriptors *)

(** C4. For each of the five descriptor variants [getHostPrefix] and
    [getTransportDescriptor] return (without a panic) exactly the literal
    strings of the specification: "host" and "transport-any" for Any,
    "host-usb" and "transport-usb" for Usb, "host-local" and
    "transport-local" for Local, "host-serial:" and "transport:" followed by
    the serial for Serial, "host-transport-id:" and "transport-id:" followed
    by the id for TransportId. *)
Theorem descriptor_renderings (s t : string) :
  getHostPrefix AnyDevice = Ret "host" /\
  getTransportDescriptor AnyDevice = Ret "transport-any" /\
  getHostPrefix AnyUsbDevice = Ret "host-usb" /\
  getTransportDescriptor AnyUsbDevice = Ret "transport-usb" /\
  getHostPrefix AnyLocalDevice = Ret "host-local" /\
  getTransportDescriptor AnyLocalDevice = Ret "transport-local" /\
  getHostPrefix (DeviceWithSerial s) = Ret ("host-serial:" +:+ s) /\
  getTransportDescriptor (DeviceWithSerial s) = Ret ("transport:" +:+ s) /\
  getHostPrefix (DeviceWithTransportId t) = Ret ("host-transport-id:" +:+ t) /\
  getTransportDescriptor (DeviceWithTransportId t) = Ret ("transport-id:" +:+ t).
Proof.
  repeat split; cbv -[String.append]; rewrite ?append_empty_r; reflexivity.
Qed.

Example host_prefix_of_serial :
  getHostPrefix (DeviceWithSerial "ABC123") = Ret "host-serial:ABC123".
Proof. reflexivity. Qed.

(** A descriptor whose type is none of the five constants is a fault. *)
Lemma descriptor_unknown_type_panics (d : DeviceDescriptor) :
  descriptorType d < 0 \/ 4 < descriptorType d ->
  (exists msg, getHostPrefix d = Panic msg) /\
  (exists msg, getTransportDescriptor d = Panic msg).
Proof.
  intros Hrange. unfold getHostPrefix, getTransportDescriptor.
  unfold DeviceAny, DeviceUsb, DeviceLocal, DeviceSerial, DeviceTransportId.
  repeat match goal with
         | |- context [Z.eqb ?a ?b] => destruct (Z.eqb_spec a b); [lia |]
         end.
  split; eexists; reflexivity.
Qed.

(** ** The state classifier *)

Module DeviceStateSecondFacts.
Import DeviceStateSecond.

Lemma parse_known :
  parseDeviceState "" = (StateDisconnected, None) /\
  parseDeviceState "offline" = (StateOffline, None) /\
  parseDeviceState "device" = (StateOnline, None).
Proof. repeat split; vm_compute; reflexivity. Qed.

Lemma parse_other (str : string) :
  str <> "" -> str <> "offline" -> str <> "device" ->
  parseDeviceState str = (StateDisconnected, None).
Proof.
  intros H1 H2 H3. unfold parseDeviceState, deviceStateStrings.
  rewrite !lookup_insert_ne by congruence.
  now rewrite lookup_empty.
Qed.

Lemma parse_no_error (str : string) : snd (parseDeviceState str) = None.
Proof. unfold parseDeviceState. now destruct (deviceStateStrings !! str). Qed.

Lemma parse_never_invalid (str : string) : fst (parseDeviceState str) <> StateInvalid.
Proof.
  destruct (decide (str = "")) as [-> | H1]; [now vm_compute |].
  destruct (decide (str = "offline")) as [-> | H2]; [now vm_compute |].
  destruct (decide (str = "device")) as [-> | H3]; [now vm_compute |].
  now rewrite parse_other.
Qed.

End DeviceStateSecondFacts.

(** C2. The first copy of the classifier (lines 24-27) discards the flag of
    the map lookup, so a token that is not a key of the table is classified
    as [StateInvalid], the zero value, and not as [StateDisconnected]; the
    second copy (lines 53-60) answers [StateDisconnected] for the same
    token. Neither returns an error. *)
Theorem parseDeviceState_first_copy_unknown_token :
  DeviceStateFirst.parseDeviceState "banana" = (StateInvalid, None) /\
  DeviceStateSecond.parseDeviceState "banana" = (StateDisconnected, None).
Proof. split; vm_compute; reflexivity. Qed.

(** The first copy agrees with the specification on the three keys, and maps
    every other token to [StateInvalid]. *)
Lemma parseDeviceState_first_copy (str : string) :
  DeviceStateFirst.parseDeviceState "" = (StateDisconnected, None) /\
  DeviceStateFirst.parseDeviceState "offline" = (StateOffline, None) /\
  DeviceStateFirst.parseDeviceState "device" = (StateOnline, None) /\
  (str <> "" -> str <> "offline" -> str <> "device" ->
   DeviceStateFirst.parseDeviceState str = (StateInvalid, None)).
Proof.
  repeat split; try (vm_compute; reflexivity).
  intros H1 H2 H3. unfold DeviceStateFirst.parseDeviceState, deviceStateStrings.
  rewrite !lookup_insert_ne by congruence.
  now rewrite lookup_empty.
Qed.

(** ** The command-line preparer *)


Lemma isBlank_spec (cmd : string) : isBlank cmd = true <-> all_whitespace cmd.
Proof.
  unfold all_whitespace. induction cmd as [|c cmd IH]; simpl.
  - split; [constructor | reflexivity].
  - rewrite andb_true_iff, IH. split.
    + intros [Hc Hrest]. now constructor.
    + intros Hall. inversion Hall; subst. now split.
Qed.

Lemma check_args_clean (i : Z) (args : list string) :
  check_args i args = None <-> ~ Exists has_dquote args.
Proof.
  revert i. induction args as [|arg rest IH]; intros i; simpl.
  - split; [intros _ Hex; inversion Hex | reflexivity].
  - destruct (Strings.ContainsRune arg dquote) eqn:Hq.
    + split; [discriminate |]. intros Hno. exfalso. apply Hno.
      constructor. now apply ContainsRune_In.
    + assert (Hnq : ~ has_dquote arg).
      { unfold has_dquote. rewrite <- ContainsRune_In, Hq. discriminate. }
      destruct (containsWhitespace arg); rewrite IH;
        (split; [intros Hno Hex; inversion Hex; subst; tauto
                | intros Hno Hex; apply Hno; now constructor 2]).
Qed.

Lemma check_args_error (i : Z) (args : list string) (e : error) :
  check_args i args = Some e -> exists msg, e = Err ParseError msg None None.
Proof.
  revert i. induction args as [|arg rest IH]; intros i; simpl; [discriminate |].
  destruct (Strings.ContainsRune arg dquote).
  - intros [= <-]. eexists. reflexivity.
  - destruct (containsWhitespace arg); apply IH.
Qed.

Lemma check_args_found (i : Z) (args : list string) (e : error) :
  check_args i args = Some e -> Exists has_dquote args.
Proof.
  revert i. induction args as [|arg rest IH]; intros i; simpl; [discriminate |].
  destruct (Strings.ContainsRune arg dquote) eqn:Hq.
  - intros _. constructor. now apply ContainsRune_In.
  - destruct (containsWhitespace arg); intros Hc; constructor 2; now apply (IH (i + 1)).
Qed.

(** What the preparer returns, by cases. *)
Lemma prepareCommandLine_cases (cmd : string) (args : list string) :
  (isBlank cmd = true /\
   exists msg, prepareCommandLine cmd args = (EmptyString, Some (Err AssertionError msg None None))) \/
  (isBlank cmd = false /\ Exists has_dquote args /\
   exists msg, prepareCommandLine cmd args = (EmptyString, Some (Err ParseError msg None None))) \/
  (isBlank cmd = false /\ ~ Exists has_dquote args /\
   prepareCommandLine cmd args = (Strings.Join (cmd :: args) " ", None)).
Proof.
  unfold prepareCommandLine. destruct (isBlank cmd) eqn:Hb.
  - left. split; [reflexivity |]. eexists. reflexivity.
  - right. destruct (check_args 0 args) as [e|] eqn:Hc.
    + left. split; [reflexivity |]. split.
      * now apply (check_args_found 0 args e).
      * destruct (check_args_error _ _ _ Hc) as [msg ->]. now exists msg.
    + right. split; [reflexivity |]. split; [now apply (check_args_clean 0) |].
      destruct args as [|arg rest]; [reflexivity |].
      replace (0 <? Z.of_nat (List.length (arg :: rest))) with true
        by (symmetry; apply Z.ltb_lt; simpl List.length; lia).
      rewrite (Join_cons cmd (arg :: rest)) by easy.
      cbv -[String.append Strings.Join]. now rewrite append_empty_r.
Qed.

Lemma not_blank (cmd : string) : isBlank cmd = false <-> ~ all_whitespace cmd.
Proof.
  rewrite <- isBlank_spec. destruct (isBlank cmd); split; congruence.
Qed.

(** A command that is not blank, with arguments free of double quotes, is
    joined with its arguments. *)
Lemma prepareCommandLine_joined (cmd : string) (args : list string) :
  ~ all_whitespace cmd -> ~ Exists has_dquote args ->
  prepareCommandLine cmd args = (Strings.Join (cmd :: args) " ", None).
Proof.
  intros Hcmd Hargs.
  destruct (prepareCommandLine_cases cmd args)
    as [(Hb & _) | [(_ & Hex & _) | (_ & _ & Heq)]].
  - apply isBlank_spec in Hb. contradiction.
  - contradiction.
  - exact Heq.
Qed.

(** C5, as amended. [prepareCommandLine] fails with a validation (assertion)
    error if and only if the command is empty or all white space; it fails
    with a parse error if and only if the command is not blank and some
    argument contains a double quote; otherwise it returns the command and
    the arguments joined with single spaces in their order, with nothing
    quoted or escaped. *)
Theorem prepareCommandLine_spec (cmd : string) (args : list string) :
  (fails_with AssertionError (prepareCommandLine cmd args) <-> all_whitespace cmd) /\
  (fails_with ParseError (prepareCommandLine cmd args) <->
     ~ all_whitespace cmd /\ Exists has_dquote args) /\
  (~ all_whitespace cmd -> ~ Exists has_dquote args ->
   prepareCommandLine cmd args = (Strings.Join (cmd :: args) " ", None)).
Proof.
  destruct (prepareCommandLine_cases cmd args)
    as [(Hb & msg & Heq) | [(Hb & Hex & msg & Heq) | (Hb & Hno & Heq)]];
    rewrite Heq; unfold fails_with; simpl;
    [apply isBlank_spec in Hb | apply not_blank in Hb | apply not_blank in Hb];
    repeat split; intros;
    repeat match goal with
           | H : exists _, _ |- _ => destruct H as [? H]
           | H : _ /\ _ |- _ => destruct H
           end;
    first [tauto | discriminate | (eexists _, _, _; reflexivity)].
Qed.

Lemma prepareCommandLine_spec_witness :
  ~ all_whitespace "ls" /\ ~ Exists has_dquote ["-l"; "-a"] /\
  prepareCommandLine "ls" ["-l"; "-a"] = ("ls -l -a", None).
Proof.
  assert (Hcmd : ~ all_whitespace "ls") by (apply not_blank; reflexivity).
  assert (Hargs : ~ Exists has_dquote ["-l"; "-a"])
    by (apply (check_args_clean 0); reflexivity).
  split; [exact Hcmd |]. split; [exact Hargs |].
  exact (proj2 (proj2 (prepareCommandLine_spec "ls" ["-l"; "-a"])) Hcmd Hargs).
Defined.


(** The claim as written fails for a blank command with a quoted argument:
    an argument contains a double quote, and the call fails with the
    validation error of the blank command, not with a parse error. *)
Lemma prepareCommandLine_blank_with_quoted_arg :
  ~ (fails_with ParseError (prepareCommandLine "" [quoted_arg]) <->
     Exists has_dquote [quoted_arg]).
Proof.
  intros [_ Hback].
  destruct Hback as (msg & d & c & Heq).
  - constructor. unfold has_dquote, quoted_arg. simpl. right. now left.
  - discriminate Heq.
Qed.

Example prepare_empty_command :
  prepareCommandLine "" [] =
    (EmptyString, Some (Err AssertionError "command cannot be empty" None None)).
Proof. reflexivity. Qed.

Example prepare_quoted_argument :
  fails_with ParseError (prepareCommandLine "ls" [quoted_arg]).
Proof. eexists _, _, _. reflexivity. Qed.

Example prepare_whitespace_argument_unquoted :
  prepareCommandLine "input" ["keyevent 3"] = ("input keyevent 3", None).
Proof. reflexivity. Qed.

(** ** Formatted requests and messages *)

Lemma Sprintf_host (td : string) :
  Fmt.Sprintf "host:%s" [Fmt.Str td] = "host:" +:+ td.
Proof. cbv -[String.append]. now rewrite append_empty_r. Qed.

Lemma Sprintf_shell (cmd : string) :
  Fmt.Sprintf "shell:%s" [Fmt.Str cmd] = "shell:" +:+ cmd.
Proof. cbv -[String.append]. now rewrite append_empty_r. Qed.

Lemma Sprintf_attribute (prefix attr : string) :
  Fmt.Sprintf "%s:%s" [Fmt.Str prefix; Fmt.Str attr] = prefix +:+ ":" +:+ attr.
Proof. cbv -[String.append]. now rewrite append_empty_r. Qed.

Lemma Sprintf_performing (operation clientType : string) :
  Fmt.Sprintf "error performing %s on %s" [Fmt.Str operation; Fmt.Str clientType] =
  "error performing " +:+ operation +:+ " on " +:+ clientType.
Proof. cbv -[String.append]. now rewrite append_empty_r. Qed.

(** ** The error wrapper *)

Section WrapFacts.

Context `{ErrorsPkg}.

Lemma wrapClientError_nil_iff (err : option error) (c : Device) (operation : string)
    (args : list Fmt.Arg) :
  wrapClientError err c operation args = Ret None <-> err = None.
Proof.
  split; [| now intros ->].
  destruct err as [e|]; [| reflexivity].
  destruct e; discriminate.
Qed.

Lemma wrapClientError_not_Err (e : error) (c : Device) (operation : string)
    (args : list Fmt.Arg) :
  is_Err e = false ->
  wrapClientError (Some e) c operation args = Panic ("err is not a *Err: " +:+ Error e).
Proof. destruct e; [discriminate | reflexivity ..]. Qed.

Lemma wrapClientError_Err (code : ErrCode) (msg : string) (details : option Device)
    (cause : option error) (c : Device) (operation : string) (args : list Fmt.Arg) :
  wrapClientError (Some (Err code msg details cause)) c operation args =
  Ret (Some (Err code
               ("error performing " +:+ Fmt.Sprintf operation args +:+ " on *adb.Device")
               (Some c)
               (Some (Err code msg details cause)))).
Proof.
  unfold wrapClientError, reflect_TypeOf. now rewrite Sprintf_performing.
Qed.

End WrapFacts.

(** ** The transport session *)


Lemma close_count_app (conn : Conn) (t1 t2 : list Call) :
  close_count conn (t1 ++ t2) = (close_count conn t1 + close_count conn t2)%nat.
Proof.
  induction t1 as [|x t1 IH]; [reflexivity |].
  destruct x; simpl; try exact IH.
  destruct (Nat.eqb c conn); simpl; now rewrite IH.
Qed.

Lemma run_call {W A : Type} (c : Call) (op : W -> A * W) (w : W) (trace : list Call)
    (a : A) (w' : W) :
  op w = (a, w') -> call c op (mkSt w trace) = (Ret a, mkSt w' (trace ++ [c])).
Proof. intros Hop. unfold call. cbn [world calls]. now rewrite Hop. Qed.

(** One step of a body: the call at its head is run with the result the
    world gives, and the trace grows by the call. *)
Ltac step Hop :=
  unfold bind at 1;
  rewrite (run_call _ _ _ _ _ _ Hop);
  cbn [world calls fst snd].

Section SessionFacts.

Context {W : Type} `{ErrorsPkg} `{Wire W}.

(** [dialDevice], when the transport request cannot be sent: the
    connection is closed once, then the error is wrapped and returned. *)
Lemma dialDevice_send_failure (c : Device) (s : St W) (conn : Conn) (td : string)
    (e : error) (r : option error) (w1 w2 w3 : W) :
  server_Dial (world s) = (inl conn, w1) ->
  getTransportDescriptor (descriptor c) = Ret td ->
  Conn_SendMessage conn ("host:" +:+ td) w1 = (Some e, w2) ->
  Conn_Close conn w2 = (r, w3) ->
  dialDevice c s =
    (match errors_WrapErrf (Some e) "error connecting to device '%s'"
             [Fmt.Str (DeviceDescriptor_String (descriptor c))] with
     | Ret wrapped => Ret (None, wrapped)
     | Panic msg => Panic msg
     end,
     mkSt w3 (calls s ++ [CallDial; CallSendMessage conn ("host:" +:+ td); CallClose conn])).
Proof.
  destruct s as [w0 trace]. cbn [world calls].
  intros Hdial Htd Hsend Hclose.
  unfold dialDevice, Dial, SendMessage, Close.
  step Hdial. rewrite Htd. unfold bind at 1, lift at 1. rewrite Sprintf_host.
  step Hsend. step Hclose.
  unfold bind, lift, ret. rewrite <- !app_assoc. simpl.
  now destruct (errors_WrapErrf _ _ _).
Qed.

(** [dialDevice], when the status reply cannot be read or is a failure:
    the connection is closed once and the error returned. *)
Lemma dialDevice_status_failure (c : Device) (s : St W) (conn : Conn) (td status : string)
    (e : error) (r : option error) (w1 w2 w3 w4 : W) :
  server_Dial (world s) = (inl conn, w1) ->
  getTransportDescriptor (descriptor c) = Ret td ->
  Conn_SendMessage conn ("host:" +:+ td) w1 = (None, w2) ->
  Conn_ReadStatus conn ("host:" +:+ td) w2 = ((status, Some e), w3) ->
  Conn_Close conn w3 = (r, w4) ->
  dialDevice c s =
    (Ret (None, Some e),
     mkSt w4 (calls s ++ [CallDial; CallSendMessage conn ("host:" +:+ td);
                          CallReadStatus conn ("host:" +:+ td); CallClose conn])).
Proof.
  destruct s as [w0 trace]. cbn [world calls].
  intros Hdial Htd Hsend Hstatus Hclose.
  unfold dialDevice, Dial, SendMessage, ReadStatus, Close.
  step Hdial. rewrite Htd. unfold bind at 1, lift at 1. rewrite Sprintf_host.
  step Hsend. step Hstatus. step Hclose.
  unfold ret. rewrite <- !app_assoc. reflexivity.
Qed.

(** [dialDevice], when every step succeeds: the connection is returned
    open. *)
Lemma dialDevice_success (c : Device) (s : St W) (conn : Conn) (td status : string)
    (w1 w2 w3 : W) :
  server_Dial (world s) = (inl conn, w1) ->
  getTransportDescriptor (descriptor c) = Ret td ->
  Conn_SendMessage conn ("host:" +:+ td) w1 = (None, w2) ->
  Conn_ReadStatus conn ("host:" +:+ td) w2 = ((status, None), w3) ->
  dialDevice c s =
    (Ret (Some conn, None),
     mkSt w3 (calls s ++ [CallDial; CallSendMessage conn ("host:" +:+ td);
                          CallReadStatus conn ("host:" +:+ td)])).
Proof.
  destruct s as [w0 trace]. cbn [world calls].
  intros Hdial Htd Hsend Hstatus.
  unfold dialDevice, Dial, SendMessage, ReadStatus.
  step Hdial. rewrite Htd. unfold bind at 1, lift at 1. rewrite Sprintf_host.
  step Hsend. step Hstatus.
  unfold ret. rewrite <- !app_assoc. reflexivity.
Qed.

(** [dialDevice], when dialing fails: there is no connection to close. *)
Lemma dialDevice_dial_failure (c : Device) (s : St W) (e : error) (w1 : W) :
  server_Dial (world s) = (inr e, w1) ->
  dialDevice c s = (Ret (None, Some e), mkSt w1 (calls s ++ [CallDial])).
Proof.
  destruct s as [w0 trace]. cbn [world calls].
  intros Hdial. unfold dialDevice, Dial. step Hdial. reflexivity.
Qed.

(** [getSyncConn], when ["sync:"] cannot be sent on the dialed connection:
    the error is returned and the connection is not closed. *)
Lemma getSyncConn_send_failure (c : Device) (s s1 : St W) (conn : Conn) (e : error)
    (w2 : W) :
  dialDevice c s = (Ret (Some conn, None), s1) ->
  Conn_SendMessage conn "sync:" (world s1) = (Some e, w2) ->
  getSyncConn c s =
    (Ret (None, Some e), mkSt w2 (calls s1 ++ [CallSendMessage conn "sync:"])).
Proof.
  destruct s1 as [w1 trace1]. cbn [world calls].
  intros Hdial Hsend. unfold getSyncConn, SendMessage.
  unfold bind at 1. rewrite Hdial. cbn [fst snd deref].
  unfold bind at 1, ret at 1.
  step Hsend. reflexivity.
Qed.

(** [getSyncConn], when the status reply to ["sync:"] is a failure: the
    error is returned and the connection is not closed. *)
Lemma getSyncConn_status_failure (c : Device) (s s1 : St W) (conn : Conn) (status : string)
    (e : error) (w2 w3 : W) :
  dialDevice c s = (Ret (Some conn, None), s1) ->
  Conn_SendMessage conn "sync:" (world s1) = (None, w2) ->
  Conn_ReadStatus conn "sync" w2 = ((status, Some e), w3) ->
  getSyncConn c s =
    (Ret (None, Some e),
     mkSt w3 (calls s1 ++ [CallSendMessage conn "sync:"; CallReadStatus conn "sync"])).
Proof.
  destruct s1 as [w1 trace1]. cbn [world calls].
  intros Hdial Hsend Hstatus. unfold getSyncConn, SendMessage, ReadStatus.
  unfold bind at 1. rewrite Hdial. cbn [fst snd deref].
  unfold bind at 1, ret at 1.
  step Hsend. step Hstatus.
  unfold ret. rewrite <- !app_assoc. reflexivity.
Qed.

Lemma getSyncConn_success (c : Device) (s s1 : St W) (conn : Conn) (status : string)
    (w2 w3 : W) :
  dialDevice c s = (Ret (Some conn, None), s1) ->
  Conn_SendMessage conn "sync:" (world s1) = (None, w2) ->
  Conn_ReadStatus conn "sync" w2 = ((status, None), w3) ->
  getSyncConn c s =
    (Ret (Some conn, None),
     mkSt w3 (calls s1 ++ [CallSendMessage conn "sync:"; CallReadStatus conn "sync"])).
Proof.
  destruct s1 as [w1 trace1]. cbn [world calls].
  intros Hdial Hsend Hstatus. unfold getSyncConn, SendMessage, ReadStatus.
  unfold bind at 1. rewrite Hdial. cbn [fst snd deref].
  unfold bind at 1, ret at 1.
  step Hsend. step Hstatus.
  unfold ret. rewrite <- !app_assoc. reflexivity.
Qed.

End SessionFacts.

(** ** The response-mode client *)

Section ClientFacts.

Context {W : Type} `{ErrorsPkg} `{Wire W}.

(** C7. For a command that is not blank and arguments without a double
    quote, on a connection that [dialDevice] has scoped to the device:
    [RunCommand] sends ["shell:"] followed by the prepared command line,
    reads the status, reads the connection until the end of the stream,
    closes the connection, and returns exactly the bytes read, with no
    error. No other call is made on the connection: no length header is
    read. *)
Theorem RunCommand_reads_until_eof (c : Device) (cmd : string) (args : list string)
    (s s1 : St W) (conn : Conn) (status resp : string) (r : option error)
    (w2 w3 w4 w5 : W) :
  let line := Strings.Join (cmd :: args) " " in
  ~ all_whitespace cmd ->
  ~ Exists has_dquote args ->
  dialDevice c s = (Ret (Some conn, None), s1) ->
  Conn_SendMessage conn ("shell:" +:+ line) (world s1) = (None, w2) ->
  Conn_ReadStatus conn ("shell:" +:+ line) w2 = ((status, None), w3) ->
  Conn_ReadUntilEof conn w3 = ((resp, None), w4) ->
  Conn_Close conn w4 = (r, w5) ->
  RunCommand c cmd args s =
    (Ret (resp, None),
     mkSt w5 (calls s1 ++ [CallSendMessage conn ("shell:" +:+ line);
                           CallReadStatus conn ("shell:" +:+ line);
                           CallReadUntilEof conn;
                           CallClose conn])).
Proof.
  intros line Hcmd Hargs Hdial Hsend Hstatus Hread Hclose.
  destruct s1 as [w1 trace1]. cbn [world calls] in *.
  unfold RunCommand.
  rewrite (prepareCommandLine_joined cmd args Hcmd Hargs).
  fold line. unfold bind at 1. rewrite Hdial. cbn [fst snd deref].
  unfold bind at 1, ret at 1. rewrite Sprintf_shell.
  unfold defer, SendMessage, ReadStatus, ReadUntilEof, Close.
  step Hsend. step Hstatus. step Hread.
  unfold bind, lift, ret, wrapClientError.
  rewrite (run_call _ _ _ _ _ _ Hclose).
  rewrite <- !app_assoc. reflexivity.
Qed.

(** C9, as amended. When the attribute fetch of [State] fails with an
    error whose text contains "unauthorized", [State] returns
    [StateUnauthorized] and a nil error; when it fails with any other error
    of the library's [*errors.Err] type, [State] returns [StateInvalid] and
    the error wrapped for the operation "State", with the original error as
    its cause; when it fails with any other error of another type, [State]
    returns nothing: it panics in the wrapper. *)
Theorem State_fetch_failure (c : Device) (s s1 : St W) (attr : string) (e : error) :
  getAttribute c "get-state" s = (Ret (attr, Some e), s1) ->
  (Strings.Contains (Error e) "unauthorized" = true ->
   State c s = (Ret (StateUnauthorized, None), s1)) /\
  (Strings.Contains (Error e) "unauthorized" = false ->
   forall code msg details cause, e = Err code msg details cause ->
   State c s =
     (Ret (StateInvalid,
           Some (Err code "error performing State on *adb.Device" (Some c) (Some e))),
      s1)) /\
  (Strings.Contains (Error e) "unauthorized" = false ->
   is_Err e = false ->
   State c s = (Panic ("err is not a *Err: " +:+ Error e), s1)).
Proof.
  intros Hget.
  repeat split; intros Hun; unfold State; unfold bind at 1; rewrite Hget; cbn [fst snd].
  - now rewrite Hun.
  - intros code msg details cause He. rewrite Hun. subst e.
    unfold bind, lift, ret. now rewrite wrapClientError_Err.
  - intros Hne. rewrite Hun. unfold bind, lift. now rewrite wrapClientError_not_Err.
Qed.

End ClientFacts.

(** ** The file push engine *)


Lemma pipeClosedAsEOF_normalized (err : option error) :
  normalized err (pipeClosedAsEOF err).
Proof.
  destruct err as [e|]; [| reflexivity].
  unfold normalized, pipeClosedAsEOF.
  destruct e as [| op path inner | | | | |];
    try (split; [intros (o & p & [=]) | reflexivity]).
  destruct inner as [| | errno | | | |];
    try (split; [intros (o & p & [=]) | reflexivity]).
  destruct (Z.eqb_spec errno EPIPE) as [-> | Hne].
  - split; [reflexivity |]. intros Hno. exfalso. apply Hno. now exists op, path.
  - split; [| reflexivity]. intros (o & p & [= _ _ Heq]). contradiction.
Qed.



Section PushFacts.

Context {W : Type} `{ErrorsPkg} `{Wire W} `{ProgressLib}.


(** Printing hands one event per text to the callback and changes neither
    the world nor the bar. *)
Lemma prints_spec (cb : Observer) (outs : list string) (s : St W) (progress : ProgressBar) :
  prints cb outs (s, progress) =
  (mkSt (world s) (calls s ++ map (fun out => CallObserve cb (event_of progress out)) outs),
   progress).
Proof.
  revert s. induction outs as [|out outs IH]; intros s.
  - destruct s. simpl. now rewrite app_nil_r.
  - change (prints cb (out :: outs) (s, progress))
      with (prints cb outs (Callback cb out (s, progress))).
    unfold Callback, observe. rewrite IH.
    cbn [world calls map]. now rewrite <- app_assoc.
Qed.


End PushFacts.

(** ** [io.Copy] *)

(** Case analysis on the tests of a computation in a hypothesis. *)
Ltac split_cases Hrun :=
  repeat (match type of Hrun with
          | context [match ?x with _ => _ end] => destruct x eqn:?
          | context [if ?b then _ else _] => destruct b eqn:?
          end; cbn beta iota zeta in Hrun).

(** What every write of the destination preserves, the copy preserves. *)
Lemma io_Copy_invariant {S : Type} (dst : Writer S) (I : S -> Prop) :
  (forall p s o s', I s -> dst p s = (o, s') -> I s') ->
  forall src written s o s', I s -> io_Copy dst src written s = (o, s') -> I s'.
Proof.
  intros Hdst src. induction src as [|r rest IH]; intros written s o s' Hs Hcopy.
  - cbn in Hcopy. now inversion Hcopy; subst.
  - cbn [io_Copy] in Hcopy. cbn beta iota zeta in Hcopy.
    destruct (0 <? Strings.len (rbytes r)).
    + destruct (dst (rbytes r) s) as [o1 s1] eqn:Hw.
      assert (Hs1 : I s1) by eauto.
      split_cases Hcopy; try (inversion Hcopy; subst; assumption); eauto.
    + split_cases Hcopy; try (inversion Hcopy; subst; assumption); eauto.
Qed.










Section BarFacts.

Context {W : Type} `{ErrorsPkg} `{Wire W} `{ProgressLib}.

(** One write through the pair of the destination and the bar: the bar
    counts the bytes only when the destination has taken all of them. *)
Lemma bar_writer_step (dst : Writer (St W)) (f : Observer) (p : string) (s : St W)
    (progress : ProgressBar) :
  MultiWriter [with_bar dst; pb_Write f] p (s, progress) =
  match dst p s with
  | (Panic msg, s1) => (Panic msg, (s1, progress))
  | (Ret (n, Some e), s1) => (Ret (n, Some e), (s1, progress))
  | (Ret (n, None), s1) =>
      if negb (n =? Strings.len p) then (Ret (n, Some io_ErrShortWrite), (s1, progress))
      else (Ret (Strings.len p, None),
            prints f (pb_refresh_prints (bumped progress p)) (s1, bumped progress p))
  end.
Proof.
  cbn [MultiWriter]. unfold with_bar at 1. cbn [fst snd].
  destruct (dst p s) as [[[n [e|]]|msg] s1]; try reflexivity.
  destruct (negb (n =? Strings.len p)); [reflexivity |].
  unfold pb_Write. fold (bumped progress p).
  now rewrite Z.eqb_refl.
Qed.


End BarFacts.

Section ProgressFacts.

Context {W : Type} `{ErrorsPkg} `{Wire W} `{ProgressLib}.









End ProgressFacts.

Section PushEngineFacts.

Context {W : Type} `{ErrorsPkg} `{Wire W} `{ProgressLib}.

(** C6, as amended. Both copy helpers return nil when [io.Copy] returns
    no error or returns an [*os.PathError] whose inner error is the
    [syscall.Errno] [EPIPE]; they return every other error of [io.Copy] as
    it is, a broken pipe in any other shape included. *)
Theorem copy_helpers_normalize_pipe_error (dst : Writer (St W)) (src : Reader) (s : St W) :
  (forall total handler copied err st,
     io_Copy (MultiWriter [with_stats dst; bufStats_Write]) src 0
       (s, {| total := total; n := 0; handler := handler |}) = (Ret (copied, err), st) ->
     exists r, copyFile dst src total handler s = (Ret r, fst st) /\ normalized err r) /\
  (forall size showProgress cb copied err s1,
     showProgress = false \/ size <= 0 \/ cb = None ->
     io_Copy dst src 0 s = (Ret (copied, err), s1) ->
     exists r, copyWithProgressAndStats dst src size showProgress cb s = (Ret r, s1) /\
               normalized err r) /\
  (forall size f copied err st,
     0 < size ->
     io_Copy (MultiWriter [with_bar dst; pb_Write f]) src 0
       (pb_Start f (s, pb_New size)) = (Ret (copied, err), st) ->
     exists r, copyWithProgressAndStats dst src size true (Some f) s =
                 (Ret r, fst (pb_Finish f st)) /\
               normalized err r).
Proof.
  split; [| split].
  - intros total handler copied err st Hcopy.
    exists (pipeClosedAsEOF err). split; [| apply pipeClosedAsEOF_normalized].
    unfold copyFile. now rewrite Hcopy.
  - intros size showProgress cb copied err s1 Hoff Hcopy.
    exists (pipeClosedAsEOF err). split; [| apply pipeClosedAsEOF_normalized].
    assert (Hnone : (if showProgress && (0 <? size) then cb else None) = None).
    { destruct Hoff as [-> | [Hsize | ->]]; [reflexivity | |].
      - replace (0 <? size) with false by (symmetry; apply Z.ltb_ge; lia).
        now rewrite andb_false_r.
      - now destruct (showProgress && (0 <? size)). }
    unfold copyWithProgressAndStats. now rewrite Hnone, Hcopy.
  - intros size f copied err st Hsize Hcopy.
    exists (pipeClosedAsEOF err). split; [| apply pipeClosedAsEOF_normalized].
    unfold copyWithProgressAndStats.
    replace (0 <? size) with true by (symmetry; apply Z.ltb_lt; lia).
    cbn [andb]. now rewrite Hcopy.
Qed.

(** C10. [wrapClientError] returns nil exactly when its error argument is
    nil, and panics for every non-nil error that is not an [*errors.Err].
    So [PushWithProgress] panics, and returns no error, when [os.Open] or
    [os.Stat] fails on the local path with an error of another type, as
    the errors of the operating system are. *)
Theorem wrapClientError_panics_on_foreign_error (c : Device) :
  (forall err operation args,
     wrapClientError err c operation args = Ret None <-> err = None) /\
  (forall e operation args,
     is_Err e = false ->
     wrapClientError (Some e) c operation args =
       Panic ("err is not a *Err: " +:+ Error e)) /\
  (forall (s : St W) showProgress localPath remotePath cb e w1,
     remotePath <> EmptyString -> localPath <> EmptyString -> localPath <> "-" ->
     os_Open localPath (world s) = (inr e, w1) ->
     is_Err e = false ->
     PushWithProgress c showProgress localPath remotePath cb s =
       (Panic ("err is not a *Err: " +:+ Error e),
        mkSt w1 (calls s ++ [CallOpen localPath]))) /\
  (forall (s : St W) showProgress localPath remotePath cb localFile e w1 w2,
     remotePath <> EmptyString -> localPath <> EmptyString -> localPath <> "-" ->
     os_Open localPath (world s) = (inl localFile, w1) ->
     os_Stat localPath w1 = (inr e, w2) ->
     is_Err e = false ->
     PushWithProgress c showProgress localPath remotePath cb s =
       (Panic ("err is not a *Err: " +:+ Error e),
        mkSt w2 (calls s ++ [CallOpen localPath; CallStat localPath]))).
Proof.
  split; [| split; [| split]].
  - intros. apply wrapClientError_nil_iff.
  - intros. now apply wrapClientError_not_Err.
  - intros [w0 trace] showProgress localPath remotePath cb e w1
      Hremote Hlocal Hstdio Hopen Hforeign. cbn [world calls] in *.
    unfold PushWithProgress, openLocal, StdIoFilename.
    apply String.eqb_neq in Hremote, Hlocal, Hstdio.
    rewrite Hremote, Hlocal, Hstdio. cbn [orb].
    unfold bind at 1. step Hopen.
    unfold bind, lift. now rewrite wrapClientError_not_Err.
  - intros [w0 trace] showProgress localPath remotePath cb localFile e w1 w2
      Hremote Hlocal Hstdio Hopen Hstat Hforeign. cbn [world calls] in *.
    unfold PushWithProgress, openLocal, StdIoFilename.
    apply String.eqb_neq in Hremote, Hlocal, Hstdio.
    rewrite Hremote, Hlocal, Hstdio. cbn [orb].
    unfold bind at 1. step Hopen. step Hstat.
    unfold bind, lift. rewrite wrapClientError_not_Err by assumption.
    now rewrite <- app_assoc.
Qed.

End PushEngineFacts.

(** * Further properties *)

(** ** Device descriptors *)

Lemma transport_of_serial (s : string) :
  getTransportDescriptor (DeviceWithSerial s) = Ret ("transport:" +:+ s).
Proof. cbv -[String.append]. now rewrite append_empty_r. Qed.

Lemma transport_of_id (t : string) :
  getTransportDescriptor (DeviceWithTransportId t) = Ret ("transport-id:" +:+ t).
Proof. cbv -[String.append]. now rewrite append_empty_r. Qed.

Lemma prefix_of_serial (s : string) :
  getHostPrefix (DeviceWithSerial s) = Ret ("host-serial:" +:+ s).
Proof. cbv -[String.append]. now rewrite append_empty_r. Qed.

Lemma prefix_of_id (t : string) :
  getHostPrefix (DeviceWithTransportId t) = Ret ("host-transport-id:" +:+ t).
Proof. cbv -[String.append]. now rewrite append_empty_r. Qed.

(** X1. Among the descriptors that the five constructors build, the
    transport descriptor determines the descriptor, and so does the host
    prefix: two constructed descriptors that render to the same string are
    the same descriptor. *)
Theorem descriptor_renderings_injective (d1 d2 : DeviceDescriptor) :
  constructed d1 -> constructed d2 ->
  (getTransportDescriptor d1 = getTransportDescriptor d2 -> d1 = d2) /\
  (getHostPrefix d1 = getHostPrefix d2 -> d1 = d2).
Proof.
  intros [-> | [-> | [-> | [[s1 ->] | [t1 ->]]]]]
         [-> | [-> | [-> | [[s2 ->] | [t2 ->]]]]];
    rewrite ?transport_of_serial, ?transport_of_id, ?prefix_of_serial, ?prefix_of_id;
    split; intros Heq; try reflexivity;
    try (cbv in Heq; discriminate Heq);
    cbv beta iota delta [String.append] in Heq;
    try discriminate Heq; now inversion Heq.
Qed.

Lemma descriptor_renderings_injective_witness :
  constructed (DeviceWithSerial "ABC123") /\
  constructed (DeviceWithSerial "ABC123") /\
  DeviceWithSerial "ABC123" = DeviceWithSerial "ABC123".
Proof.
  assert (Hc : constructed (DeviceWithSerial "ABC123"))
    by (right; right; right; left; now exists "ABC123").
  split; [exact Hc |]. split; [exact Hc |].
  exact (proj1 (descriptor_renderings_injective _ _ Hc Hc) eq_refl).
Defined.

(** ** The command-line preparer, further *)

Lemma Sprintf_quote_error (i : Z) (arg : string) :
  Fmt.Sprintf "arg at index %d contains an invalid double quote: %s"
    [Fmt.Int i; Fmt.Str arg] =
  "arg at index " +:+ pretty i +:+ " contains an invalid double quote: " +:+ arg.
Proof.
  cbv -[String.append pretty]. now rewrite append_empty_r.
Qed.

Lemma check_args_first (pre post : list string) (arg : string) (i : Z) :
  Forall (fun a => ~ has_dquote a) pre ->
  has_dquote arg ->
  check_args i (pre ++ arg :: post) =
    Some (Err ParseError
            ("arg at index " +:+ pretty (i + Z.of_nat (List.length pre)) +:+
             " contains an invalid double quote: " +:+ arg) None None).
Proof.
  intros Hpre Harg. revert i.
  induction Hpre as [|a pre Ha Hpre IH]; intros i.
  - cbn [app check_args List.length].
    apply ContainsRune_In in Harg. rewrite Harg.
    unfold errors_Errorf. rewrite Sprintf_quote_error.
    now replace (i + Z.of_nat 0) with i by lia.
  - cbn [app check_args].
    destruct (Strings.ContainsRune a dquote) eqn:Hq.
    + exfalso. apply Ha. now apply ContainsRune_In.
    + replace (i + Z.of_nat (List.length (a :: pre)))
        with (i + 1 + Z.of_nat (List.length pre))
        by (cbn [List.length]; lia).
      destruct (containsWhitespace a); apply IH.
Qed.

(** X2. When the command is not blank, the parse error of
    [prepareCommandLine] names the first argument that contains a double
    quote: its message holds the index of that argument, counted from zero
    and printed in decimal, and the argument itself; later arguments are
    not looked at. *)
Theorem prepareCommandLine_names_first_quoted_argument (cmd : string)
    (pre post : list string) (arg : string) :
  ~ all_whitespace cmd ->
  Forall (fun a => ~ has_dquote a) pre ->
  has_dquote arg ->
  prepareCommandLine cmd (pre ++ arg :: post) =
    (EmptyString,
     Some (Err ParseError
             ("arg at index " +:+ pretty (Z.of_nat (List.length pre)) +:+
              " contains an invalid double quote: " +:+ arg) None None)).
Proof.
  intros Hcmd Hpre Harg. apply not_blank in Hcmd.
  unfold prepareCommandLine. rewrite Hcmd.
  now rewrite (check_args_first pre post arg 0 Hpre Harg).
Qed.

Lemma prepareCommandLine_names_first_quoted_argument_witness :
  prepareCommandLine "ls" ["-l"; quoted_arg; quoted_arg] =
    (EmptyString,
     Some (Err ParseError
             ("arg at index " +:+ pretty (Z.of_nat (List.length ["-l"])) +:+
              " contains an invalid double quote: " +:+ quoted_arg) None None)).
Proof.
  apply (prepareCommandLine_names_first_quoted_argument "ls" ["-l"] [quoted_arg] quoted_arg).
  - apply not_blank. reflexivity.
  - constructor; [| constructor].
    unfold has_dquote. rewrite <- ContainsRune_In. discriminate.
  - unfold has_dquote. rewrite <- ContainsRune_In. reflexivity.
Defined.

Section ShellFacts.

Context {W : Type} `{ErrorsPkg} `{Wire W} `{Sync W}.

(** X3. A command line that [prepareCommandLine] rejects never reaches the
    device: for a blank command or an argument with a double quote,
    [RunCommand] returns the empty output and the validation or parse error
    wrapped for the operation "RunCommand", and makes no call at all (no
    connection is dialed). *)
Theorem RunCommand_rejects_before_dialing (c : Device) (cmd : string) (args : list string)
    (s : St W) :
  all_whitespace cmd \/ Exists has_dquote args ->
  exists code msg,
    (code = AssertionError \/ code = ParseError) /\
    RunCommand c cmd args s =
      (Ret (EmptyString,
            Some (Err code "error performing RunCommand on *adb.Device" (Some c)
                    (Some (Err code msg None None)))),
       s).
Proof.
  intros Hbad.
  destruct (prepareCommandLine_cases cmd args)
    as [(Hb & msg & Heq) | [(Hb & Hex & msg & Heq) | (Hb & Hno & Heq)]].
  - exists AssertionError, msg. split; [now left |].
    unfold RunCommand. rewrite Heq. unfold bind, lift, ret.
    now rewrite wrapClientError_Err.
  - exists ParseError, msg. split; [now right |].
    unfold RunCommand. rewrite Heq. unfold bind, lift, ret.
    now rewrite wrapClientError_Err.
  - exfalso. apply not_blank in Hb. tauto.
Qed.

Lemma not_close_other (conn : Conn) (x : Call) :
  match x with CallClose _ => False | _ => True end -> not_close conn x.
Proof. unfold not_close. destruct x; intros Hx; try discriminate. contradiction. Qed.

(** X4. Once [dialDevice] has given [RunCommand] a connection, the
    connection is closed exactly once, as the last call of the operation,
    on every path: when sending the request fails, when the status is a
    failure, when reading the stream fails, on success, and also when the
    error wrapper panics. *)
Theorem RunCommand_closes_once (c : Device) (cmd : string) (args : list string)
    (s s1 : St W) (conn : Conn) :
  ~ all_whitespace cmd ->
  ~ Exists has_dquote args ->
  dialDevice c s = (Ret (Some conn, None), s1) ->
  exists o s' mid,
    RunCommand c cmd args s = (o, s') /\
    calls s' = (calls s1 ++ mid ++ [CallClose conn])%list /\
    Forall (not_close conn) mid.
Proof.
  intros Hcmd Hargs Hdial. destruct s1 as [w1 trace1]. cbn [calls].
  unfold RunCommand. rewrite (prepareCommandLine_joined cmd args Hcmd Hargs).
  unfold bind at 1. rewrite Hdial. cbn [fst snd deref].
  unfold bind at 1, ret at 1. unfold defer, SendMessage, ReadStatus, ReadUntilEof, Close.
  set (req := Fmt.Sprintf "shell:%s" [Fmt.Str (Strings.Join (cmd :: args) " ")]).
  destruct (Conn_SendMessage conn req w1) as [[e1|] w2] eqn:Hsend; step Hsend.
  - unfold bind, lift, ret.
    destruct (wrapClientError (Some e1) c "RunCommand" []) as [err|msg];
      destruct (Conn_Close conn w2) as [r w3] eqn:Hclose;
      rewrite (run_call _ _ _ _ _ _ Hclose);
      (eexists _, _, [CallSendMessage conn req]; split; [reflexivity |];
       split; [now rewrite <- !app_assoc |];
       repeat constructor; now apply not_close_other).
  - destruct (Conn_ReadStatus conn req w2) as [[status [e2|]] w3] eqn:Hstatus; step Hstatus.
    + unfold bind, lift, ret.
      destruct (wrapClientError (Some e2) c "RunCommand" []) as [err|msg];
        destruct (Conn_Close conn w3) as [r w4] eqn:Hclose;
        rewrite (run_call _ _ _ _ _ _ Hclose);
        (eexists _, _, [CallSendMessage conn req; CallReadStatus conn req];
         split; [reflexivity |];
         split; [now rewrite <- !app_assoc |];
         repeat constructor; now apply not_close_other).
    + destruct (Conn_ReadUntilEof conn w3) as [resp w4] eqn:Hread; step Hread.
      unfold bind, lift, ret.
      destruct (wrapClientError (snd resp) c "RunCommand" []) as [err|msg];
        destruct (Conn_Close conn w4) as [r w5] eqn:Hclose;
        rewrite (run_call _ _ _ _ _ _ Hclose);
        (eexists _, _, [CallSendMessage conn req; CallReadStatus conn req;
                        CallReadUntilEof conn];
         split; [reflexivity |];
         split; [now rewrite <- !app_assoc |];
         repeat constructor; now apply not_close_other).
Qed.

End ShellFacts.

(** ** The transport session, further *)

Section SessionInvariant.

Context {W : Type} `{ErrorsPkg} `{Wire W}.

(** X5. For a descriptor that renders, whatever the server and the
    connection do, [dialDevice] either makes no connection (dialing
    failed: the error of the dial is returned and nothing else is called),
    or returns the dialed connection with no [Close] call on it, or returns
    no connection (or panics in the wrapping of the send error) after
    exactly one [Close] call on the dialed connection. *)
Theorem dialDevice_returns_open_or_closes_once (c : Device) (td : string) (s : St W) :
  getTransportDescriptor (descriptor c) = Ret td ->
  (exists e w1,
     server_Dial (world s) = (inr e, w1) /\
     dialDevice c s = (Ret (None, Some e), mkSt w1 (calls s ++ [CallDial]))) \/
  (exists conn w1 o s' mid,
     server_Dial (world s) = (inl conn, w1) /\
     dialDevice c s = (o, s') /\
     calls s' = (calls s ++ mid)%list /\
     ((o = Ret (Some conn, None) /\ close_count conn mid = 0%nat) \/
      (((exists err, o = Ret (None, err)) \/ (exists msg, o = Panic msg)) /\
       close_count conn mid = 1%nat))).
Proof.
  intros Htd. destruct s as [w0 trace]. cbn [world calls].
  destruct (server_Dial w0) as [[conn|e] w1] eqn:Hdial.
  - right. exists conn, w1.
    unfold dialDevice, Dial, SendMessage, ReadStatus, Close.
    step Hdial. rewrite Htd. unfold bind at 1, lift at 1. rewrite Sprintf_host.
    destruct (Conn_SendMessage conn ("host:" +:+ td) w1) as [[e|] w2] eqn:Hsend;
      step Hsend.
    + destruct (Conn_Close conn w2) as [r w3] eqn:Hclose. step Hclose.
      unfold bind, lift, ret.
      destruct (errors_WrapErrf (Some e) _ _) as [wrapped|msg];
        (eexists _, _, [CallDial; CallSendMessage conn ("host:" +:+ td); CallClose conn];
         split; [reflexivity |]; split; [reflexivity |];
         split; [now rewrite <- !app_assoc |]; right;
         split; [eauto | cbn [close_count]; now rewrite Nat.eqb_refl]).
    + destruct (Conn_ReadStatus conn ("host:" +:+ td) w2) as [[status [e|]] w3] eqn:Hstatus;
        step Hstatus.
      * destruct (Conn_Close conn w3) as [r w4] eqn:Hclose. step Hclose.
        eexists _, _, [CallDial; CallSendMessage conn ("host:" +:+ td);
                       CallReadStatus conn ("host:" +:+ td); CallClose conn].
        split; [reflexivity |]. split; [reflexivity |].
        split; [now rewrite <- !app_assoc |]. right.
        split; [eauto | cbn [close_count]; now rewrite Nat.eqb_refl].
      * eexists _, _, [CallDial; CallSendMessage conn ("host:" +:+ td);
                       CallReadStatus conn ("host:" +:+ td)].
        split; [reflexivity |]. split; [reflexivity |].
        split; [now rewrite <- !app_assoc |]. left. split; reflexivity.
  - left. exists e, w1. split; [reflexivity |].
    unfold dialDevice, Dial. step Hdial. reflexivity.
Qed.

End SessionInvariant.

(** ** The response-mode client, further *)

Section ClientMoreFacts.

Context {W : Type} `{ErrorsPkg} `{Wire W} `{Sync W}.

Lemma getAttribute_success (c : Device) (attr prefix body : string) (s : St W) (w1 : W) :
  getHostPrefix (descriptor c) = Ret prefix ->
  roundTripSingleResponse (prefix +:+ ":" +:+ attr) (world s) = ((body, None), w1) ->
  getAttribute c attr s =
    (Ret (body, None), mkSt w1 (calls s ++ [CallRoundTrip (prefix +:+ ":" +:+ attr)])).
Proof.
  intros Hprefix Hround. destruct s as [w0 trace]. cbn [world calls] in *.
  unfold getAttribute. rewrite Hprefix. unfold bind at 1, lift at 1.
  rewrite Sprintf_attribute. step Hround. reflexivity.
Qed.

Lemma getAttribute_panics (c : Device) (attr msg : string) (s : St W) :
  getHostPrefix (descriptor c) = Panic msg ->
  getAttribute c attr s = (Panic msg, s).
Proof. intros Hprefix. unfold getAttribute. now rewrite Hprefix. Qed.

(** X6. [Serial], [DevicePath] and [product] each make exactly one round
    trip, with the request made of the host prefix of the descriptor, a
    colon and "get-serialno", "get-devpath" or "get-product", and return
    the body of the response with a nil error; for a descriptor whose type
    is none of the five constants they panic before any call is made. *)
Theorem attribute_queries (c : Device) (s : St W) :
  (forall prefix body w1,
     getHostPrefix (descriptor c) = Ret prefix ->
     (roundTripSingleResponse (prefix +:+ ":get-serialno") (world s) = ((body, None), w1) ->
      Serial c s =
        (Ret (body, None),
         mkSt w1 (calls s ++ [CallRoundTrip (prefix +:+ ":get-serialno")]))) /\
     (roundTripSingleResponse (prefix +:+ ":get-devpath") (world s) = ((body, None), w1) ->
      DevicePath c s =
        (Ret (body, None),
         mkSt w1 (calls s ++ [CallRoundTrip (prefix +:+ ":get-devpath")]))) /\
     (roundTripSingleResponse (prefix +:+ ":get-product") (world s) = ((body, None), w1) ->
      product c s =
        (Ret (body, None),
         mkSt w1 (calls s ++ [CallRoundTrip (prefix +:+ ":get-product")])))) /\
  (descriptorType (descriptor c) < 0 \/ 4 < descriptorType (descriptor c) ->
   exists msg,
     Serial c s = (Panic msg, s) /\
     DevicePath c s = (Panic msg, s) /\
     product c s = (Panic msg, s)).
Proof.
  split.
  - intros prefix body w1 Hprefix.
    repeat split; intros Hround;
      unfold Serial, DevicePath, product; unfold bind at 1;
      rewrite (getAttribute_success c _ prefix body s w1 Hprefix Hround);
      reflexivity.
  - intros Hrange.
    destruct (descriptor_unknown_type_panics _ Hrange) as [[msg Hpanic] _].
    exists msg.
    repeat split; unfold Serial, DevicePath, product; unfold bind at 1;
      now rewrite (getAttribute_panics c _ msg s Hpanic).
Qed.

(** X7. When the fetch of the state succeeds, [State] returns the class
    of the token with a nil error: [StateOnline] for "device",
    [StateOffline] for "offline" and [StateDisconnected] for every other
    token, the empty one included; it never returns [StateInvalid] or
    [StateUnauthorized] then. *)
Theorem State_fetch_success (c : Device) (s s1 : St W) (token : string) :
  getAttribute c "get-state" s = (Ret (token, None), s1) ->
  exists state,
    State c s = (Ret (state, None), s1) /\
    (token = "device" -> state = StateOnline) /\
    (token = "offline" -> state = StateOffline) /\
    (token <> "device" -> token <> "offline" -> state = StateDisconnected) /\
    state <> StateInvalid /\ state <> StateUnauthorized.
Proof.
  intros Hget.
  exists (fst (DeviceStateSecond.parseDeviceState token)).
  pose proof (DeviceStateSecondFacts.parse_no_error token) as Hnone.
  pose proof DeviceStateSecondFacts.parse_known as (Hempty & Hoff & Hon).
  split.
  - unfold State. unfold bind at 1. rewrite Hget. cbn [fst snd].
    destruct (DeviceStateSecond.parseDeviceState token) as [state perr].
    cbn [fst snd] in *. subst perr. reflexivity.
  - split; [intros ->; now rewrite Hon |].
    split; [intros ->; now rewrite Hoff |].
    assert (Hother : token <> "device" -> token <> "offline" ->
                     fst (DeviceStateSecond.parseDeviceState token) = StateDisconnected).
    { intros Hd Ho. destruct (decide (token = "")) as [-> | Hne].
      - now rewrite Hempty.
      - now rewrite DeviceStateSecondFacts.parse_other. }
    split; [exact Hother |].
    split; [apply DeviceStateSecondFacts.parse_never_invalid |].
    destruct (decide (token = "device")) as [-> | Hd]; [now rewrite Hon |].
    destruct (decide (token = "offline")) as [-> | Ho]; [now rewrite Hoff |].
    now rewrite Hother.
Qed.





End ClientMoreFacts.

(** ** Connections and the operations that use them *)

Section ConnectionFacts.

Context {W : Type} `{ErrorsPkg} `{Wire W} `{Sync W} `{ProgressLib}.

Lemma run_quiet_call {A : Type} (op : W -> A * W) (w : W) (trace : list Call)
    (a : A) (w' : W) :
  op w = (a, w') -> quiet_call op (mkSt w trace) = (Ret a, mkSt w' trace).
Proof. intros Hop. unfold quiet_call. cbn [world calls]. now rewrite Hop. Qed.

(** X9. [Stat] and [Remount] close the connection they are given exactly
    once, as their only recorded call after the connection is set up,
    whatever the sync request or the round trip answers, and also when the
    error wrapper panics. *)
Theorem Stat_and_Remount_close_once (c : Device) (s s1 : St W) (conn : Conn) :
  (forall path,
     getSyncConn c s = (Ret (Some conn, None), s1) ->
     exists o s', Stat c path s = (o, s') /\
                  calls s' = (calls s1 ++ [CallClose conn])%list) /\
  (dialDevice c s = (Ret (Some conn, None), s1) ->
   exists o s', Remount c s = (o, s') /\
                calls s' = (calls s1 ++ [CallClose conn])%list).
Proof.
  destruct s1 as [w1 trace1]. cbn [calls]. split.
  - intros path Hconn. unfold Stat. unfold bind at 1. rewrite Hconn. cbn [fst snd deref].
    unfold bind at 1, ret at 1. unfold defer, Close.
    destruct (stat conn path w1) as [entry w2] eqn:Hstat.
    unfold bind at 1. rewrite (run_quiet_call _ _ _ _ _ Hstat).
    unfold bind, lift, ret.
    destruct (Conn_Close conn w2) as [r w3] eqn:Hclose.
    destruct (wrapClientError (snd entry) c "Stat(%s)" [Fmt.Str path]) as [err|msg];
      rewrite (run_call _ _ _ _ _ _ Hclose); eauto.
  - intros Hconn. unfold Remount. unfold bind at 1. rewrite Hconn. cbn [fst snd deref].
    unfold bind at 1, ret at 1. unfold defer, Close.
    destruct (Conn_RoundTripSingleResponse conn "remount" w1) as [resp w2] eqn:Hround.
    unfold bind at 1. rewrite (run_quiet_call _ _ _ _ _ Hround).
    unfold bind, lift, ret.
    destruct (Conn_Close conn w2) as [r w3] eqn:Hclose.
    destruct (wrapClientError (snd resp) c "Remount" []) as [err|msg];
      rewrite (run_call _ _ _ _ _ _ Hclose); eauto.
Qed.

(** X10. After [getSyncConn] has succeeded, [ListDirEntries], [OpenRead]
    and [OpenWrite] act on the world through one call only, the one of
    their helper ([listDirEntries], [receiveFile], [sendFile]): they leave
    the world as the helper left it and the trace as it was (with the one
    entry for [sendFile]), so they make no [Close] call on the connection
    themselves, unlike [Stat], whatever the helper answers and also when
    the error wrapper panics. What the helper does with the connection is
    not in the sources. *)
Theorem sync_openers_only_call_their_helper (c : Device) (path : string) (s s1 : St W)
    (conn : Conn) :
  getSyncConn c s = (Ret (Some conn, None), s1) ->
  (forall entries w2,
     listDirEntries conn path (world s1) = (entries, w2) ->
     exists o, ListDirEntries c path s = (o, mkSt w2 (calls s1))) /\
  (forall reader w2,
     receiveFile conn path (world s1) = (reader, w2) ->
     exists o, OpenRead c path s = (o, mkSt w2 (calls s1))) /\
  (forall perms mtime writer w2,
     sendFile conn path perms mtime (world s1) = (writer, w2) ->
     exists o,
       OpenWrite c path perms mtime s =
         (o, mkSt w2 (calls s1 ++ [CallSendFile conn path perms mtime]))).
Proof.
  intros Hconn. destruct s1 as [w1 trace1]. cbn [world calls]. repeat split.
  - intros entries w2 Hlist.
    unfold ListDirEntries. unfold bind at 1. rewrite Hconn. cbn [fst snd deref].
    unfold bind at 1, ret at 1.
    unfold bind at 1. rewrite (run_quiet_call _ _ _ _ _ Hlist).
    unfold bind, lift, ret.
    destruct (wrapClientError (snd entries) c "ListDirEntries(%s)" [Fmt.Str path]);
      eauto.
  - intros reader w2 Hrecv.
    unfold OpenRead. unfold bind at 1. rewrite Hconn. cbn [fst snd deref].
    unfold bind at 1, ret at 1.
    unfold bind at 1. rewrite (run_quiet_call _ _ _ _ _ Hrecv).
    unfold bind, lift, ret.
    destruct (wrapClientError (snd reader) c "OpenRead(%s)" [Fmt.Str path]); eauto.
  - intros perms mtime writer w2 Hsend.
    unfold OpenWrite. unfold bind at 1. rewrite Hconn. cbn [fst snd deref].
    unfold bind at 1, ret at 1. step Hsend. unfold bind, lift, ret.
    destruct writer as [writer|e].
    + cbn [wrapClientError]. eauto.
    + destruct (wrapClientError (Some e) c "OpenWrite(%s)" [Fmt.Str path]); eauto.
Qed.

End ConnectionFacts.

(** ** The calls a body makes *)

Lemma grows_by_refl {W : Type} (P : Call -> Prop) (s : St W) : grows_by P s s.
Proof. exists []. split; [now rewrite app_nil_r | constructor]. Qed.

Lemma grows_by_trans {W : Type} (P : Call -> Prop) (s1 s2 s3 : St W) :
  grows_by P s1 s2 -> grows_by P s2 s3 -> grows_by P s1 s3.
Proof.
  intros (m1 & H1 & F1) (m2 & H2 & F2). exists (m1 ++ m2)%list. split.
  - now rewrite H2, H1, <- app_assoc.
  - now apply Forall_app.
Qed.

Lemma emits_ret {W A : Type} (P : Call -> Prop) (a : A) : emits P (@ret W A a).
Proof. intros s o s' [= _ <-]. apply grows_by_refl. Qed.

Lemma emits_lift {W A : Type} (P : Call -> Prop) (o : Outcome A) : emits P (@lift W A o).
Proof. intros s o' s' [= _ <-]. apply grows_by_refl. Qed.

Lemma emits_deref {W A : Type} (P : Call -> Prop) (p : option A) : emits P (@deref W A p).
Proof. destruct p; [apply emits_ret | apply emits_lift]. Qed.

Lemma emits_call {W A : Type} (P : Call -> Prop) (c : Call) (op : W -> A * W) :
  P c -> emits P (call c op).
Proof.
  intros Hc s o s'. unfold call. destruct (op (world s)) as [a w].
  intros [= _ <-]. exists [c]. split; [reflexivity | now constructor].
Qed.

Lemma emits_quiet_call {W A : Type} (P : Call -> Prop) (op : W -> A * W) :
  emits P (quiet_call op).
Proof.
  intros s o s'. unfold quiet_call. destruct (op (world s)) as [a w].
  intros [= _ <-]. exists []. split; [cbn [calls]; now rewrite app_nil_r | constructor].
Qed.

Lemma emits_bind {W A B : Type} (P : Call -> Prop) (m : M W A) (k : A -> M W B) :
  emits P m -> (forall a, emits P (k a)) -> emits P (bind m k).
Proof.
  intros Hm Hk s o s'. unfold bind.
  destruct (m s) as [[a|msg] s1] eqn:Hrun.
  - intros Hrest. eapply grows_by_trans; [eapply Hm | eapply Hk]; eassumption.
  - intros [= _ <-]. eapply Hm; eassumption.
Qed.

Lemma emits_defer {W A B : Type} (P : Call -> Prop) (f : M W B) (body : M W A) :
  emits P f -> emits P body -> emits P (defer f body).
Proof.
  intros Hf Hbody s o s'. unfold defer.
  destruct (body s) as [o1 s1] eqn:Hrun. destruct (f s1) as [o2 s2] eqn:Hlast.
  intros [= _ <-]. eapply grows_by_trans; [eapply Hbody | eapply Hf]; eassumption.
Qed.

Lemma emits_weaken {W A : Type} (P Q : Call -> Prop) (m : M W A) :
  (forall x, P x -> Q x) -> emits P m -> emits Q m.
Proof.
  intros HPQ Hm s o s' Hrun. destruct (Hm s o s' Hrun) as (mid & Hmid & Hall).
  exists mid. split; [exact Hmid |]. eapply Forall_impl; eassumption.
Qed.

(** The bodies built from calls, sequencing and tests are taken apart. *)
Ltac emits_steps :=
  repeat first
    [ apply emits_ret
    | apply emits_lift
    | apply emits_deref
    | apply emits_quiet_call
    | apply emits_call; exact I
    | apply emits_bind; [| intros ?]
    | match goal with
      | |- emits _ (match ?x with _ => _ end) => destruct x
      end ].

Lemma bind_returns {W A B : Type} (m : M W A) (k : A -> M W B) (s s1 : St W) (a : A) :
  m s = (Ret a, s1) -> bind m k s = k a s1.
Proof. intros Hm. unfold bind. now rewrite Hm. Qed.

Lemma bind_panics {W A B : Type} (m : M W A) (k : A -> M W B) (s s1 : St W)
    (msg : string) :
  m s = (Panic msg, s1) -> bind m k s = (Panic msg, s1).
Proof. intros Hm. unfold bind. now rewrite Hm. Qed.

Lemma defer_call_runs {W A B : Type} (c : Call) (op : W -> B * W) (body : M W A)
    (s s1 : St W) (o : Outcome A) :
  body s = (o, s1) ->
  exists w, defer (call c op) body s = (o, mkSt w (calls s1 ++ [c])).
Proof.
  intros Hbody. unfold defer, call. rewrite Hbody.
  destruct (op (world s1)) as [b w]. now exists w.
Qed.

Section PushFacts.

Context {W : Type} `{ErrorsPkg} `{Wire W} `{ProgressLib}.

Lemma dialDevice_emits (c : Device) : emits session_call (dialDevice c).
Proof. unfold dialDevice, Dial, SendMessage, ReadStatus, Close. emits_steps. Qed.

Lemma getSyncConn_emits (c : Device) : emits session_call (getSyncConn c).
Proof.
  unfold getSyncConn, SendMessage, ReadStatus.
  apply emits_bind; [apply dialDevice_emits | intros r]. emits_steps.
Qed.

Lemma OpenWrite_emits (c : Device) (path : string) (perms : Z) (mtime : Time) :
  emits (fun x => session_call x \/ exists conn, x = CallSendFile conn path perms mtime)
    (OpenWrite c path perms mtime).
Proof.
  unfold OpenWrite. apply emits_bind.
  - eapply emits_weaken; [| apply getSyncConn_emits]. intros x Hx. now left.
  - intros r. destruct (snd r); [emits_steps |].
    apply emits_bind; [apply emits_deref | intros conn].
    apply emits_bind; [apply emits_call; right; now exists conn | intros w].
    emits_steps.
Qed.

Lemma prints_observe (cb : Observer) (outs : list string) (s : St W)
    (progress : ProgressBar) :
  grows_by observe_call s (fst (prints cb outs (s, progress))).
Proof.
  rewrite prints_spec. cbn [fst]. eexists. split; [reflexivity |].
  induction outs; cbn [map]; constructor; [exact I | assumption].
Qed.

Lemma grows_by_weaken (P Q : Call -> Prop) (s s' : St W) :
  (forall x, P x -> Q x) -> grows_by P s s' -> grows_by Q s s'.
Proof.
  intros HPQ (mid & Hmid & Hall). exists mid. split; [exact Hmid |].
  eapply Forall_impl; eassumption.
Qed.

Lemma remote_Write_emits (w : FileWriter) (p : string) :
  emits write_call (remote_Write w p).
Proof. unfold remote_Write. now apply emits_call. Qed.

(** Without a bar the copy only writes. *)
Lemma plain_copy_emits (w : FileWriter) (src : Reader) (size : Z)
    (showProgress : bool) (cb : option Observer) :
  (if showProgress && (0 <? size) then cb else None) = None ->
  emits write_call (copyWithProgressAndStats (remote_Write w) src size showProgress cb).
Proof.
  intros Hoff s o s'. unfold copyWithProgressAndStats. rewrite Hoff.
  destruct (io_Copy (remote_Write w) src 0 s) as [o1 s1] eqn:Hcopy.
  assert (Hinv : grows_by write_call s s1).
  { refine (io_Copy_invariant _ (fun st => grows_by write_call s st) _
              _ _ _ _ _ _ Hcopy).
    - intros p s0 o2 s2 Hst Hw.
      exact (grows_by_trans _ _ _ _ Hst (remote_Write_emits w p s0 o2 s2 Hw)).
    - apply grows_by_refl. }
  destruct o1 as [[copied err]|msg]; intros [= _ <-]; exact Hinv.
Qed.

(** With or without a bar, the copy only writes and hands events to the
    observer. *)
Lemma copy_emits (w : FileWriter) (src : Reader) (size : Z)
    (showProgress : bool) (cb : option Observer) :
  emits (fun x => write_call x \/ observe_call x)
    (copyWithProgressAndStats (remote_Write w) src size showProgress cb).
Proof.
  destruct (if showProgress && (0 <? size) then cb else None) as [f|] eqn:Hbar.
  - intros s o s'. unfold copyWithProgressAndStats. rewrite Hbar.
    set (P := fun x => write_call x \/ observe_call x).
    assert (Hprints : forall outs (s0 : St W) progress,
              grows_by P s0 (fst (prints f outs (s0, progress)))).
    { intros outs s0 progress.
      eapply grows_by_weaken; [| apply prints_observe]. intros x Hx. now right. }
    destruct (io_Copy _ src 0 (pb_Start f (s, pb_New size))) as [o1 st1] eqn:Hcopy.
    assert (Hinv : grows_by P s (fst st1)).
    { refine (io_Copy_invariant _ (fun st => grows_by P s (fst st)) _
                _ _ _ _ _ _ Hcopy).
      - intros p [s0 progress] o2 st2 Hst. rewrite bar_writer_step.
        destruct (remote_Write w p s0) as [o3 s3] eqn:Hw.
        assert (Hs3 : grows_by P s s3).
        { eapply grows_by_trans; [exact Hst |].
          eapply grows_by_weaken; [| exact (remote_Write_emits w p s0 o3 s3 Hw)].
          intros x Hx. now left. }
        destruct o3 as [[n' [e|]]|msg]; try (intros [= _ <-]; exact Hs3).
        destruct (negb (n' =? Strings.len p)); intros [= _ <-]; [exact Hs3 |].
        eapply grows_by_trans; [exact Hs3 | apply Hprints].
      - unfold pb_Start. apply Hprints. }
    destruct o1 as [[copied err]|msg]; intros [= _ <-]; [| exact Hinv].
    destruct st1 as [s1 progress1]. unfold pb_Finish.
    eapply grows_by_trans; [exact Hinv | apply Hprints].
  - eapply emits_weaken; [| now apply plain_copy_emits]. intros x Hx. now left.
Qed.

End PushFacts.

(** ** The push, from the opening of its source to the releases *)

Section PushOrder.

Context {W : Type} `{ErrorsPkg} `{Wire W} `{ProgressLib}.

Lemma push_after_open (P : Call -> Prop) (c : Device) (showProgress : bool)
    (localPath remotePath : string) (cb : option Observer) (s s0 : St W)
    (f : File) (size perms : Z) (mtime : Time) :
  remotePath <> EmptyString ->
  openLocal c localPath s = (Ret (inl (f, size, perms, mtime)), s0) ->
  emits P (OpenWrite c remotePath perms mtime) ->
  (forall writer,
     emits P (copyWithProgressAndStats (remote_Write writer) (fdata f) size
                showProgress cb)) ->
  exists o s' mid,
    PushWithProgress c showProgress localPath remotePath cb s = (o, s') /\
    Forall P mid /\
    (calls s' = (calls s0 ++ mid ++ [CallFileClose (fname f)])%list \/
     exists writer,
       calls s' =
         (calls s0 ++ mid ++ [CallWriterClose writer; CallFileClose (fname f)])%list).
Proof.
  intros Hremote Hlocal Hopen Hcopy.
  unfold PushWithProgress.
  apply String.eqb_neq in Hremote. rewrite Hremote.
  rewrite (bind_returns _ _ _ _ _ Hlocal). cbv beta iota.
  match goal with
  | |- context [defer (call ?x ?op) ?body s0] =>
      destruct (body s0) as [o s1] eqn:Hbody;
      destruct (defer_call_runs x op body s0 s1 o Hbody) as [w Hrun];
      rewrite Hrun
  end.
  unfold bind at 1 in Hbody.
  destruct (OpenWrite c remotePath perms mtime s0) as [ow s2] eqn:How.
  destruct (Hopen _ _ _ How) as (m1 & Hm1 & F1).
  destruct ow as [[fw [e|]]|msg]; cbn [fst snd] in Hbody.
  - unfold lift in Hbody. injection Hbody as _ <-.
    exists o, (mkSt w (calls s2 ++ [CallFileClose (fname f)])), m1.
    split; [reflexivity |]. split; [exact F1 |]. left.
    cbn [calls]. now rewrite Hm1, <- app_assoc.
  - destruct fw as [writer|]; cbn [deref] in Hbody.
    + unfold bind at 1, ret at 1 in Hbody.
      match type of Hbody with
      | defer (call ?x ?op) ?inner s2 = _ =>
          destruct (inner s2) as [o' s3] eqn:Hinner;
          destruct (defer_call_runs x op inner s2 s3 o' Hinner) as [w' Hrun'];
          rewrite Hrun' in Hbody
      end.
      injection Hbody as _ <-.
      unfold bind at 1 in Hinner.
      destruct (copyWithProgressAndStats (remote_Write writer) (fdata f) size
                  showProgress cb s2) as [oc s4] eqn:Hc.
      destruct (Hcopy writer _ _ _ Hc) as (m2 & Hm2 & F2).
      assert (Hs3 : s3 = s4).
      { destruct oc as [[e|]|msg]; unfold lift, ret in Hinner;
          now injection Hinner as _ <-. }
      subst s4.
      exists o, (mkSt w (calls (mkSt w' (calls s3 ++ [CallWriterClose writer])) ++
                         [CallFileClose (fname f)])), (m1 ++ m2)%list.
      split; [reflexivity |]. split; [now apply Forall_app |]. right.
      exists writer. cbn [calls]. rewrite Hm2, Hm1, <- !app_assoc. reflexivity.
    + unfold bind, lift in Hbody. injection Hbody as _ <-.
      exists o, (mkSt w (calls s2 ++ [CallFileClose (fname f)])), m1.
      split; [reflexivity |]. split; [exact F1 |]. left.
      cbn [calls]. now rewrite Hm1, <- app_assoc.
  - injection Hbody as _ <-.
    exists o, (mkSt w (calls s2 ++ [CallFileClose (fname f)])), m1.
    split; [reflexivity |]. split; [exact F1 |]. left.
    cbn [calls]. now rewrite Hm1, <- app_assoc.
Qed.


Lemma openLocal_file (c : Device) (localPath : string) (s : St W) (f : File)
    (info : FileInfo) (w1 w2 : W) :
  localPath <> EmptyString -> localPath <> StdIoFilename ->
  os_Open localPath (world s) = (inl f, w1) ->
  os_Stat localPath w1 = (inl info, w2) ->
  openLocal c localPath s =
    (Ret (inl (f, Size info, Z.land (Mode info) 511, ModTime info)),
     mkSt w2 (calls s ++ [CallOpen localPath; CallStat localPath])).
Proof.
  intros Hne Hstd Hopen Hstat. destruct s as [w0 trace]. cbn [world calls] in *.
  unfold openLocal.
  apply String.eqb_neq in Hne. apply String.eqb_neq in Hstd. rewrite Hne, Hstd.
  cbn [orb]. step Hopen. step Hstat. unfold ret. now rewrite <- app_assoc.
Qed.

Lemma openLocal_stdin (c : Device) (localPath : string) (s : St W) :
  localPath = EmptyString \/ localPath = StdIoFilename ->
  openLocal c localPath s = (Ret (inl (os_Stdin (world s), 0, 432, MtimeOfClose)), s).
Proof. intros [-> | ->]; reflexivity. Qed.

Lemma observed_none (trace : list Call) :
  Forall (fun x => ~ observe_call x) trace -> observed trace = [].
Proof.
  induction 1 as [|x rest Hx Hrest IH]; [reflexivity |].
  destruct x; cbn [observed]; try exact IH. exfalso. apply Hx. exact I.
Qed.

(** A push that has opened its source and its writer: the copy, then the
    two releases. *)
Lemma push_after_copy (c : Device) (showProgress : bool) (localPath remotePath : string)
    (cb : option Observer) (s s0 s1 s2 : St W) (file : File) (size perms : Z)
    (mtime : Time) (writer : FileWriter) (oc : Outcome (option error)) :
  remotePath <> EmptyString ->
  openLocal c localPath s = (Ret (inl (file, size, perms, mtime)), s0) ->
  OpenWrite c remotePath perms mtime s0 = (Ret (Some writer, None), s1) ->
  copyWithProgressAndStats (remote_Write writer) (fdata file) size showProgress cb s1 =
    (oc, s2) ->
  exists o w',
    PushWithProgress c showProgress localPath remotePath cb s =
      (o, mkSt w' (calls s2 ++ [CallWriterClose writer; CallFileClose (fname file)])).
Proof.
  intros Hremote Hlocal Hopen Hcopy. unfold PushWithProgress.
  apply String.eqb_neq in Hremote. rewrite Hremote.
  rewrite (bind_returns _ _ _ _ _ Hlocal). cbv beta iota.
  match goal with
  | |- context [defer (call ?x ?op) ?body s0] =>
      destruct (body s0) as [o s3] eqn:Hbody;
      destruct (defer_call_runs x op body s0 s3 o Hbody) as [w' Hrun];
      rewrite Hrun
  end.
  rewrite (bind_returns _ _ _ _ _ Hopen) in Hbody. cbn [fst snd deref] in Hbody.
  unfold bind at 1, ret at 1 in Hbody.
  match type of Hbody with
  | defer (call ?x ?op) ?inner s1 = _ =>
      destruct (inner s1) as [o' s4] eqn:Hinner;
      destruct (defer_call_runs x op inner s1 s4 o' Hinner) as [w'' Hrun'];
      rewrite Hrun' in Hbody
  end.
  injection Hbody as _ <-.
  unfold bind at 1 in Hinner. rewrite Hcopy in Hinner.
  assert (Hs4 : s4 = s2).
  { destruct oc as [[e|]|msg]; unfold lift, ret in Hinner; now injection Hinner as _ <-. }
  subst s4. exists o, w'. cbn [calls]. now rewrite <- app_assoc.
Qed.

(** A push that has opened its source and gets no writer: the one
    release. *)
Lemma push_without_writer (c : Device) (showProgress : bool) (localPath remotePath : string)
    (cb : option Observer) (s s0 s1 : St W) (file : File) (size perms : Z)
    (mtime : Time) (ow : Outcome (option FileWriter * option error)) :
  remotePath <> EmptyString ->
  openLocal c localPath s = (Ret (inl (file, size, perms, mtime)), s0) ->
  OpenWrite c remotePath perms mtime s0 = (ow, s1) ->
  match ow with
  | Ret (Some _, None) => False
  | _ => True
  end ->
  exists o w',
    PushWithProgress c showProgress localPath remotePath cb s =
      (o, mkSt w' (calls s1 ++ [CallFileClose (fname file)])).
Proof.
  intros Hremote Hlocal Hopen Hnone. unfold PushWithProgress.
  apply String.eqb_neq in Hremote. rewrite Hremote.
  rewrite (bind_returns _ _ _ _ _ Hlocal). cbv beta iota.
  match goal with
  | |- context [defer (call ?x ?op) ?body s0] =>
      destruct (body s0) as [o s3] eqn:Hbody;
      destruct (defer_call_runs x op body s0 s3 o Hbody) as [w' Hrun];
      rewrite Hrun
  end.
  exists o, w'. do 3 f_equal.
  unfold bind at 1 in Hbody. rewrite Hopen in Hbody.
  destruct ow as [[[writer|] [e|]]|msg]; cbn [fst snd deref] in Hbody;
    try contradiction; unfold bind, lift in Hbody; now injection Hbody as _ <-.
Qed.

(** X11. A push of a local file that [os.Open] and [os.Stat] accept, to a
    remote path that is not empty, when the context is not cancelled
    during the push. After the two calls for the local file, [OpenWrite]
    runs for the remote path with the permission bits of the file ([Mode]
    and 0777) and its modification time, making only calls of the session
    and of [sendFile] with these values. When it returns a writer and no
    error, the push goes on with writes and events only, then closes that
    writer and then the local file, each once, as its last two calls,
    whatever the copy returns and also when it panics. In every other case
    (an error, a panic) the push makes one more call, the [Close] of the
    local file, and closes no writer. *)
Theorem PushWithProgress_from_file (c : Device) (showProgress : bool)
    (localPath remotePath : string) (cb : option Observer) (s : St W) (f : File)
    (info : FileInfo) (w1 w2 : W) :
  remotePath <> EmptyString ->
  localPath <> EmptyString -> localPath <> StdIoFilename ->
  os_Open localPath (world s) = (inl f, w1) ->
  os_Stat localPath w1 = (inl info, w2) ->
  exists ow s1 setup,
    OpenWrite c remotePath (Z.land (Mode info) 511) (ModTime info)
      (mkSt w2 (calls s ++ [CallOpen localPath; CallStat localPath])) = (ow, s1) /\
    calls s1 = (calls s ++ [CallOpen localPath; CallStat localPath] ++ setup)%list /\
    Forall (fun x => session_call x \/
                     exists conn,
                       x = CallSendFile conn remotePath (Z.land (Mode info) 511)
                             (ModTime info)) setup /\
    match ow with
    | Ret (Some writer, None) =>
        exists o s' copy,
          PushWithProgress c showProgress localPath remotePath cb s = (o, s') /\
          Forall (fun x => write_call x \/ observe_call x) copy /\
          calls s' =
            (calls s1 ++ copy ++ [CallWriterClose writer; CallFileClose (fname f)])%list
    | _ =>
        exists o s',
          PushWithProgress c showProgress localPath remotePath cb s = (o, s') /\
          calls s' = (calls s1 ++ [CallFileClose (fname f)])%list
    end.
Proof.
  intros Hremote Hne Hstd Hopen Hstat.
  pose proof (openLocal_file c localPath s f info w1 w2 Hne Hstd Hopen Hstat) as Hlocal.
  destruct (OpenWrite c remotePath (Z.land (Mode info) 511) (ModTime info)
              (mkSt w2 (calls s ++ [CallOpen localPath; CallStat localPath])))
    as [ow s1] eqn:How.
  destruct (OpenWrite_emits c remotePath _ _ _ _ _ How) as (setup & Hsetup & Hall).
  exists ow, s1, setup. split; [reflexivity |].
  split; [cbn [calls] in Hsetup; now rewrite Hsetup, <- app_assoc |].
  split; [exact Hall |].
  assert (Hother : match ow with
                   | Ret (Some _, None) => False
                   | _ => True
                   end ->
                   exists o s',
                     PushWithProgress c showProgress localPath remotePath cb s = (o, s') /\
                     calls s' = (calls s1 ++ [CallFileClose (fname f)])%list).
  { intros Hnone.
    destruct (push_without_writer c showProgress localPath remotePath cb s _ s1 f _ _ _ ow
                Hremote Hlocal How Hnone) as (o & w' & Hrun).
    now exists o, (mkSt w' (calls s1 ++ [CallFileClose (fname f)])). }
  destruct ow as [[[writer|] [e|]]|msg]; try (apply Hother; exact I).
  destruct (copyWithProgressAndStats (remote_Write writer) (fdata f) (Size info)
              showProgress cb s1) as [oc s2] eqn:Hcopy.
  destruct (copy_emits writer (fdata f) (Size info) showProgress cb _ _ _ Hcopy)
    as (copy & Hcalls & Hcopy_calls).
  destruct (push_after_copy c showProgress localPath remotePath cb s _ s1 s2 f _ _ _
              writer oc Hremote Hlocal How Hcopy) as (o & w' & Hrun).
  exists o, (mkSt w' (calls s2 ++ [CallWriterClose writer; CallFileClose (fname f)])), copy.
  split; [exact Hrun |]. split; [exact Hcopy_calls |].
  cbn [calls]. now rewrite Hcalls, <- app_assoc.
Qed.

(** X12. A push from the standard input (the local path is empty or "-")
    to a remote path that is not empty, when the context is not cancelled
    during the push: no file is opened; the size is 0,
    so the observer receives no event even when progress display is on; the
    file is sent with the permission bits 0660 and the modification time
    [MtimeOfClose]; and at the end the push closes the standard input of
    the process, after the remote writer if there is one. *)
Theorem PushWithProgress_from_stdin (c : Device) (showProgress : bool)
    (localPath remotePath : string) (cb : option Observer) (s : St W) :
  remotePath <> EmptyString ->
  localPath = EmptyString \/ localPath = StdIoFilename ->
  exists o s' mid,
    PushWithProgress c showProgress localPath remotePath cb s = (o, s') /\
    Forall (push_call remotePath 432 MtimeOfClose) mid /\
    observed mid = [] /\
    (calls s' = (calls s ++ mid ++ [CallFileClose (fname (os_Stdin (world s)))])%list \/
     exists writer,
       calls s' =
         (calls s ++ mid ++
          [CallWriterClose writer; CallFileClose (fname (os_Stdin (world s)))])%list).
Proof.
  intros Hremote Hstd.
  pose proof (openLocal_stdin c localPath s Hstd) as Hlocal.
  destruct (push_after_open
              (fun x => (session_call x \/
                         exists conn, x = CallSendFile conn remotePath 432 MtimeOfClose) \/
                        write_call x)
              c showProgress localPath remotePath cb s _ _ _ _ _ Hremote Hlocal)
    as (o & s' & mid & Hrun & Hmid & Hcalls).
  - eapply emits_weaken; [| apply OpenWrite_emits]. intros x Hx. now left.
  - intros writer. eapply emits_weaken; [| apply plain_copy_emits].
    + intros x Hx. now right.
    + change (0 <? 0) with false. now rewrite andb_false_r.
  - exists o, s', mid. split; [exact Hrun |]. split; [| split; [| exact Hcalls]].
    + eapply Forall_impl; [exact Hmid |].
      intros x [[Hx | Hx] | Hx]; [now left | now right; right; right | now right; left].
    + apply observed_none. eapply Forall_impl; [exact Hmid |].
      intros x Hx Hobs. destruct x; try contradiction.
      destruct Hx as [[Hx | [conn Hx]] | Hx]; [contradiction | discriminate | contradiction].
Qed.

(** With an empty remote path the push touches nothing: no call is made,
    the local file is not opened; and when [errors.WrapErrf] answers nil
    for a nil cause, the push returns a nil error. *)
Lemma PushWithProgress_without_remote_path (c : Device) (showProgress : bool)
    (localPath : string) (cb : option Observer) (s : St W) :
  errors_WrapErrf None "error: must specify remote file" [] = Ret None ->
  PushWithProgress c showProgress localPath EmptyString cb s = (Ret None, s).
Proof.
  intros Hwrap. unfold PushWithProgress. cbn [String.eqb].
  unfold bind, lift. now rewrite Hwrap.
Qed.

End PushOrder.

(** ** The events of a push *)

Section PushProgress.

Context {W : Type} `{ErrorsPkg} `{Wire W} `{ProgressLib}.





End PushProgress.

(** ** [deleteExtraSpace] *)

Lemma skip_spaces_squeeze (s : string) :
  squeeze_from true (skip_spaces s) = squeeze_from true s.
Proof.
  induction s as [|a rest IH]; [reflexivity |].
  cbn [skip_spaces squeeze_from]. destruct (regexp_space a) eqn:Ha; [exact IH |].
  cbn [squeeze_from]. now rewrite Ha.
Qed.

Lemma skip_spaces_length (s : string) :
  (String.length (skip_spaces s) <= String.length s)%nat.
Proof.
  induction s as [|a rest IH]; [reflexivity |].
  cbn [skip_spaces]. destruct (regexp_space a); cbn [String.length]; lia.
Qed.

Lemma collapse_first_cons (a b : ascii) (rest : string) :
  collapse_first (String a (String b rest)) =
    if regexp_space a && regexp_space b then Some (String a (skip_spaces rest))
    else option_map (String a) (collapse_first (String b rest)).
Proof. reflexivity. Qed.

Lemma squeeze_from_cons (p : bool) (a : ascii) (rest : string) :
  squeeze_from p (String a rest) =
    if regexp_space a then
      if p then squeeze_from true rest else String a (squeeze_from true rest)
    else String a (squeeze_from false rest).
Proof. reflexivity. Qed.

Lemma replace_space_pairs_cons (a b : ascii) (rest : string) :
  replace_space_pairs (String a (String b rest)) =
    if Ascii.eqb a " " && Ascii.eqb b " " then String " " (replace_space_pairs rest)
    else String a (replace_space_pairs (String b rest)).
Proof. reflexivity. Qed.

Lemma collapse_first_squeeze (s s' : string) :
  collapse_first s = Some s' ->
  (forall p, squeeze_from p s' = squeeze_from p s) /\
  (String.length s' < String.length s)%nat.
Proof.
  revert s'. induction s as [|a tl IH]; intros s' Hfirst; [discriminate |].
  destruct tl as [|b rest]; [discriminate |].
  rewrite collapse_first_cons in Hfirst.
  destruct (regexp_space a && regexp_space b) eqn:Hab.
  - apply andb_prop in Hab as [Ha Hb]. injection Hfirst as <-. split.
    + intros p. rewrite !squeeze_from_cons, Ha, Hb, skip_spaces_squeeze.
      reflexivity.
    + pose proof (skip_spaces_length rest). cbn [String.length]. lia.
  - destruct (collapse_first (String b rest)) as [t'|]; [| discriminate].
    cbn [option_map] in Hfirst. injection Hfirst as <-.
    destruct (IH t' eq_refl) as [Hsq Hlen]. split.
    + intros p. rewrite (squeeze_from_cons p a t'), (squeeze_from_cons p a (String b rest)).
      now rewrite !Hsq.
    + cbn [String.length] in *. lia.
Qed.

Lemma collapse_first_none (s : string) (p : bool) :
  collapse_first s = None ->
  (p = true -> match s with String a _ => regexp_space a = false | _ => True end) ->
  squeeze_from p s = s.
Proof.
  revert p. induction s as [|a tl IH]; intros p Hnone Hstart; [reflexivity |].
  rewrite squeeze_from_cons.
  assert (Htl : collapse_first tl = None /\
                (regexp_space a = true ->
                 match tl with String b _ => regexp_space b = false | _ => True end)).
  { destruct tl as [|b rest]; [now split |].
    rewrite collapse_first_cons in Hnone.
    destruct (regexp_space a && regexp_space b) eqn:Hab; [discriminate |].
    destruct (collapse_first (String b rest)); [discriminate |].
    split; [reflexivity |]. intros Ha. rewrite Ha in Hab. exact Hab. }
  destruct Htl as [Hnone' Hnext].
  destruct (regexp_space a) eqn:Ha.
  - destruct p; [specialize (Hstart eq_refl); discriminate |].
    f_equal. apply IH; [exact Hnone' | intros _; now apply Hnext].
  - f_equal. apply IH; [exact Hnone' | discriminate].
Qed.

Lemma collapse_loop_squeezes (turns : nat) (s : string) :
  (String.length s < turns)%nat -> collapse_loop turns s = Some (squeeze s).
Proof.
  revert s. induction turns as [|turns IH]; intros s Hlen; [lia |].
  cbn [collapse_loop]. destruct (collapse_first s) as [s'|] eqn:Hfirst.
  - destruct (collapse_first_squeeze s s' Hfirst) as [Hsq Hshorter].
    rewrite IH by lia. unfold squeeze. now rewrite Hsq.
  - unfold squeeze. rewrite collapse_first_none; [reflexivity | exact Hfirst | discriminate].
Qed.

Lemma replace_space_pairs_squeeze (bound : nat) (s : string) :
  (String.length s <= bound)%nat ->
  (forall p, squeeze_from p (replace_space_pairs s) = squeeze_from p s) /\
  (String.length (replace_space_pairs s) <= String.length s)%nat.
Proof.
  revert s. induction bound as [|bound IH]; intros s Hlen.
  - destruct s; [now split | cbn [String.length] in Hlen; lia].
  - destruct s as [|a [|b rest]]; [now split | now split |].
    cbn [String.length] in Hlen. rewrite replace_space_pairs_cons.
    destruct (Ascii.eqb a " " && Ascii.eqb b " ") eqn:Hpair.
    + apply andb_prop in Hpair as [Ha Hb].
      apply Ascii.eqb_eq in Ha. apply Ascii.eqb_eq in Hb. subst a b.
      destruct (IH rest ltac:(lia)) as [Hsq Hshorter]. split.
      * intros p. rewrite !squeeze_from_cons.
        change (regexp_space " ") with true. cbv beta iota.
        rewrite Hsq. now destruct p.
      * cbn [String.length]. lia.
    + destruct (IH (String b rest) ltac:(cbn [String.length]; lia)) as [Hsq Hshorter].
      split.
      * intros p.
        rewrite (squeeze_from_cons p a (replace_space_pairs (String b rest))),
                (squeeze_from_cons p a (String b rest)).
        now rewrite !Hsq.
      * cbn [String.length] in *. lia.
Qed.

Lemma squeeze_from_is_squeezed (s : string) (p : bool) :
  collapse_first (squeeze_from p s) = None /\
  (p = true ->
   match squeeze_from p s with String a _ => regexp_space a = false | _ => True end).
Proof.
  revert p. induction s as [|a rest IH]; intros p; [now split |].
  rewrite squeeze_from_cons. destruct (regexp_space a) eqn:Ha.
  - destruct p; [apply IH |]. split; [| discriminate].
    destruct (IH true) as [Hnone Hstart]. specialize (Hstart eq_refl).
    destruct (squeeze_from true rest) as [|b r]; [reflexivity |].
    rewrite collapse_first_cons, Ha, Hstart. cbn [andb].
    now rewrite Hnone.
  - split; [| intros _; exact Ha].
    destruct (IH false) as [Hnone _].
    destruct (squeeze_from false rest) as [|b r]; [reflexivity |].
    rewrite collapse_first_cons, Ha. cbn [andb]. now rewrite Hnone.
Qed.

Lemma squeeze_from_length (s : string) (p : bool) :
  (String.length (squeeze_from p s) <= String.length s)%nat.
Proof.
  revert p. induction s as [|a rest IH]; intros p; [reflexivity |].
  rewrite squeeze_from_cons.
  pose proof (IH true). pose proof (IH false).
  destruct (regexp_space a); [destruct p |]; cbn [String.length]; lia.
Qed.

(** X13. [deleteExtraSpace] returns (its loop ends within as many turns as
    the string has bytes, and one more) the string in which every run of
    white space ([\s]: tab, line feed, form feed, carriage return, space)
    is cut down to its first byte; every other byte is kept in its place,
    white space at the ends is not trimmed, and a tab or a line feed that
    starts a run is kept as it is. The result has no two adjacent bytes of
    white space: the function leaves it unchanged. *)
Theorem deleteExtraSpace_squeezes (turns : nat) (s : string) :
  (String.length s < turns)%nat ->
  deleteExtraSpace turns s = Some (squeeze s) /\
  deleteExtraSpace turns (squeeze s) = Some (squeeze s).
Proof.
  intros Hlen.
  assert (Hrun : forall t, (String.length t < turns)%nat ->
                           deleteExtraSpace turns t = Some (squeeze t)).
  { intros t Ht. unfold deleteExtraSpace.
    destruct (replace_space_pairs_squeeze (String.length t) t (le_n _)) as [Hsq Hshorter].
    rewrite collapse_loop_squeezes by lia. unfold squeeze. now rewrite Hsq. }
  split; [now apply Hrun |].
  pose proof (squeeze_from_length s false) as Hshorter.
  rewrite Hrun by (unfold squeeze; lia). f_equal.
  destruct (squeeze_from_is_squeezed s false) as [Hnone _].
  unfold squeeze at 1. apply collapse_first_none; [exact Hnone | discriminate].
Qed.

Lemma deleteExtraSpace_squeezes_witness :
  let s := "a   b" +:+ String (ascii_of_nat 9) (String (ascii_of_nat 10) "c  ") in
  deleteExtraSpace 20 s = Some ("a b" +:+ String (ascii_of_nat 9) "c ") /\
  deleteExtraSpace 20 (squeeze s) = Some (squeeze s).
Proof.
  intros s.
  assert (Hlen : (String.length s < 20)%nat) by (vm_compute; lia).
  exact (deleteExtraSpace_squeezes 20 s Hlen).
Defined.

(** ** The shell helpers *)

Section ShellHelperFacts.

Context {W : Type} `{ErrorsPkg} `{Wire W}.

(** X14. [ScreenShot] is [RunCommand] for the command "screencap" with the
    argument "-p", call for call and result for result; in particular its
    errors are wrapped for the operation "RunCommand", not for
    "ScreenShot". *)
Theorem ScreenShot_runs_screencap (c : Device) (s : St W) :
  ScreenShot c s = RunCommand c "screencap" ["-p"] s /\
  (forall code msg details cause s1,
     dialDevice c s = (Ret (None, Some (Err code msg details cause)), s1) ->
     ScreenShot c s =
       (Ret (EmptyString,
             Some (Err code "error performing RunCommand on *adb.Device" (Some c)
                     (Some (Err code msg details cause)))),
        s1)).
Proof.
  split; [reflexivity |].
  intros code msg details cause s1 Hdial. unfold ScreenShot.
  change (prepareCommandLine "screencap" [Fmt.Sprintf "-p" []])
    with ("screencap -p", @None error).
  cbv beta iota. rewrite (bind_returns _ _ _ _ _ Hdial). cbn [snd].
  unfold bind, lift, ret. now rewrite wrapClientError_Err.
Qed.

Lemma has_dquote_append (a b : string) :
  has_dquote (a +:+ b) <-> has_dquote a \/ has_dquote b.
Proof.
  unfold has_dquote. induction a as [|x a IH].
  - change (EmptyString +:+ b) with b. cbn [list_ascii_of_string In]. tauto.
  - change (String x a +:+ b) with (String x (a +:+ b)).
    cbn [list_ascii_of_string In]. rewrite IH. tauto.
Qed.

Lemma RunCommand_rejects_quote (c : Device) (cmd arg : string) (s : St W) :
  isBlank cmd = false -> has_dquote arg ->
  RunCommand c cmd [arg] s =
    (Ret (EmptyString,
          Some (Err ParseError "error performing RunCommand on *adb.Device" (Some c)
                  (Some (Err ParseError
                           ("arg at index 0 contains an invalid double quote: " +:+ arg)
                           None None)))),
     s).
Proof.
  intros Hcmd Harg. unfold RunCommand, prepareCommandLine. rewrite Hcmd.
  pose proof (check_args_first [] [] arg 0 (List.Forall_nil _) Harg) as Hcheck.
  cbn [app] in Hcheck. rewrite Hcheck.
  unfold bind, lift, ret. rewrite wrapClientError_Err. reflexivity.
Qed.

Lemma RunCommand_sends_request (c : Device) (cmd arg : string) (s s1 : St W)
    (conn : Conn) :
  isBlank cmd = false -> ~ has_dquote arg ->
  dialDevice c s = (Ret (Some conn, None), s1) ->
  exists o s' rest,
    RunCommand c cmd [arg] s = (o, s') /\
    calls s' =
      (calls s1 ++ CallSendMessage conn ("shell:" +:+ cmd +:+ " " +:+ arg) :: rest)%list.
Proof.
  intros Hcmd Harg Hdial. destruct s1 as [w1 trace1]. cbn [calls].
  assert (Hargs : ~ Exists has_dquote [arg]).
  { intros Hex. inversion Hex as [x l Hx | x l Hx]; subst; [contradiction | inversion Hx]. }
  apply not_blank in Hcmd.
  unfold RunCommand. rewrite (prepareCommandLine_joined cmd [arg] Hcmd Hargs).
  rewrite (bind_returns _ _ _ _ _ Hdial). cbn [fst snd deref].
  unfold bind at 1, ret at 1. rewrite Sprintf_shell.
  replace (Strings.Join [cmd; arg] " ") with (cmd +:+ " " +:+ arg)
    by (cbn [Strings.Join]; reflexivity).
  unfold Close.
  match goal with
  | |- context [defer (call ?x ?op) ?body ?st] =>
      destruct (body st) as [o s2] eqn:Hbody;
      destruct (defer_call_runs x op body st s2 o Hbody) as [w Hrun]
  end.
  rewrite Hrun.
  unfold bind at 1, SendMessage at 1 in Hbody.
  destruct (Conn_SendMessage conn ("shell:" +:+ cmd +:+ " " +:+ arg) w1)
    as [err w2] eqn:Hsend.
  rewrite (run_call _ _ _ _ _ _ Hsend) in Hbody.
  match type of Hbody with
  | ?k ?st = _ =>
      assert (Hk : emits (fun _ => True) k)
        by (unfold SendMessage, ReadStatus, ReadUntilEof; emits_steps);
      destruct (Hk _ _ _ Hbody) as (rest & Hrest & _)
  end.
  exists o, (mkSt w (calls s2 ++ [CallClose conn])), (rest ++ [CallClose conn])%list.
  split; [reflexivity |]. cbn [calls] in *. rewrite Hrest, <- !app_assoc. reflexivity.
Qed.

(** X15. [InputText] and [LaunchApk] put the text into the one argument of
    their shell command as it is. A text with a double quote is rejected
    with the parse error for the argument at index 0 and no call is made;
    any other text, white space and shell metacharacters included, is sent
    in the request "shell:input text <text>" (or "shell:am start -n
    <text>") on the dialed connection, unquoted. *)
Theorem text_helpers_pass_text_through (c : Device) (text : string) (s : St W) :
  (has_dquote text ->
   InputText c text s =
     (Ret (EmptyString,
           Some (Err ParseError "error performing RunCommand on *adb.Device" (Some c)
                   (Some (Err ParseError
                            ("arg at index 0 contains an invalid double quote: " +:+
                             "text " +:+ text) None None)))),
      s) /\
   LaunchApk c text s =
     (Ret (EmptyString,
           Some (Err ParseError "error performing RunCommand on *adb.Device" (Some c)
                   (Some (Err ParseError
                            ("arg at index 0 contains an invalid double quote: " +:+
                             "start -n " +:+ text) None None)))),
      s)) /\
  (~ has_dquote text ->
   forall conn s1,
     dialDevice c s = (Ret (Some conn, None), s1) ->
     (exists o s' rest,
        InputText c text s = (o, s') /\
        calls s' =
          (calls s1 ++
           CallSendMessage conn ("shell:" +:+ "input" +:+ " " +:+ "text " +:+ text)
             :: rest)%list) /\
     (exists o s' rest,
        LaunchApk c text s = (o, s') /\
        calls s' =
          (calls s1 ++
           CallSendMessage conn ("shell:" +:+ "am" +:+ " " +:+ "start -n " +:+ text)
             :: rest)%list)).
Proof.
  assert (Htext : Fmt.Sprintf "text %s" [Fmt.Str text] = "text " +:+ text)
    by (cbv -[String.append]; now rewrite append_empty_r).
  assert (Hstart : Fmt.Sprintf "start -n %s" [Fmt.Str text] = "start -n " +:+ text)
    by (cbv -[String.append]; now rewrite append_empty_r).
  unfold InputText, LaunchApk. rewrite Htext, Hstart. split.
  - intros Hq. split; apply RunCommand_rejects_quote; try reflexivity;
      apply has_dquote_append; now right.
  - intros Hq conn s1 Hdial.
    split; apply RunCommand_sends_request; try reflexivity; try assumption;
      rewrite has_dquote_append; intros [Hlit | Htxt]; try contradiction;
      unfold has_dquote in Hlit; cbn in Hlit; intuition discriminate.
Qed.

End ShellHelperFacts.

(** ** Errors on the way up *)

Section NestedErrors.

Context {W : Type} `{ErrorsPkg} `{Wire W} `{Sync W} `{ProgressLib}.

(** X16. When the fetch of the serial fails with an error of the library,
    [DeviceInfo] returns no entry and the error wrapped twice: for the
    operation "Serial", and around that for "GetDeviceInfo(GetSerial)",
    both with the code of the original error; the devices are not
    listed. *)
Theorem DeviceInfo_wraps_serial_error_twice (c : Device) (s s1 : St W) (body : string)
    (code : ErrCode) (msg : string) (details : option Device) (cause : option error) :
  getAttribute c "get-serialno" s = (Ret (body, Some (Err code msg details cause)), s1) ->
  Device_DeviceInfo c s =
    (Ret (None,
          Some (Err code "error performing GetDeviceInfo(GetSerial) on *adb.Device" (Some c)
                  (Some (Err code "error performing Serial on *adb.Device" (Some c)
                           (Some (Err code msg details cause)))))),
     s1).
Proof.
  intros Hget. unfold Device_DeviceInfo, Serial.
  unfold bind at 1. unfold bind at 1. rewrite Hget. cbn [fst snd].
  unfold bind at 1, lift at 1. rewrite wrapClientError_Err.
  unfold ret at 1. cbn [fst snd].
  unfold bind, lift, ret. now rewrite wrapClientError_Err.
Qed.

(** X17. When the sync connection cannot be set up and [getSyncConn]
    returns an error of the library, [Stat], [ListDirEntries], [OpenRead]
    and [OpenWrite] make no further call and return that error wrapped with
    the code of the original and a message that names the operation and the
    path: "error performing Stat(<path>) on *adb.Device" and the like. *)
Theorem sync_operations_name_the_path (c : Device) (path : string) (s s1 : St W)
    (code : ErrCode) (msg : string) (details : option Device) (cause : option error) :
  getSyncConn c s = (Ret (None, Some (Err code msg details cause)), s1) ->
  let wrapped operation :=
    Some (Err code
            ("error performing " +:+ (operation +:+ "(" +:+ path +:+ ")") +:+
             " on *adb.Device")
            (Some c) (Some (Err code msg details cause))) in
  Stat c path s = (Ret (None, wrapped "Stat"), s1) /\
  ListDirEntries c path s = (Ret (None, wrapped "ListDirEntries"), s1) /\
  OpenRead c path s = (Ret (None, wrapped "OpenRead"), s1) /\
  (forall perms mtime,
     OpenWrite c path perms mtime s = (Ret (None, wrapped "OpenWrite"), s1)).
Proof.
  intros Hconn wrapped. unfold wrapped.
  assert (Hstat : Fmt.Sprintf "Stat(%s)" [Fmt.Str path] = "Stat(" +:+ path +:+ ")")
    by (cbv -[String.append]; reflexivity).
  assert (Hlist : Fmt.Sprintf "ListDirEntries(%s)" [Fmt.Str path] =
                  "ListDirEntries(" +:+ path +:+ ")")
    by (cbv -[String.append]; reflexivity).
  assert (Hread : Fmt.Sprintf "OpenRead(%s)" [Fmt.Str path] = "OpenRead(" +:+ path +:+ ")")
    by (cbv -[String.append]; reflexivity).
  assert (Hwrite : Fmt.Sprintf "OpenWrite(%s)" [Fmt.Str path] = "OpenWrite(" +:+ path +:+ ")")
    by (cbv -[String.append]; reflexivity).
  repeat split; [| | | intros perms mtime];
    unfold Stat, ListDirEntries, OpenRead, OpenWrite;
    rewrite (bind_returns _ _ _ _ _ Hconn); cbn [snd];
    unfold bind, lift, ret; rewrite wrapClientError_Err;
    rewrite ?Hstat, ?Hlist, ?Hread, ?Hwrite; reflexivity.
Qed.

(** X18. A push of a local file that fails while the sync connection is
    set up returns the error wrapped twice, for "OpenWrite(<remote path>)"
    and around that for "PushWithProgress"; the local file, already open,
    is closed once as the last call, and no writer is closed. *)
Theorem PushWithProgress_wraps_open_error_twice (c : Device) (showProgress : bool)
    (localPath remotePath : string) (cb : option Observer) (s s1 : St W) (f : File)
    (info : FileInfo) (w1 w2 : W)
    (code : ErrCode) (msg : string) (details : option Device) (cause : option error) :
  remotePath <> EmptyString ->
  localPath <> EmptyString -> localPath <> StdIoFilename ->
  os_Open localPath (world s) = (inl f, w1) ->
  os_Stat localPath w1 = (inl info, w2) ->
  getSyncConn c (mkSt w2 (calls s ++ [CallOpen localPath; CallStat localPath])) =
    (Ret (None, Some (Err code msg details cause)), s1) ->
  exists w,
    PushWithProgress c showProgress localPath remotePath cb s =
      (Ret (Some (Err code "error performing PushWithProgress on *adb.Device" (Some c)
                    (Some (Err code
                             ("error performing " +:+ ("OpenWrite(" +:+ remotePath +:+ ")") +:+
                              " on *adb.Device")
                             (Some c) (Some (Err code msg details cause)))))),
       mkSt w (calls s1 ++ [CallFileClose (fname f)])).
Proof.
  intros Hremote Hne Hstd Hopen Hstat Hconn.
  pose proof (openLocal_file c localPath s f info w1 w2 Hne Hstd Hopen Hstat) as Hlocal.
  unfold PushWithProgress.
  apply String.eqb_neq in Hremote. rewrite Hremote.
  rewrite (bind_returns _ _ _ _ _ Hlocal). cbv beta iota.
  match goal with
  | |- context [defer (call ?x ?op) ?body ?st] =>
      assert (Hbody : body st =
                (Ret (Some (Err code "error performing PushWithProgress on *adb.Device"
                              (Some c)
                              (Some (Err code
                                       ("error performing " +:+
                                        ("OpenWrite(" +:+ remotePath +:+ ")") +:+
                                        " on *adb.Device")
                                       (Some c) (Some (Err code msg details cause)))))),
                 s1));
      [| destruct (defer_call_runs x op body st s1 _ Hbody) as [w Hrun];
         exists w; exact Hrun]
  end.
  unfold OpenWrite. unfold bind at 1. unfold bind at 1. rewrite Hconn. cbn [snd].
  unfold bind at 1, lift at 1. rewrite wrapClientError_Err.
  unfold ret at 1. cbn [snd]. unfold lift. rewrite wrapClientError_Err.
  replace (Fmt.Sprintf "OpenWrite(%s)" [Fmt.Str remotePath])
    with ("OpenWrite(" +:+ remotePath +:+ ")")
    by (cbv -[String.append]; reflexivity).
  reflexivity.
Qed.

End NestedErrors.

(** ** Port forwards *)

Lemma remove_args_skips (pre rest : list string) (deviceId : string) (port : Z)
    (remote args : string) :
  Forall (skipped_line deviceId) pre ->
  remove_args (pre ++ rest) deviceId port remote args =
  remove_args rest deviceId port remote args.
Proof.
  induction 1 as [|line pre Hline Hpre IH]; [reflexivity |].
  cbn [app remove_args]. destruct Hline as [Hblank | Hprefix].
  - rewrite Hblank. cbn [String.eqb orb]. exact IH.
  - rewrite Hprefix. cbn [negb]. rewrite orb_true_r. exact IH.
Qed.

Lemma remove_args_short_line (line : string) (post : list string) (deviceId : string)
    (port : Z) (remote args p0 p1 : string) :
  ~ skipped_line deviceId line ->
  MoreStrings.Fields line = [p0; p1] ->
  remote <> EmptyString ->
  port <= 0 \/ 65535 <= port \/
    Strings.Contains p1 (Fmt.Sprintf "tcp:%d" [Fmt.Int port]) = true ->
  remove_args (line :: post) deviceId port remote args =
    Panic "runtime error: index out of range [2] with length 2".
Proof.
  intros Hline Hfields Hremote Hport. cbn [remove_args].
  destruct (String.eqb (Strings.TrimSpace line) EmptyString) eqn:Hblank.
  { exfalso. apply Hline. left. now apply String.eqb_eq. }
  destruct (Strings.HasPrefix line deviceId) eqn:Hprefix.
  2: { exfalso. apply Hline. now right. }
  cbn [negb orb]. rewrite Hfields.
  replace ((0 <? port) && (port <? 65535) &&
           negb (Strings.Contains p1 (Fmt.Sprintf "tcp:%d" [Fmt.Int port])))
    with false.
  - apply String.eqb_neq in Hremote. now rewrite Hremote.
  - symmetry. destruct Hport as [Hlow | [Hhigh | Hhas]].
    + replace (0 <? port) with false by (symmetry; apply Z.ltb_ge; lia). reflexivity.
    + replace (port <? 65535) with false by (symmetry; apply Z.ltb_ge; lia).
      now rewrite andb_false_r.
    + rewrite Hhas. cbn [negb]. now rewrite andb_false_r.
Qed.

Section ForwardFacts.

Context {W : Type} `{ErrorsPkg} `{Sync W}.

(** X19. [ClearForwardBySerial] lists the forwards of the handle's own
    serial and picks the lines by the device id it is given. When every
    line of the list is blank or starts with something else, it still runs
    the forward command, with no argument at all. When a remote is given
    and the first line it does not pass over has only two fields (and the
    port test lets it through), reading the third field panics, and no
    second command is run. *)
Theorem ClearForwardBySerial_edge_cases (c : Device) (deviceId : string) (port : Z)
    (remote : string) (s : St W) (out : string) (w1 : W) :
  RunAdbCmd c ("-s " +:+ serial (descriptor c) +:+ " forward" +:+ "  --list ")
    (world s) = ((out, None), w1) ->
  (Forall (skipped_line deviceId) (MoreStrings.Split out (ascii_of_nat 10)) ->
   ClearForwardBySerial c deviceId port remote s =
     quiet_call (RunAdbCmd c ("-s " +:+ serial (descriptor c) +:+ " forward"))
       (mkSt w1 (calls s))) /\
  (forall pre line post p0 p1,
     MoreStrings.Split out (ascii_of_nat 10) = (pre ++ line :: post)%list ->
     Forall (skipped_line deviceId) pre ->
     ~ skipped_line deviceId line ->
     MoreStrings.Fields line = [p0; p1] ->
     remote <> EmptyString ->
     port <= 0 \/ 65535 <= port \/
       Strings.Contains p1 (Fmt.Sprintf "tcp:%d" [Fmt.Int port]) = true ->
     ClearForwardBySerial c deviceId port remote s =
       (Panic "runtime error: index out of range [2] with length 2",
        mkSt w1 (calls s))).
Proof.
  intros Hlist. destruct s as [w0 trace]. cbn [world calls] in *.
  assert (Hget : GetForwardList c deviceId remote (mkSt w0 trace) =
                 (Ret (out, None), mkSt w1 trace)).
  { unfold GetForwardList, quiet_call. cbn [world calls].
    change (EmptyString +:+ " " +:+ " --list ") with "  --list ".
    now rewrite Hlist. }
  split.
  - intros Hall. unfold ClearForwardBySerial.
    rewrite (bind_returns _ _ _ _ _ Hget). cbn [fst snd].
    pose proof (remove_args_skips _ [] deviceId port remote EmptyString Hall) as Hskip.
    rewrite app_nil_r in Hskip. rewrite Hskip. cbn [remove_args].
    unfold bind, lift.
    change (" forward" +:+ EmptyString) with " forward". reflexivity.
  - intros pre line post p0 p1 Hsplit Hpre Hline Hfields Hremote Hport.
    unfold ClearForwardBySerial.
    rewrite (bind_returns _ _ _ _ _ Hget). cbn [fst snd].
    rewrite Hsplit, (remove_args_skips pre _ deviceId port remote EmptyString Hpre).
    rewrite (remove_args_short_line line post deviceId port remote EmptyString p0 p1
               Hline Hfields Hremote Hport).
    reflexivity.
Qed.

End ForwardFacts.

(** ** [copyFile] and its handler *)

Lemma handled_app (a b : list Call) : handled (a ++ b) = (handled a ++ handled b)%list.
Proof.
  induction a as [|x a IH]; [reflexivity |].
  destruct x; cbn [app handled]; try exact IH. now rewrite IH.
Qed.

Section CopyFileFacts.

Context {W : Type} `{ErrorsPkg} `{Wire W}.

Lemma stats_writer_step (dst : Writer (St W)) (p : string) (s : St W) (b : bufStats) :
  MultiWriter [with_stats dst; bufStats_Write] p (s, b) =
  match dst p s with
  | (Panic msg, s1) => (Panic msg, (s1, b))
  | (Ret (k, Some e), s1) => (Ret (k, Some e), (s1, b))
  | (Ret (k, None), s1) =>
      if negb (k =? Strings.len p) then (Ret (k, Some io_ErrShortWrite), (s1, b))
      else
        let b' := {| total := total b;
                     n := wrap64 (n b + Strings.len p);
                     handler := handler b |} in
        match handler b with
        | None =>
            (Panic "runtime error: invalid memory address or nil pointer dereference",
             (s1, b'))
        | Some h =>
            (Ret (Strings.len p, None),
             (mkSt (world s1) (calls s1 ++ [CallHandler h (n b') (total b')]), b'))
        end
  end.
Proof.
  cbn [MultiWriter]. unfold with_stats at 1. cbn [fst snd].
  destruct (dst p s) as [[[k [e|]]|msg] s1]; try reflexivity.
  destruct (negb (k =? Strings.len p)); [reflexivity |].
  unfold bufStats_Write. cbn [handler total n].
  destruct (handler b) as [h|]; [| reflexivity].
  now rewrite Z.eqb_refl.
Qed.

Lemma copyFile_loop (Good : W -> Prop) (wr : FileWriter) (h : Observer) (src : Reader) :
  (forall p w, Good w ->
     exists w', Writer_Write wr p w = ((Strings.len p, None), w') /\ Good w') ->
  Forall (fun r => rerr r = None) src ->
  forall (written : Z) (s : St W) (b : bufStats),
    Good (world s) -> handler b = Some h ->
    exists written' s' b',
      io_Copy (MultiWriter [with_stats (remote_Write wr); bufStats_Write]) src written
        (s, b) = (Ret (written', None), (s', b')) /\
      handled (calls s') =
        (handled (calls s) ++ map (fun z => (z, total b)) (running_totals (n b) src))%list /\
      Good (world s').
Proof.
  intros Hdst Hsrc. induction Hsrc as [|r rest Hr Hrest IH]; intros written s b Hgood Hh.
  - exists written, s, b. split; [reflexivity |]. split; [| exact Hgood].
    cbn [running_totals map]. now rewrite app_nil_r.
  - cbn [io_Copy running_totals]. cbv zeta. rewrite Hr.
    destruct (0 <? Strings.len (rbytes r)) eqn:Hlen; [| now apply IH].
    rewrite stats_writer_step. unfold remote_Write, call.
    destruct (Hdst (rbytes r) (world s) Hgood) as (w1 & Hwrite & Hgood1).
    rewrite Hwrite. rewrite Z.eqb_refl. cbn [negb]. cbv zeta. rewrite Hh.
    cbn [total n handler calls world].
    replace ((Strings.len (rbytes r) <? 0) ||
             (Strings.len (rbytes r) <? Strings.len (rbytes r))) with false
      by (symmetry; apply orb_false_intro; apply Z.ltb_ge; apply Z.ltb_lt in Hlen; lia).
    rewrite Z.eqb_refl. cbn [negb].
    match goal with
    | |- context [io_Copy _ rest ?wn (?s1, ?b1)] =>
        destruct (IH wn s1 b1 Hgood1 eq_refl) as (written' & s' & b' & Hrun & Hhandled & Hgood')
    end.
    exists written', s', b'. split; [exact Hrun |]. split; [| exact Hgood'].
    rewrite Hhandled. cbn [calls total n map].
    rewrite !handled_app. cbn [handled]. rewrite <- ?app_assoc. reflexivity.
Qed.

(** X20. [copyFile] to a writer that takes every chunk in full, from a
    source that delivers its chunks without an error: with a handler, the
    copy returns nil and has called the handler once for each chunk that
    holds bytes, after the chunk was written, with the number of bytes
    written so far (an [int64] sum) and the total it was given; with a nil
    handler it panics as soon as the first chunk is written. *)
Theorem copyFile_reports_running_totals (Good : W -> Prop) (wr : FileWriter)
    (src : Reader) (tot : Z) (s : St W) :
  Good (world s) ->
  (forall p w, Good w ->
     exists w', Writer_Write wr p w = ((Strings.len p, None), w') /\ Good w') ->
  Forall (fun r => rerr r = None) src ->
  (forall h,
     exists s',
       copyFile (remote_Write wr) src tot (Some h) s = (Ret None, s') /\
       handled (calls s') =
         (handled (calls s) ++ map (fun z => (z, tot)) (running_totals 0 src))%list) /\
  (forall r rest,
     src = r :: rest -> 0 < Strings.len (rbytes r) ->
     exists w',
       copyFile (remote_Write wr) src tot None s =
         (Panic "runtime error: invalid memory address or nil pointer dereference",
          mkSt w' (calls s ++ [CallWrite wr (rbytes r)]))).
Proof.
  intros Hgood Hdst Hsrc. split.
  - intros h. unfold copyFile.
    destruct (copyFile_loop Good wr h src Hdst Hsrc 0 s
                {| total := tot; n := 0; handler := Some h |} Hgood eq_refl)
      as (written' & s' & b' & Hrun & Hhandled & _).
    rewrite Hrun. exists s'. split; [reflexivity | exact Hhandled].
  - intros r rest -> Hlen. unfold copyFile. cbn [io_Copy]. cbv zeta.
    apply Z.ltb_lt in Hlen. rewrite Hlen.
    rewrite stats_writer_step. unfold remote_Write, call.
    destruct (Hdst (rbytes r) (world s) Hgood) as (w1 & Hwrite & _).
    rewrite Hwrite. rewrite Z.eqb_refl. cbn [negb handler fst]. cbv zeta.
    cbn [handler]. now exists w1.
Qed.

End CopyFileFacts.

(** ** Numbers in requests *)

Lemma pretty_N_char_no_quote (x : N) : pretty_N_char x <> dquote.
Proof. unfold pretty_N_char. repeat case_match; discriminate. Qed.

Lemma pretty_N_go_no_quote (x : N) (s : string) :
  ~ has_dquote s -> ~ has_dquote (pretty_N_go x s).
Proof.
  revert s. induction (N.lt_wf_0 x) as [x _ IH]; intros s Hs.
  assert (x = 0 \/ 0 < x)%N as [-> | Hpos] by lia.
  - now rewrite pretty_N_go_0.
  - rewrite pretty_N_go_step by exact Hpos. apply IH.
    + now apply N.div_lt.
    + unfold has_dquote in *. cbn [list_ascii_of_string In].
      intros [Hchar | Hrest]; [| contradiction].
      now apply pretty_N_char_no_quote in Hchar.
Qed.

Lemma pretty_Z_no_quote (z : Z) : ~ has_dquote (pretty z).
Proof.
  assert (Hpos : forall p : positive, ~ has_dquote (pretty p)).
  { intros p. unfold pretty, pretty_positive, pretty, pretty_N.
    destruct (decide (N.pos p = 0%N)); [discriminate |].
    apply pretty_N_go_no_quote. unfold has_dquote. cbn. tauto. }
  destruct z as [|p|p]; unfold pretty, pretty_Z.
  - unfold has_dquote. cbn. intuition discriminate.
  - apply Hpos.
  - rewrite has_dquote_append. intros [Hdash | Hp]; [| now apply (Hpos p)].
    unfold has_dquote in Hdash. cbn in Hdash. intuition discriminate.
Qed.

Section PointerFacts.

Context {W : Type} `{ErrorsPkg} `{Wire W}.

(** X21. [Click], [Drag] and [Home] are never rejected by the validation of
    the command line, whatever the coordinates: on a connection that
    [dialDevice] returns they send the request "shell:input tap <x> <y>",
    "shell:input swipe <x> <y> <x1> <y1>" or "shell:input keyevent 3", with
    the coordinates in decimal and a minus sign for a negative one. *)
Theorem pointer_helpers_reach_the_device (c : Device) (s s1 : St W) (conn : Conn) :
  dialDevice c s = (Ret (Some conn, None), s1) ->
  (forall x y,
     exists o s' rest,
       Click c x y s = (o, s') /\
       calls s' =
         (calls s1 ++
          CallSendMessage conn
            ("shell:" +:+ "input" +:+ " " +:+ "tap " +:+ pretty x +:+ " " +:+ pretty y)
            :: rest)%list) /\
  (forall x y x1 y1,
     exists o s' rest,
       Drag c x y x1 y1 s = (o, s') /\
       calls s' =
         (calls s1 ++
          CallSendMessage conn
            ("shell:" +:+ "input" +:+ " " +:+ "swipe " +:+ pretty x +:+ " " +:+ pretty y +:+
             " " +:+ pretty x1 +:+ " " +:+ pretty y1)
            :: rest)%list) /\
  (exists o s' rest,
     Home c s = (o, s') /\
     calls s' =
       (calls s1 ++
        CallSendMessage conn ("shell:" +:+ "input" +:+ " " +:+ "keyevent 3") :: rest)%list).
Proof.
  intros Hdial.
  assert (Hlit : forall lit : string,
            Strings.ContainsRune lit dquote = false -> ~ has_dquote lit).
  { intros lit Hno Hq. apply ContainsRune_In in Hq. congruence. }
  split; [| split].
  - intros x y. unfold Click.
    replace (Fmt.Sprintf "tap %d %d" [Fmt.Int x; Fmt.Int y])
      with ("tap " +:+ pretty x +:+ " " +:+ pretty y)
      by (cbv -[String.append pretty]; now rewrite append_empty_r).
    apply RunCommand_sends_request; [reflexivity | | exact Hdial].
    rewrite !has_dquote_append.
    pose proof (pretty_Z_no_quote x). pose proof (pretty_Z_no_quote y).
    pose proof (Hlit "tap " eq_refl). pose proof (Hlit " " eq_refl). tauto.
  - intros x y x1 y1. unfold Drag.
    replace (Fmt.Sprintf "swipe %d %d %d %d" [Fmt.Int x; Fmt.Int y; Fmt.Int x1; Fmt.Int y1])
      with ("swipe " +:+ pretty x +:+ " " +:+ pretty y +:+ " " +:+ pretty x1 +:+ " " +:+
            pretty y1)
      by (cbv -[String.append pretty]; now rewrite append_empty_r).
    apply RunCommand_sends_request; [reflexivity | | exact Hdial].
    rewrite !has_dquote_append.
    pose proof (pretty_Z_no_quote x). pose proof (pretty_Z_no_quote y).
    pose proof (pretty_Z_no_quote x1). pose proof (pretty_Z_no_quote y1).
    pose proof (Hlit "swipe " eq_refl). pose proof (Hlit " " eq_refl). tauto.
  - unfold Home. apply RunCommand_sends_request; [reflexivity | | exact Hdial].
    now apply Hlit.
Qed.

End PointerFacts.

(** ** Errors at the boundary of the operations *)

Lemma returns_ret {W A : Type} (a : A) (P : A -> Prop) : P a -> returns (@ret W A a) P.
Proof. intros Ha s a' s' [= <- _]. exact Ha. Qed.


Lemma returns_bind {W A B : Type} (m : M W A) (k : A -> M W B) (P : B -> Prop) :
  (forall a, returns (k a) P) -> returns (bind m k) P.
Proof.
  intros Hk s b s'. unfold bind. destruct (m s) as [[a|msg] s1]; [| discriminate].
  apply Hk.
Qed.


Lemma returns_defer {W A B : Type} (f : M W B) (body : M W A) (P : A -> Prop) :
  returns body P -> returns (defer f body) P.
Proof.
  intros Hbody s a s'. unfold defer. destruct (body s) as [o s1] eqn:Hrun.
  destruct (f s1) as [o2 s2]. intros [= -> _]. exact (Hbody _ _ _ Hrun).
Qed.

Lemma returns_weaken {W A : Type} (m : M W A) (P Q : A -> Prop) :
  returns m P -> (forall a, P a -> Q a) -> returns m Q.
Proof. intros Hm HPQ s a s' Hrun. apply HPQ. exact (Hm _ _ _ Hrun). Qed.

Section BoundaryFacts.

Context {W : Type} `{ErrorsPkg} `{Wire W} `{Sync W} `{ProgressLib}.

(** What the wrapper returns, when it returns an error. *)
Lemma wrapClientError_wrapped (err : option error) (c : Device) (operation : string)
    (args : list Fmt.Arg) (e : error) :
  wrapClientError err c operation args = Ret (Some e) ->
  exists cause, err = Some cause /\ wrapped c (Fmt.Sprintf operation args) cause e.
Proof.
  destruct err as [cause|]; [| discriminate].
  destruct cause as [code msg details inner| | | | | |]; try discriminate.
  rewrite wrapClientError_Err. intros [= <-].
  exists (Err code msg details inner). split; [reflexivity |].
  now exists code, msg, details, inner.
Qed.

(** The last two steps of an operation: the wrapper, and the return of a
    value with what the wrapper gave. *)
Lemma returns_wrapped_last {A : Type} (c : Device) (operations : list string)
    (err : option error) (operation : string) (args : list Fmt.Arg) (a : A) :
  In (Fmt.Sprintf operation args) operations ->
  returns_wrapped c operations
    (let* e := lift (wrapClientError err c operation args) in @ret W _ (a, e)).
Proof.
  intros Hin s r s'. unfold bind, lift, ret.
  destruct (wrapClientError err c operation args) as [e'|msg] eqn:Hwrap; [| discriminate].
  intros [= <- _] e Hsnd. cbn [snd] in Hsnd. subst e'.
  destruct (wrapClientError_wrapped _ _ _ _ _ Hwrap) as (cause & _ & Hshape).
  eauto.
Qed.

Lemma returns_wrapped_nil {A : Type} (c : Device) (operations : list string) (a : A) :
  returns_wrapped c operations (@ret W _ (a, @None error)).
Proof. apply returns_ret. intros e Hsnd. discriminate Hsnd. Qed.


Ltac label_in :=
  cbn [In];
  repeat first
    [ left; first [reflexivity | cbv -[String.append]; reflexivity]
    | right ].

Ltac wrapped_steps :=
  repeat first
    [ apply returns_wrapped_nil
    | apply returns_wrapped_last; label_in
    | apply returns_defer
    | apply returns_bind; intros ?
    | match goal with
      | |- returns_wrapped _ _ (match ?x with _ => _ end) => destruct x
      | |- returns_wrapped _ _ (if ?b then _ else _) => destruct b
      | |- returns (match ?x with _ => _ end) _ => destruct x
      | |- returns (if ?b then _ else _) _ => destruct b
      end ].

Lemma RunCommand_wraps (c : Device) (cmd : string) (args : list string) :
  returns_wrapped c ["RunCommand"] (RunCommand c cmd args).
Proof. unfold RunCommand. wrapped_steps. Qed.






End BoundaryFacts.

(** * Runs in the scripted world *)

Import Mock.
Import MockMore.


(** C1. [getSyncConn] on a connection that [dialDevice] has opened, when
    sending ["sync:"] fails, and when the status reply to it is a failure:
    the error is returned and no [Close] call is made on the dialed
    connection, which stays open. *)
Theorem getSyncConn_leaves_connection_open :
  (exists s',
     getSyncConn any_device (start (set_send [None; Some write_failed] quiet)) =
       (Ret (None, Some write_failed), s') /\
     calls s' = [CallDial;
                 CallSendMessage the_conn "host:transport-any";
                 CallReadStatus the_conn "host:transport-any";
                 CallSendMessage the_conn "sync:"] /\
     close_count the_conn (calls s') = 0%nat /\
     closes (world s') = 0%nat) /\
  (exists s',
     getSyncConn any_device (start (set_status [None; Some sync_refused] quiet)) =
       (Ret (None, Some sync_refused), s') /\
     calls s' = [CallDial;
                 CallSendMessage the_conn "host:transport-any";
                 CallReadStatus the_conn "host:transport-any";
                 CallSendMessage the_conn "sync:";
                 CallReadStatus the_conn "sync"] /\
     close_count the_conn (calls s') = 0%nat /\
     closes (world s') = 0%nat).
Proof.
  split; eexists; (split; [vm_compute; reflexivity |]); repeat split.
Qed.

(** [dialDevice] in the same world closes the connection once when its own
    request fails. *)
Example dialDevice_closes_once :
  exists s',
    dialDevice any_device (start (set_status [Some sync_refused] quiet)) =
      (Ret (None, Some sync_refused), s') /\
    close_count the_conn (calls s') = 1%nat /\
    closes (world s') = 1%nat.
Proof. eexists. split; [vm_compute; reflexivity |]. split; reflexivity. Qed.



(** The claim C6 as written fails: [io.Copy] fails with the error [EPIPE]
    itself, or with the connection library's error around it, and the copy
    helpers return that error instead of nil. *)
Lemma bare_EPIPE_is_returned :
  let dst := remote_Write the_writer in
  let wrapped := Err NetworkError "error writing file data" None (Some (Errno EPIPE)) in
  (let s := start (set_writes [(0, Some (Errno EPIPE))] quiet) in
   fst (io_Copy dst (one_read "data") 0 s) = Ret (0, Some (Errno EPIPE)) /\
   fst (copyWithProgressAndStats dst (one_read "data") 4 false None s) =
     Ret (Some (Errno EPIPE)) /\
   fst (copyWithProgressAndStats dst (one_read "data") 4 true (Some 0%nat) s) =
     Ret (Some (Errno EPIPE)) /\
   fst (copyFile dst (one_read "data") 4 (Some 0%nat) s) = Ret (Some (Errno EPIPE))) /\
  (let s := start (set_writes [(0, Some wrapped)] quiet) in
   fst (copyWithProgressAndStats dst (one_read "data") 4 false None s) = Ret (Some wrapped)).
Proof. repeat split. Qed.

Lemma copy_helpers_normalize_pipe_error_witness :
  let closed := PathError "write" "|1" (Errno EPIPE) in
  let s := start (set_writes [(0, Some closed)] quiet) in
  exists r s1,
    copyWithProgressAndStats (remote_Write the_writer) (one_read "data") 0 false None s =
      (Ret r, s1) /\
    normalized (Some closed) r /\
    r = None.
Proof.
  intros closed s.
  assert (Hcopy : io_Copy (remote_Write the_writer) (one_read "data") 0 s =
                  (Ret (0, Some closed),
                   mkSt (set_writes [] quiet) [CallWrite the_writer "data"]))
    by (vm_compute; reflexivity).
  destruct (proj1 (proj2 (copy_helpers_normalize_pipe_error
                            (remote_Write the_writer) (one_read "data") s))
              0 false None 0 (Some closed) _ (or_introl eq_refl) Hcopy)
    as (r & Hrun & Hnorm).
  exists r, (mkSt (set_writes [] quiet) [CallWrite the_writer "data"]).
  split; [exact Hrun |]. split; [exact Hnorm |].
  apply Hnorm. now exists "write", "|1".
Defined.



Lemma RunCommand_reads_until_eof_witness :
  let s := start (set_stream (hello_line, None) quiet) in
  ~ all_whitespace "echo" /\
  ~ Exists has_dquote ["hello"] /\
  RunCommand any_device "echo" ["hello"] s =
    (Ret (hello_line, None),
     mkSt (count_close (set_stream (hello_line, None) quiet))
       [CallDial;
        CallSendMessage the_conn "host:transport-any";
        CallReadStatus the_conn "host:transport-any";
        CallSendMessage the_conn "shell:echo hello";
        CallReadStatus the_conn "shell:echo hello";
        CallReadUntilEof the_conn;
        CallClose the_conn]).
Proof.
  intros s.
  assert (Hcmd : ~ all_whitespace "echo") by (apply not_blank; reflexivity).
  assert (Hargs : ~ Exists has_dquote ["hello"])
    by (apply (check_args_clean 0); reflexivity).
  split; [exact Hcmd |]. split; [exact Hargs |].
  apply (RunCommand_reads_until_eof any_device "echo" ["hello"] s
           (mkSt (set_stream (hello_line, None) quiet)
              [CallDial;
               CallSendMessage the_conn "host:transport-any";
               CallReadStatus the_conn "host:transport-any"])
           the_conn "OKAY" hello_line None
           (set_stream (hello_line, None) quiet)
           (set_stream (hello_line, None) quiet)
           (set_stream (hello_line, None) quiet)
           (count_close (set_stream (hello_line, None) quiet)) Hcmd Hargs);
    vm_compute; reflexivity.
Defined.

(** The bytes of the stream are returned as they are: a stream that starts
    with four hexadecimal digits is not read as a length header. *)
Example RunCommand_reads_no_length_header :
  fst (RunCommand any_device "echo" ["hello"]
         (start (set_stream ("0006" +:+ hello_line, None) quiet))) =
  Ret ("0006" +:+ hello_line, None).
Proof. vm_compute. reflexivity. Qed.

Lemma State_fetch_failure_witness :
  let s := start (set_attribute (EmptyString, Some unauthorized) quiet) in
  Strings.Contains (Error unauthorized) "unauthorized" = true /\
  State abc123 s =
    (Ret (StateUnauthorized, None),
     mkSt (set_attribute (EmptyString, Some unauthorized) quiet)
       [CallRoundTrip "host-serial:ABC123:get-state"]).
Proof.
  intros s. split; [vm_compute; reflexivity |].
  assert (Hget : getAttribute abc123 "get-state" s =
                 (Ret (EmptyString, Some unauthorized),
                  mkSt (set_attribute (EmptyString, Some unauthorized) quiet)
                    [CallRoundTrip "host-serial:ABC123:get-state"]))
    by (vm_compute; reflexivity).
  apply (proj1 (State_fetch_failure abc123 s _ EmptyString unauthorized Hget)).
  vm_compute. reflexivity.
Defined.

(** The claim C9 as written fails: a fetch error that is not of the
    library's type, and whose text does not contain "unauthorized", is not
    returned wrapped with the Invalid state; [State] panics. *)
Lemma State_panics_on_foreign_fetch_error :
  let boom := errorString "boom" in
  let w := set_attribute (EmptyString, Some boom) quiet in
  getAttribute abc123 "get-state" (start w) =
    (Ret (EmptyString, Some boom), mkSt w [CallRoundTrip "host-serial:ABC123:get-state"]) /\
  Strings.Contains (Error boom) "unauthorized" = false /\
  State abc123 (start w) =
    (Panic "err is not a *Err: boom", mkSt w [CallRoundTrip "host-serial:ABC123:get-state"]).
Proof. repeat split. Qed.

(** Another error of the library's type comes back wrapped, with
    [StateInvalid]. *)
Example State_other_fetch_failure :
  fst (State abc123 (start (set_attribute (EmptyString, Some write_failed) quiet))) =
  Ret (StateInvalid,
       Some (Err NetworkError "error performing State on *adb.Device" (Some abc123)
               (Some write_failed))).
Proof. vm_compute. reflexivity. Qed.

Lemma wrapClientError_panics_on_foreign_error_witness :
  PushWithProgress abc123 true "/tmp/missing.apk" "/sdcard/app.apk" (Some 0%nat)
    (start quiet) =
  (Panic "err is not a *Err: open /tmp/missing.apk: no such file or directory",
   mkSt quiet [CallOpen "/tmp/missing.apk"]).
Proof.
  rewrite (proj1 (proj2 (proj2 (wrapClientError_panics_on_foreign_error abc123)))
             (start quiet) true "/tmp/missing.apk" "/sdcard/app.apk" (Some 0%nat)
             (PathError "open" "/tmp/missing.apk" (Errno ENOENT)) quiet);
    first [discriminate | vm_compute; reflexivity].
Defined.

(** A push of a file that exists, with all writes taken: the observer gets
    the event of the start and the final event with the five bytes. *)
Example push_of_five_bytes :
  let info := {| Size := 5; Mode := 420; ModTime := Instant 0 |} in
  let w := {| dial_error := None; send_errors := []; status_errors := [];
              stream := (EmptyString, None); attribute := (EmptyString, None);
              write_results := [];
              files := {[ "/tmp/hello.txt" := (info, one_read "hello") ]};
              stdin := []; closes := 0 |} in
  let r := PushWithProgress abc123 true "/tmp/hello.txt" "/sdcard/hello.txt"
             (Some 0%nat) (start w) in
  fst r = Ret None /\
  map Current (observed (calls (snd r))) = [0; 5] /\
  map Total (observed (calls (snd r))) = [5; 5].
Proof. vm_compute. repeat split. Qed.

(** A push from the standard input: no event, and the bytes are written. *)
Example push_from_stdin :
  let w := {| dial_error := None; send_errors := []; status_errors := [];
              stream := (EmptyString, None); attribute := (EmptyString, None);
              write_results := []; files := ∅;
              stdin := one_read "hello"; closes := 0 |} in
  let r := PushWithProgress abc123 true "-" "/sdcard/hello.txt" (Some 0%nat) (start w) in
  fst r = Ret None /\
  observed (calls (snd r)) = [] /\
  In (CallWrite the_writer "hello") (calls (snd r)).
Proof. vm_compute. repeat split. tauto. Qed.

(** * Further runs in the scripted world *)

Lemma RunCommand_rejects_before_dialing_witness :
  exists code msg,
    (code = AssertionError \/ code = ParseError) /\
    RunCommand abc123 "ls" [quoted_arg] (start quiet) =
      (Ret (EmptyString,
            Some (Err code "error performing RunCommand on *adb.Device" (Some abc123)
                    (Some (Err code msg None None)))),
       start quiet).
Proof.
  apply (RunCommand_rejects_before_dialing abc123 "ls" [quoted_arg] (start quiet)).
  right. constructor. unfold has_dquote. rewrite <- ContainsRune_In. reflexivity.
Defined.

Lemma RunCommand_closes_once_witness :
  let s := start (set_stream (EmptyString, Some write_failed) quiet) in
  let s1 := mkSt (set_stream (EmptyString, Some write_failed) quiet)
              [CallDial;
               CallSendMessage the_conn "host:transport-any";
               CallReadStatus the_conn "host:transport-any"] in
  exists o s' mid,
    RunCommand any_device "echo" ["hello"] s = (o, s') /\
    calls s' = (calls s1 ++ mid ++ [CallClose the_conn])%list /\
    Forall (not_close the_conn) mid.
Proof.
  intros s s1.
  apply (RunCommand_closes_once any_device "echo" ["hello"] s s1 the_conn).
  - apply not_blank. reflexivity.
  - apply (check_args_clean 0). reflexivity.
  - vm_compute. reflexivity.
Defined.

Lemma dialDevice_returns_open_or_closes_once_witness :
  let c := any_device in
  let s := start (set_status [Some sync_refused] quiet) in
  (exists e w1,
     server_Dial (world s) = (inr e, w1) /\
     dialDevice c s = (Ret (None, Some e), mkSt w1 (calls s ++ [CallDial]))) \/
  (exists conn w1 o s' mid,
     server_Dial (world s) = (inl conn, w1) /\
     dialDevice c s = (o, s') /\
     calls s' = (calls s ++ mid)%list /\
     ((o = Ret (Some conn, None) /\ close_count conn mid = 0%nat) \/
      (((exists err, o = Ret (None, err)) \/ (exists msg, o = Panic msg)) /\
       close_count conn mid = 1%nat))).
Proof.
  intros c s.
  apply (dialDevice_returns_open_or_closes_once c "transport-any" s).
  reflexivity.
Defined.

Lemma attribute_queries_witness :
  let s := start (set_attribute ("ABC123", None) quiet) in
  Serial abc123 s =
    (Ret ("ABC123", None),
     mkSt (set_attribute ("ABC123", None) quiet)
       (calls s ++ [CallRoundTrip ("host-serial:ABC123" +:+ ":get-serialno")])).
Proof.
  intros s.
  apply (proj1 (proj1 (attribute_queries abc123 s) "host-serial:ABC123" "ABC123"
                  (set_attribute ("ABC123", None) quiet) eq_refl)).
  reflexivity.
Defined.

Lemma State_fetch_success_witness :
  let s := start (set_attribute ("device", None) quiet) in
  exists state,
    State abc123 s =
      (Ret (state, None),
       mkSt (set_attribute ("device", None) quiet)
         [CallRoundTrip "host-serial:ABC123:get-state"]) /\
    state = StateOnline.
Proof.
  intros s.
  destruct (State_fetch_success abc123 s
              (mkSt (set_attribute ("device", None) quiet)
                 [CallRoundTrip "host-serial:ABC123:get-state"]) "device")
    as (state & Hrun & Hon & _).
  - vm_compute. reflexivity.
  - exists state. split; [exact Hrun | now apply Hon].
Defined.


Lemma Stat_and_Remount_close_once_witness :
  let s := start quiet in
  (exists o s', Stat any_device "/sdcard/app.apk" s = (o, s') /\
                calls s' = [CallDial;
                            CallSendMessage the_conn "host:transport-any";
                            CallReadStatus the_conn "host:transport-any";
                            CallSendMessage the_conn "sync:";
                            CallReadStatus the_conn "sync";
                            CallClose the_conn]) /\
  (exists o s', Remount any_device s = (o, s') /\
                calls s' = [CallDial;
                            CallSendMessage the_conn "host:transport-any";
                            CallReadStatus the_conn "host:transport-any";
                            CallClose the_conn]).
Proof.
  intros s. split.
  - apply (proj1 (Stat_and_Remount_close_once any_device s
                    (mkSt quiet [CallDial;
                                 CallSendMessage the_conn "host:transport-any";
                                 CallReadStatus the_conn "host:transport-any";
                                 CallSendMessage the_conn "sync:";
                                 CallReadStatus the_conn "sync"]) the_conn)
             "/sdcard/app.apk").
    vm_compute. reflexivity.
  - apply (proj2 (Stat_and_Remount_close_once any_device s
                    (mkSt quiet [CallDial;
                                 CallSendMessage the_conn "host:transport-any";
                                 CallReadStatus the_conn "host:transport-any"])
                    the_conn)).
    vm_compute. reflexivity.
Defined.

Lemma sync_openers_only_call_their_helper_witness :
  let s := start quiet in
  let opened := [CallDial;
                 CallSendMessage the_conn "host:transport-any";
                 CallReadStatus the_conn "host:transport-any";
                 CallSendMessage the_conn "sync:";
                 CallReadStatus the_conn "sync"] in
  (exists o, ListDirEntries any_device "/sdcard" s = (o, mkSt quiet opened)) /\
  (exists o, OpenRead any_device "/sdcard" s = (o, mkSt quiet opened)) /\
  (exists o,
     OpenWrite any_device "/sdcard" 420 MtimeOfClose s =
       (o, mkSt quiet (opened ++ [CallSendFile the_conn "/sdcard" 420 MtimeOfClose]))).
Proof.
  intros s opened.
  assert (Hconn : getSyncConn any_device s = (Ret (Some the_conn, None), mkSt quiet opened))
    by (vm_compute; reflexivity).
  destruct (sync_openers_only_call_their_helper any_device "/sdcard" s (mkSt quiet opened)
              the_conn Hconn) as (Hlist & Hread & Hwrite).
  split; [| split].
  - apply (Hlist (Some 2%nat, None) quiet). reflexivity.
  - apply (Hread (Some 3%nat, None) quiet). reflexivity.
  - apply (Hwrite 420 MtimeOfClose (inl the_writer) quiet). reflexivity.
Defined.

Lemma PushWithProgress_from_file_witness :
  let s1 := mkSt with_hello
              [CallOpen "/tmp/hello.txt"; CallStat "/tmp/hello.txt";
               CallDial;
               CallSendMessage the_conn "host:transport:ABC123";
               CallReadStatus the_conn "host:transport:ABC123";
               CallSendMessage the_conn "sync:";
               CallReadStatus the_conn "sync";
               CallSendFile the_conn "/sdcard/hello.txt" 420 (Instant 0)] in
  exists o s' copy,
    PushWithProgress abc123 true "/tmp/hello.txt" "/sdcard/hello.txt" (Some 0%nat)
      (start with_hello) = (o, s') /\
    Forall (fun x => write_call x \/ observe_call x) copy /\
    calls s' =
      (calls s1 ++ copy ++ [CallWriterClose the_writer; CallFileClose (fname hello_file)])%list.
Proof.
  intros s1.
  destruct (PushWithProgress_from_file abc123 true "/tmp/hello.txt" "/sdcard/hello.txt"
              (Some 0%nat) (start with_hello) hello_file hello_info with_hello with_hello)
    as (ow & s1' & setup & How & _ & _ & Hrest);
    try first [discriminate | vm_compute; reflexivity].
  assert (Hrun : OpenWrite abc123 "/sdcard/hello.txt" (Z.land (Mode hello_info) 511)
                   (ModTime hello_info)
                   (mkSt with_hello
                      (calls (start with_hello) ++
                       [CallOpen "/tmp/hello.txt"; CallStat "/tmp/hello.txt"])) =
                 (Ret (Some the_writer, None), s1))
    by (vm_compute; reflexivity).
  rewrite Hrun in How. injection How as <- <-. exact Hrest.
Defined.

(** The whole trace of that push. *)
Example push_of_hello_trace :
  calls (snd (PushWithProgress abc123 false "/tmp/hello.txt" "/sdcard/hello.txt" None
                (start with_hello))) =
  [CallOpen "/tmp/hello.txt"; CallStat "/tmp/hello.txt";
   CallDial;
   CallSendMessage the_conn "host:transport:ABC123";
   CallReadStatus the_conn "host:transport:ABC123";
   CallSendMessage the_conn "sync:";
   CallReadStatus the_conn "sync";
   CallSendFile the_conn "/sdcard/hello.txt" 420 (Instant 0);
   CallWrite the_writer "hello";
   CallWriterClose the_writer;
   CallFileClose "/tmp/hello.txt"].
Proof. vm_compute. reflexivity. Qed.

Lemma PushWithProgress_from_stdin_witness :
  let stdin := fname (os_Stdin (world (start with_hello))) in
  stdin = "/dev/stdin" /\
  exists o s' mid,
    PushWithProgress abc123 true "-" "/sdcard/hello.txt" (Some 0%nat)
      (start with_hello) = (o, s') /\
    Forall (push_call "/sdcard/hello.txt" 432 MtimeOfClose) mid /\
    observed mid = [] /\
    (calls s' = (calls (start with_hello) ++ mid ++ [CallFileClose stdin])%list \/
     exists writer,
       calls s' =
         (calls (start with_hello) ++ mid ++
          [CallWriterClose writer; CallFileClose stdin])%list).
Proof.
  intros stdin. split; [reflexivity |].
  apply (PushWithProgress_from_stdin abc123 true "-" "/sdcard/hello.txt" (Some 0%nat)
           (start with_hello)).
  - discriminate.
  - now right.
Defined.

Example push_without_remote_path :
  PushWithProgress abc123 true "/tmp/hello.txt" EmptyString (Some 0%nat)
    (start with_hello) = (Ret None, start with_hello).
Proof.
  apply (PushWithProgress_without_remote_path abc123 true "/tmp/hello.txt" (Some 0%nat)
           (start with_hello)).
  reflexivity.
Qed.

Lemma ScreenShot_runs_screencap_witness :
  ScreenShot abc123 (start unreachable) =
    (Ret (EmptyString,
          Some (Err NetworkError "error performing RunCommand on *adb.Device" (Some abc123)
                  (Some write_failed))),
     mkSt unreachable [CallDial]).
Proof.
  apply (proj2 (ScreenShot_runs_screencap abc123 (start unreachable))).
  vm_compute. reflexivity.
Defined.

Lemma text_helpers_pass_text_through_witness :
  InputText abc123 quoted_arg (start quiet) =
    (Ret (EmptyString,
          Some (Err ParseError "error performing RunCommand on *adb.Device" (Some abc123)
                  (Some (Err ParseError
                           ("arg at index 0 contains an invalid double quote: " +:+
                            "text " +:+ quoted_arg) None None)))),
     start quiet).
Proof.
  apply (proj1 (text_helpers_pass_text_through abc123 quoted_arg (start quiet))).
  unfold has_dquote. rewrite <- ContainsRune_In. reflexivity.
Defined.

(** A text with white space and a semicolon goes into the request as it
    is. *)
Example InputText_request_unquoted :
  calls (snd (InputText abc123 "a b; reboot" (start quiet))) =
  [CallDial;
   CallSendMessage the_conn "host:transport:ABC123";
   CallReadStatus the_conn "host:transport:ABC123";
   CallSendMessage the_conn "shell:input text a b; reboot";
   CallReadStatus the_conn "shell:input text a b; reboot";
   CallReadUntilEof the_conn;
   CallClose the_conn].
Proof. vm_compute. reflexivity. Qed.

Lemma DeviceInfo_wraps_serial_error_twice_witness :
  Device_DeviceInfo abc123 (start (set_attribute (EmptyString, Some write_failed) quiet)) =
    (Ret (None,
          Some (Err NetworkError
                  "error performing GetDeviceInfo(GetSerial) on *adb.Device" (Some abc123)
                  (Some (Err NetworkError "error performing Serial on *adb.Device"
                           (Some abc123) (Some write_failed))))),
     mkSt (set_attribute (EmptyString, Some write_failed) quiet)
       [CallRoundTrip "host-serial:ABC123:get-serialno"]).
Proof.
  apply (DeviceInfo_wraps_serial_error_twice abc123 _ _ EmptyString NetworkError
           "error writing message" None None).
  vm_compute. reflexivity.
Defined.

Lemma sync_operations_name_the_path_witness :
  let s := start (set_send [None; Some write_failed] quiet) in
  let s1 := mkSt (set_send [] quiet)
              [CallDial;
               CallSendMessage the_conn "host:transport-any";
               CallReadStatus the_conn "host:transport-any";
               CallSendMessage the_conn "sync:"] in
  let wrapped operation :=
    Some (Err NetworkError
            ("error performing " +:+ (operation +:+ "(" +:+ "/sdcard" +:+ ")") +:+
             " on *adb.Device")
            (Some any_device) (Some write_failed)) in
  Stat any_device "/sdcard" s = (Ret (None, wrapped "Stat"), s1) /\
  ListDirEntries any_device "/sdcard" s = (Ret (None, wrapped "ListDirEntries"), s1) /\
  OpenRead any_device "/sdcard" s = (Ret (None, wrapped "OpenRead"), s1) /\
  (forall perms mtime,
     OpenWrite any_device "/sdcard" perms mtime s = (Ret (None, wrapped "OpenWrite"), s1)).
Proof.
  intros s s1.
  apply (sync_operations_name_the_path any_device "/sdcard" s s1 NetworkError
           "error writing message" None None).
  vm_compute. reflexivity.
Defined.

Lemma PushWithProgress_wraps_open_error_twice_witness :
  let w := set_send [None; Some write_failed] with_hello in
  exists w',
    PushWithProgress abc123 true "/tmp/hello.txt" "/sdcard/hello.txt" (Some 0%nat)
      (start w) =
      (Ret (Some (Err NetworkError "error performing PushWithProgress on *adb.Device"
                    (Some abc123)
                    (Some (Err NetworkError
                             ("error performing " +:+
                              ("OpenWrite(" +:+ "/sdcard/hello.txt" +:+ ")") +:+
                              " on *adb.Device")
                             (Some abc123) (Some write_failed))))),
       mkSt w'
         ([CallOpen "/tmp/hello.txt"; CallStat "/tmp/hello.txt";
           CallDial;
           CallSendMessage the_conn "host:transport:ABC123";
           CallReadStatus the_conn "host:transport:ABC123";
           CallSendMessage the_conn "sync:"] ++ [CallFileClose (fname hello_file)])).
Proof.
  intros w.
  apply (PushWithProgress_wraps_open_error_twice abc123 true "/tmp/hello.txt"
           "/sdcard/hello.txt" (Some 0%nat) (start w)
           (mkSt (set_send [] with_hello)
              [CallOpen "/tmp/hello.txt"; CallStat "/tmp/hello.txt";
               CallDial;
               CallSendMessage the_conn "host:transport:ABC123";
               CallReadStatus the_conn "host:transport:ABC123";
               CallSendMessage the_conn "sync:"])
           hello_file hello_info w w NetworkError "error writing message" None None);
    first [discriminate | vm_compute; reflexivity].
Defined.

Lemma ClearForwardBySerial_edge_cases_witness :
  ClearForwardBySerial abc123 "emulator-5554" 6100 "minicap" (start quiet) =
    (Ret ("-s ABC123 forward", None), start quiet) /\
  ClearForwardBySerial abc123 "ABC123" 0 "minicap" (start quiet) =
    (Panic "runtime error: index out of range [2] with length 2", start quiet).
Proof.
  assert (Hlist : RunAdbCmd abc123
                    ("-s " +:+ serial (descriptor abc123) +:+ " forward" +:+ "  --list ")
                    (world (start quiet)) = ((forward_list, None), quiet))
    by (vm_compute; reflexivity).
  destruct (ClearForwardBySerial_edge_cases abc123 "emulator-5554" 6100 "minicap"
              (start quiet) forward_list quiet Hlist) as [Hnone _].
  destruct (ClearForwardBySerial_edge_cases abc123 "ABC123" 0 "minicap"
              (start quiet) forward_list quiet Hlist) as [_ Hshort].
  split.
  - rewrite Hnone; [vm_compute; reflexivity |].
    replace (MoreStrings.Split forward_list (ascii_of_nat 10))
      with ["XYZ789 tcp:6200 localabstract:minicap"; "ABC123 tcp:6300";
            "ABC123 tcp:6100 tcp:7100"; EmptyString]
      by (vm_compute; reflexivity).
    repeat (apply List.Forall_cons; [right; reflexivity |]). apply List.Forall_nil.
  - apply (Hshort ["XYZ789 tcp:6200 localabstract:minicap"] "ABC123 tcp:6300"
             ["ABC123 tcp:6100 tcp:7100"; EmptyString] "ABC123" "tcp:6300").
    + vm_compute. reflexivity.
    + apply List.Forall_cons; [right; reflexivity | apply List.Forall_nil].
    + intros [Hblank | Hprefix]; [vm_compute in Hblank | vm_compute in Hprefix];
        discriminate.
    + vm_compute. reflexivity.
    + discriminate.
    + left. lia.
Defined.

(** White space beyond ASCII: a no-break space (C2 A0) separates fields
    and is trimmed, as [unicode.IsSpace] has it; a line with it has three
    fields and the loop of [ClearForwardBySerial] reads its third field. *)
Example Fields_no_break_space :
  let nbsp := String (ascii_of_nat 194) (String (ascii_of_nat 160) EmptyString) in
  MoreStrings.Fields ("ABC123 tcp:6300" +:+ nbsp +:+ "x") = ["ABC123"; "tcp:6300"; "x"] /\
  Strings.TrimSpace (nbsp +:+ " " +:+ nbsp) = EmptyString /\
  remove_args ["ABC123 tcp:6300" +:+ nbsp +:+ "x"] "ABC123" 0 "minicap" EmptyString =
    Ret EmptyString.
Proof. vm_compute. repeat split. Qed.

Lemma copyFile_reports_running_totals_witness :
  let src := [{| rbytes := "he"; rerr := None |};
              {| rbytes := EmptyString; rerr := None |};
              {| rbytes := "llo"; rerr := None |}] in
  exists s',
    copyFile (remote_Write the_writer) src 5 (Some 0%nat) (start quiet) = (Ret None, s') /\
    handled (calls s') = [(2, 5); (5, 5)].
Proof.
  intros src.
  destruct (copyFile_reports_running_totals (fun w => write_results w = []) the_writer
              src 5 (start quiet)) as [Hrun _].
  - reflexivity.
  - intros p w Hw. exists w. split; [| exact Hw].
    unfold Writer_Write, wire. now rewrite Hw.
  - repeat apply List.Forall_cons; try reflexivity. apply List.Forall_nil.
  - destruct (Hrun 0%nat) as (s' & Hcopy & Hhandled).
    exists s'. split; [exact Hcopy |]. rewrite Hhandled. vm_compute. reflexivity.
Defined.

Lemma pointer_helpers_reach_the_device_witness :
  let s1 := mkSt quiet [CallDial;
                        CallSendMessage the_conn "host:transport-any";
                        CallReadStatus the_conn "host:transport-any"] in
  exists o s' rest,
    Click any_device (-436) 1291 (start quiet) = (o, s') /\
    calls s' =
      (calls s1 ++
       CallSendMessage the_conn
         ("shell:" +:+ "input" +:+ " " +:+ "tap " +:+ pretty (-436) +:+ " " +:+ pretty 1291)
         :: rest)%list.
Proof.
  intros s1.
  assert (Hdial : dialDevice any_device (start quiet) = (Ret (Some the_conn, None), s1))
    by (vm_compute; reflexivity).
  apply (proj1 (pointer_helpers_reach_the_device any_device (start quiet) s1 the_conn
                  Hdial)).
Defined.

(** The request of a click with a negative coordinate. *)
Example Click_request :
  nth_error (calls (snd (Click any_device (-436) 1291 (start quiet)))) 3 =
  Some (CallSendMessage the_conn "shell:input tap -436 1291").
Proof. vm_compute. reflexivity. Qed.
